(** * morning_dashboard: a shallow embedding and its verified properties

  The program composes a daily status message (weather, calendar, to-dos,
  birthdays) and delivers it as an image, or as plain text when the image
  path fails.  This development embeds the pure parts of
  [morning_dashboard.py] as Rocq functions and the effectful parts
  (subprocess, files, network, drawing) as functions of an explicit
  environment, and proves the properties stated about them.

  Conventions.
  - A Python [str] is a list of Unicode code points ([pystr]); whitespace is
    the set [str.isspace] accepts.
  - A Python [int] is a [Z]; a Python [float] is [pyfloat]: an exact
    rational, or one of the special values.  Rounding of binary floating
    point is not modelled.
  - A call that can raise returns a [result]. *)

From Stdlib Require Import ZArith NArith QArith Qround Lqa Lia Bool.
From Stdlib Require Import List String Ascii DecimalString.
From Stdlib Require Import Sorted Permutation.
Import ListNotations.


(* ================================================================== *)
(** * Python strings *)
(* ================================================================== *)

Module PyStr.

(** A code point. *)
Definition char := N.
Definition pystr := list char.

(** UTF-8 decoding, used to read the literals of the source. *)
Fixpoint utf8_decode (bs : list N) : pystr :=
  match bs with
  | [] => []
  | b0 :: r0 =>
      if (b0 <? 128)%N then b0 :: utf8_decode r0
      else match r0 with
           | [] => [b0]
           | b1 :: r1 =>
               if (b0 <? 224)%N then
                 ((b0 - 192) * 64 + (b1 - 128))%N :: utf8_decode r1
               else match r1 with
                    | [] => [b0; b1]
                    | b2 :: r2 =>
                        if (b0 <? 240)%N then
                          ((b0 - 224) * 4096 + (b1 - 128) * 64 + (b2 - 128))%N
                            :: utf8_decode r2
                        else match r2 with
                             | [] => [b0; b1; b2]
                             | b3 :: r3 =>
                                 ((b0 - 240) * 262144 + (b1 - 128) * 4096
                                  + (b2 - 128) * 64 + (b3 - 128))%N
                                   :: utf8_decode r3
                             end
                    end
           end
  end.

(** The string a source literal denotes. *)
Definition str (s : string) : pystr :=
  utf8_decode (map N_of_ascii (list_ascii_of_string s)).

(** [str.isspace] on one code point. *)
Definition is_space (c : char) : bool :=
  ((9 <=? c) && (c <=? 13) || (28 <=? c) && (c <=? 32)
   || (c =? 133) || (c =? 160) || (c =? 5760)
   || (8192 <=? c) && (c <=? 8202)
   || (c =? 8232) || (c =? 8233) || (c =? 8239) || (c =? 8287)
   || (c =? 12288))%N.

Definition SP : char := 32%N.
Definition NL : char := 10%N.
Definition COLON : char := 58%N.

(** Truthiness of a string: [if s]. *)
Definition truthy (s : pystr) : bool :=
  match s with [] => false | _ => true end.

Fixpoint eqb (s t : pystr) : bool :=
  match s, t with
  | [], [] => true
  | c :: s', d :: t' => (c =? d)%N && eqb s' t'
  | _, _ => false
  end.

(** [s.startswith(p)] *)
Fixpoint startswith (p s : pystr) : bool :=
  match p, s with
  | [], _ => true
  | c :: p', d :: s' => (c =? d)%N && startswith p' s'
  | _ :: _, [] => false
  end.

(** [s.lstrip()], [s.rstrip()], [s.strip()] *)
Fixpoint lstrip (s : pystr) : pystr :=
  match s with
  | [] => []
  | c :: s' => if is_space c then lstrip s' else s
  end.

Definition rstrip (s : pystr) : pystr := rev (lstrip (rev s)).

Definition strip (s : pystr) : pystr := rstrip (lstrip s).

(** [s.split(sep)] for a one-character separator. *)
Fixpoint split_on (sep : char) (s : pystr) : list pystr :=
  match s with
  | [] => [[]]
  | c :: s' =>
      if (c =? sep)%N then [] :: split_on sep s'
      else match split_on sep s' with
           | l :: ls => (c :: l) :: ls
           | [] => [[c]]
           end
  end.

(** [s.split()]: the maximal runs of non-whitespace. *)
Fixpoint split (s : pystr) : list pystr :=
  match s with
  | [] => []
  | c :: s' =>
      if is_space c then split s'
      else match s' with
           | [] => [[c]]
           | d :: _ =>
               if is_space d then [c] :: split s'
               else match split s' with
                    | w :: ws => (c :: w) :: ws
                    | [] => [[c]]
                    end
           end
  end.

(** The first whitespace-delimited word of a string that starts with a
    non-space, and what follows it. *)
Fixpoint span_word (s : pystr) : pystr * pystr :=
  match s with
  | [] => ([], [])
  | c :: s' =>
      if is_space c then ([], s)
      else let (w, r) := span_word s' in (c :: w, r)
  end.

(** [s.split(maxsplit=1)] *)
Definition split1 (s : pystr) : list pystr :=
  match lstrip s with
  | [] => []
  | t =>
      let (w, r) := span_word t in
      match lstrip r with
      | [] => [w]
      | r' => [w; r']
      end
  end.

(** [sep.join(ws)] *)
Fixpoint join (sep : pystr) (ws : list pystr) : pystr :=
  match ws with
  | [] => []
  | [w] => w
  | w :: ws' => w ++ sep ++ join sep ws'
  end.

(** [s.count(c)] for a one-character needle. *)
Definition count (c : char) (s : pystr) : Z :=
  Z.of_nat (List.length (filter (N.eqb c) s)).

(** [c in s] for a one-character needle. *)
Definition contains (c : char) (s : pystr) : bool := existsb (N.eqb c) s.

Definition len (s : pystr) : Z := Z.of_nat (List.length s).

(** [str(n)] for an integer. *)
Definition of_int (n : Z) : pystr :=
  str (NilEmpty.string_of_int (Z.to_int n)).

(** A word, as [split] returns them: not empty, and without whitespace. *)
Definition word (w : pystr) : Prop :=
  w <> [] /\ Forall (fun c => is_space c = false) w.

End PyStr.

Import PyStr.

(** Python sequences: indexing with negative positions, and [l[:n]]. *)
Module PySeq.

Definition index {A} (l : list A) (i : Z) : option A :=
  let n := Z.of_nat (List.length l) in
  if (i <? 0)%Z then
    if (i + n <? 0)%Z then None else nth_error l (Z.to_nat (i + n))
  else nth_error l (Z.to_nat i).

Definition take {A} (n : Z) (l : list A) : list A :=
  if (n <? 0)%Z then firstn (Z.to_nat (Z.of_nat (List.length l) + n)) l
  else firstn (Z.to_nat n) l.

(** [if l] for a list. *)
Definition truthy_list {A} (l : list A) : bool :=
  match l with [] => false | _ => true end.

(** [len(l)] *)
Definition len_list {A} (l : list A) : Z := Z.of_nat (List.length l).

End PySeq.

Import PySeq.

(** A Python [float]. *)
Inductive pyfloat : Type :=
| Finite (q : Q)
| NaN
| PosInf
| NegInf.

(** The outcome of a call that may raise; [Raised] carries [str(e)]. *)
Inductive result (A : Type) : Type :=
| Returned (a : A)
| Raised (msg : pystr).
Arguments Returned {A} a.
Arguments Raised {A} msg.

(* ================================================================== *)
(** * Wind direction ([_wind_dir_label]) *)
(* ================================================================== *)

Module Wind.

Definition dirs : list pystr :=
  [str "N"; str "NO"; str "O"; str "SO"; str "S"; str "SW"; str "W"; str "NW"].

(** [int((deg + 22.5) // 45)]; [None] when the conversion raises (the floor
    quotient of a NaN or an infinity is NaN, which [int] rejects). *)
Definition floor_quot (deg : pyfloat) : option Z :=
  match deg with
  | Finite q => Some (Qfloor ((q + 22.5) / 45))
  | NaN | PosInf | NegInf => None
  end.

Definition _wind_dir_label (deg : pyfloat) : pystr :=
  match floor_quot deg with
  | Some k =>
      let idx := (k mod 8)%Z in
      match PySeq.index dirs idx with
      | Some d => d
      | None => str "?"
      end
  | None => str "?"
  end.

End Wind.

(* ================================================================== *)
(** * Weather code to icon ([_weather_code_to_kind], [_pick_icon_for_weather]) *)
(* ================================================================== *)

Module Icons.

(** The argument of [_weather_code_to_kind], by what the function does with
    it: [None]; a value [int()] converts to [c] (an [int] converts to
    itself); a value on which [int()] raises. *)
Inductive code_arg : Type :=
| CodeNone
| CodeInt (c : Z)
| CodeBad.

(** [c in (k1, k2, ...)] *)
Definition mem (c : Z) (ks : list Z) : bool := existsb (Z.eqb c) ks.

Definition _weather_code_to_kind (code : code_arg) : pystr :=
  match code with
  | CodeNone => str "cloud"
  | CodeBad => str "cloud"
  | CodeInt c =>
      if (c =? 0)%Z then str "sun"
      else if mem c [1; 2; 3]%Z then str "cloud"
      else if mem c [45; 48]%Z then str "fog"
      else if mem c [51; 53; 55; 56; 57]%Z then str "drizzle"
      else if mem c [61; 63; 65; 66; 67]%Z then str "rain"
      else if mem c [71; 73; 75; 77]%Z then str "snow"
      else if mem c [80; 81; 82]%Z then str "rain"
      else if mem c [85; 86]%Z then str "snow"
      else if mem c [95; 96; 99]%Z then str "storm"
      else str "cloud"
  end.

(** The drawing routine an icon request ends in, with its arguments. *)
Inductive icon : Type :=
| _icon_sun (size : Z)
| _icon_cloud (size : Z) (rain snow : bool)
| _icon_fog (size : Z)
| _icon_thermo (size : Z)
| _icon_drop (size : Z)
| _icon_wind (size : Z).

Definition _pick_icon_for_weather (kind : pystr) (size : Z) : icon :=
  if PyStr.eqb kind (str "sun") then _icon_sun size
  else if existsb (PyStr.eqb kind) [str "rain"; str "drizzle"; str "storm"]
       then _icon_cloud size true false
  else if PyStr.eqb kind (str "snow") then _icon_cloud size false true
  else if PyStr.eqb kind (str "fog") then _icon_fog size
  else _icon_cloud size false false.

(** The documented table, written from the specification: the icon kinds and
    the bucket of every code. *)
Inductive icon_kind : Type := Sun | Cloud | Fog | RainCloud | SnowCloud.

Definition documented_bucket (code : option Z) : icon_kind :=
  match code with
  | None => Cloud
  | Some c =>
      if mem c [0]%Z then Sun
      else if mem c [1; 2; 3]%Z then Cloud
      else if mem c [45; 48]%Z then Fog
      else if mem c [51; 53; 55; 56; 57]%Z then RainCloud
      else if mem c [61; 63; 65; 66; 67; 80; 81; 82]%Z then RainCloud
      else if mem c [71; 73; 75; 77; 85; 86]%Z then SnowCloud
      else if mem c [95; 96; 99]%Z then RainCloud
      else Cloud
  end.

(** The kind names the table gives to drizzle and storm codes. *)
Definition documented_name (code : option Z) : pystr :=
  match code with
  | None => str "cloud"
  | Some c =>
      if mem c [0]%Z then str "sun"
      else if mem c [1; 2; 3]%Z then str "cloud"
      else if mem c [45; 48]%Z then str "fog"
      else if mem c [51; 53; 55; 56; 57]%Z then str "drizzle"
      else if mem c [61; 63; 65; 66; 67; 80; 81; 82]%Z then str "rain"
      else if mem c [71; 73; 75; 77; 85; 86]%Z then str "snow"
      else if mem c [95; 96; 99]%Z then str "storm"
      else str "cloud"
  end.

(** The picture of an icon kind. *)
Definition icon_of_kind (k : icon_kind) (size : Z) : icon :=
  match k with
  | Sun => _icon_sun size
  | Cloud => _icon_cloud size false false
  | Fog => _icon_fog size
  | RainCloud => _icon_cloud size true false
  | SnowCloud => _icon_cloud size false true
  end.

Definition arg_of (code : option Z) : code_arg :=
  match code with None => CodeNone | Some c => CodeInt c end.

End Icons.

(* ================================================================== *)
(** * Calendar adapter ([get_calendar]) *)
(* ================================================================== *)

Module Calendar.

(** The filter of the list comprehension. *)
Definition is_event (l : pystr) : bool :=
  negb (startswith (str "Today,") l) && truthy (strip l).

(** [run] is what [subprocess.run] did: it returned with the captured
    standard output, or it raised (tool missing, timeout, any exception). *)
(** [result.stdout.strip().split("\n") if result.stdout else []] *)
Definition output_lines (stdout : pystr) : list pystr :=
  if truthy stdout then split_on NL (strip stdout) else [].

Definition get_calendar (run : result pystr) : list pystr :=
  match run with
  | Returned stdout =>
      let lines := output_lines stdout in
      let events := filter is_event lines in
      match events with
      | [] => [str "Keine Termine"]
      | _ => events
      end
  | Raised e => [str "Fehler: " ++ e]
  end.

End Calendar.

(* ================================================================== *)
(** * To-do adapter ([get_todos_lines]) *)
(* ================================================================== *)

Module Todos.

(** The dated file: absent ([os.path.exists] is false), present but reading
    raises, or read, with [raw] the result of [f.read().splitlines()]. *)
Inductive todo_file : Type :=
| Absent
| Unreadable
| Lines (raw : list pystr).

(** One iteration of the loop over [raw]. *)
Definition task_step (tasks : list pystr) (ln : pystr) : list pystr :=
  let s := strip ln in
  if negb (truthy s) then tasks
  else if startswith (str "#") s then tasks
  else if startswith (str "- [") s then tasks ++ [s]
  else tasks.

Definition placeholder : list pystr := [str "Keine To-dos für heute"].

Definition more_line (n : Z) : pystr :=
  str "… (+" ++ of_int n ++ str " weitere)".

Definition get_todos_lines (max_lines : Z) (file : todo_file) : list pystr :=
  match file with
  | Absent => placeholder
  | Unreadable => placeholder
  | Lines raw =>
      let tasks := fold_left task_step raw [] in
      match tasks with
      | [] => placeholder
      | _ =>
          if (len_list tasks >? max_lines)%Z
          then PySeq.take max_lines tasks ++ [more_line (len_list tasks - max_lines)]
          else tasks
      end
  end.

End Todos.

(* ================================================================== *)
(** * Greedy word wrap ([_wrap]) *)
(* ================================================================== *)

Section WrapDef.

(** Fonts, and the right edge of [draw.textbbox((0, 0), s, font=font)]. *)
Variable font : Type.
Variable textbbox_right : font -> pystr -> Z.

(** The loop state: the finished lines and the words of the current line. *)
Definition wrap_state : Type := (list pystr * list pystr)%type.

(** One iteration of the loop over the words. *)
Definition wrap_step (f : font) (max_width : Z) (st : wrap_state) (w : pystr)
  : wrap_state :=
  let (lines, cur) := st in
  let trial := strip (join [SP] (cur ++ [w])) in
  let right := textbbox_right f trial in
  if (right <=? max_width)%Z || negb (truthy_list cur)
  then (lines, cur ++ [w])
  else (lines ++ [join [SP] cur], [w]).

(** What follows the loop. *)
Definition wrap_finish (st : wrap_state) : list pystr :=
  let (lines, cur) := st in
  if truthy_list cur then lines ++ [join [SP] cur] else lines.

Definition _wrap (text : pystr) (f : font) (max_width : Z) : list pystr :=
  let words := split text in
  wrap_finish (fold_left (wrap_step f max_width) words ([], [])).

(** The words [cur] stay on one line when they are wrapped on their own. *)
Definition one_line (f : font) (max_width : Z) (cur : list pystr) : Prop :=
  fold_left (wrap_step f max_width) cur ([], []) = ([], cur).

(** A finished line: the words of a non-empty [cur] that stay on one line,
    joined by single spaces. *)
Definition settled (f : font) (max_width : Z) (line : pystr) : Prop :=
  exists cur, cur <> [] /\ Forall word cur /\ one_line f max_width cur
              /\ line = join [SP] cur.

(** The invariant of the loop of [_wrap]. *)
Definition wrap_inv (f : font) (max_width : Z) (st : wrap_state) : Prop :=
  Forall (settled f max_width) (fst st) /\ Forall word (snd st)
  /\ one_line f max_width (snd st).

End WrapDef.

Arguments wrap_step {font} textbbox_right f max_width st w.
Arguments wrap_finish st : clear implicits.
Arguments _wrap {font} textbbox_right text f max_width.
Arguments one_line {font} textbbox_right f max_width cur.
Arguments settled {font} textbbox_right f max_width line.
Arguments wrap_inv {font} textbbox_right f max_width st.

(* ================================================================== *)
(** * Birthday adapter ([get_upcoming_birthdays]) *)
(* ================================================================== *)

Module Birthdays.

(** [datetime.date]: the proleptic Gregorian calendar, years 1 to 9999. *)
Record date : Type := mkdate { year : Z; month : Z; day : Z }.

Definition is_leap (y : Z) : bool :=
  ((y mod 4 =? 0) && (negb (y mod 100 =? 0) || (y mod 400 =? 0)))%Z.

Definition days_in_month (y m : Z) : Z :=
  if (m =? 2)%Z then (if is_leap y then 29 else 28)%Z
  else if existsb (Z.eqb m) [4; 6; 9; 11]%Z then 30%Z
  else 31%Z.

(** The check the [date] constructor makes; a failure is a [ValueError]. *)
Definition valid_date (y m d : Z) : bool :=
  ((1 <=? y) && (y <=? 9999) && (1 <=? m) && (m <=? 12)
   && (1 <=? d) && (d <=? days_in_month y m))%Z.

(** [d.replace(year=y, month=m, day=dd)]; [None] is the [ValueError]. *)
Definition replace (y m d : Z) : option date :=
  if valid_date y m d then Some (mkdate y m d) else None.

Definition days_before_year (y : Z) : Z :=
  let p := (y - 1)%Z in (p * 365 + p / 4 - p / 100 + p / 400)%Z.

Fixpoint days_before_month_from (y : Z) (m : nat) : Z :=
  match m with
  | O => 0%Z
  | S k => (days_before_month_from y k + days_in_month y (Z.of_nat (S k)))%Z
  end.

(** The days of the year that precede the first day of month [m]. *)
Definition days_before_month (y m : Z) : Z :=
  days_before_month_from y (Z.to_nat (m - 1)).

(** [d.toordinal()] *)
Definition toordinal (d : date) : Z :=
  (days_before_year (year d) + days_before_month (year d) (month d) + day d)%Z.

(** [a < b] on dates: the order of (year, month, day). *)
Definition date_ltb (a b : date) : bool :=
  ((year a <? year b)
   || (year a =? year b)
      && ((month a <? month b) || (month a =? month b) && (day a <? day b)))%Z.

(** [(a - b).days] *)
Definition days_between (a b : date) : Z := (toordinal a - toordinal b)%Z.

(** One value of the JSON mapping; a field is [None] when the key is absent
    or null, and the fields that are present are integers. *)
Record entry : Type := mkentry
  { e_day : option Z; e_month : option Z; e_year : option Z }.

(** [not v] for an optional integer. *)
Definition falsy (v : option Z) : bool :=
  match v with None => true | Some z => (z =? 0)%Z end.

Definition get0 (v : option Z) : Z :=
  match v with None => 0%Z | Some z => z end.

(** The source file: missing ([FileNotFoundError]); not JSON
    ([json.JSONDecodeError]); failing with another exception, which the
    adapter does not catch (the file cannot be opened or decoded as text, or
    holds JSON of another shape than a mapping to objects with integer
    fields); or loaded, with the items of the mapping in their order. *)
Inductive birthdays_file : Type :=
| Missing
| Malformed
| Failing (msg : pystr)
| Loaded (items : list (pystr * entry)).

(** An element of [upcoming]: (days_until, name, age). *)
Definition upcoming_t : Type := (Z * pystr * option Z)%type.

(** The next occurrence of an entry's day and month, when the loop body does
    not [continue]. *)
Definition occurrence (today : date) (data : entry) : option date :=
  if falsy (e_day data) || falsy (e_month data) then None
  else
    match replace (year today) (get0 (e_month data)) (get0 (e_day data)) with
    | None => None
    | Some birthday_this_year =>
        if date_ltb birthday_this_year today
        then replace (year today + 1) (month birthday_this_year)
                     (day birthday_this_year)
        else Some birthday_this_year
    end.

(** [age]: [None] unless the entry has a birth year that is not zero. *)
Definition age_at (data : entry) (birthday : date) : option Z :=
  if falsy (e_year data) then None
  else Some (year birthday - get0 (e_year data))%Z.

(** One iteration of the loop over the items. *)
Definition scan_step (days : Z) (today : date) (upcoming : list upcoming_t)
  (item : pystr * entry) : list upcoming_t :=
  let (name, data) := item in
  match occurrence today data with
  | None => upcoming
  | Some birthday_this_year =>
      let days_until := days_between birthday_this_year today in
      if (days_until <=? days)%Z then
        let age := age_at data birthday_this_year in
        upcoming ++ [(days_until, name, age)]
      else upcoming
  end.

(** [upcoming.sort(key=lambda x: x[0])]: a stable sort on the first field. *)
Fixpoint insert_by_days (x : upcoming_t) (l : list upcoming_t)
  : list upcoming_t :=
  match l with
  | [] => [x]
  | y :: l' =>
      if (fst (fst x) <=? fst (fst y))%Z then x :: l
      else y :: insert_by_days x l'
  end.

Definition sort_by_days (l : list upcoming_t) : list upcoming_t :=
  fold_right insert_by_days [] l.

(** [f" ({age})" if age else ""]: [None] and 0 are falsy. *)
Definition age_str (age : option Z) : pystr :=
  match age with
  | Some a => if (a =? 0)%Z then [] else str " (" ++ of_int a ++ str ")"
  | None => []
  end.

(** [prefix] *)
Definition day_prefix (days_until : Z) : pystr :=
  if (days_until =? 0)%Z then str "Heute"
  else if (days_until =? 1)%Z then str "Morgen"
  else str "in " ++ of_int days_until ++ str " Tagen".

(** The body of the formatting loop. *)
Definition format_entry (u : upcoming_t) : pystr :=
  let '(days_until, name, age) := u in
  day_prefix days_until ++ str ": " ++ name ++ age_str age.

Definition get_upcoming_birthdays (days : Z) (today : date)
  (file : birthdays_file) : result (list pystr) :=
  match file with
  | Missing => Returned []
  | Malformed => Returned []
  | Failing msg => Raised msg
  | Loaded items =>
      let upcoming := fold_left (scan_step days today) items [] in
      Returned (map format_entry (sort_by_days upcoming))
  end.

(** A date the [date] constructor accepts. *)
Definition valid (d : date) : Prop :=
  valid_date (year d) (month d) (day d) = true.

Definition year_length (y : Z) : Z := if is_leap y then 366%Z else 365%Z.



End Birthdays.

(* ================================================================== *)
(** * Weather adapter ([get_weather]) *)
(* ================================================================== *)

Section WeatherDef.

(** A decoded JSON value other than null, with the conversions the adapter
    applies to it; [None] is the exception the conversion raises. *)
Variable JVal : Type.
Variable fmt_1f : JVal -> option pystr.      (* f"{v:.1f}" *)
Variable py_int : JVal -> option Z.          (* int(v) *)
Variable py_float : JVal -> option pyfloat.  (* float(v) *)
Variable fmt_0f : pyfloat -> pystr.          (* f"{x:.0f}" *)

(** The fields the adapter reads from a decoded response; [None] is Python's
    [None] (key absent, or null). *)
Record response : Type := mkresponse
  { r_t : option JVal; r_hum : option JVal; r_ws : option JVal;
    r_wd : option JVal; r_wcode : option JVal;
    r_tmax : option JVal; r_tmin : option JVal }.

(** One attempt: [urlopen], decoding or field access raised, or the fields
    were read. *)
Inductive fetch : Type :=
| FetchRaised
| Fetched (r : response).

Definition weather_line : Type := (pystr * pystr)%type.

Record snapshot : Type := mksnapshot
  { ok : bool;
    weather_code : option JVal;
    lines : list (option weather_line) }.

(** The "humidity" element of [lines]; the outer [None] is an exception. *)
Definition humidity_line (hum : option JVal) : option (option weather_line) :=
  match hum with
  | None => Some None
  | Some h =>
      match py_int h with
      | Some n => Some (Some (str "humidity", of_int n ++ str "% Luftfeuchte"))
      | None => None
      end
  end.

(** The "wind" element of [lines]; the outer [None] is an exception. *)
Definition wind_line (ws wd : option JVal) : option (option weather_line) :=
  match ws with
  | None => Some None
  | Some s =>
      match wd with
      | Some d =>
          match py_float d, py_float s with
          | Some fd, Some fs =>
              Some (Some (str "wind",
                          Wind._wind_dir_label fd ++ str " " ++ fmt_0f fs
                            ++ str " km/h"))
          | _, _ => None
          end
      | None =>
          match py_float s with
          | Some fs => Some (Some (str "wind", fmt_0f fs ++ str " km/h"))
          | None => None
          end
      end
  end.

(** The body of the [try] after the response is decoded; [None] is any
    exception, the "missing fields" [ValueError] included. *)
Definition snapshot_of (r : response) : option snapshot :=
  match r_t r, r_tmax r, r_tmin r with
  | Some t, Some tmax, Some tmin =>
      match fmt_1f t, fmt_1f tmin, fmt_1f tmax,
            humidity_line (r_hum r), wind_line (r_ws r) (r_wd r) with
      | Some st, Some smin, Some smax, Some hl, Some wl =>
          Some (mksnapshot true (r_wcode r)
                  [ Some (str "temp", st ++ str "°C aktuell");
                    Some (str "range", smin ++ str "°C / " ++ smax ++ str "°C");
                    hl; wl ])
      | _, _, _, _, _ => None
      end
  | _, _, _ => None
  end.

Definition attempt (f : fetch) : option snapshot :=
  match f with
  | FetchRaised => None
  | Fetched r => snapshot_of r
  end.

Definition unavailable : snapshot :=
  mksnapshot false None [Some (str "info", str "Wetterdaten nicht verfügbar")].

(** What the adapter does to the outside world. *)
Inductive net_event : Type :=
| Urlopen (attempt_no : nat) (timeout : Z)
| Sleep.

(** [for _ in range(n)]: [k] attempts were made before; [fetches i] is the
    outcome of attempt [i]. *)
Fixpoint retry_loop (fetches : nat -> fetch) (n k : nat)
  (trace : list net_event) : snapshot * list net_event :=
  match n with
  | O => (unavailable, trace)
  | S n' =>
      let trace' := trace ++ [Urlopen k 12] in
      match attempt (fetches k) with
      | Some s => (s, trace')
      | None => retry_loop fetches n' (S k) trace'
      end
  end.

(** The first [n] requests, in order. *)
Definition requests (n : nat) : list net_event :=
  map (fun k => Urlopen k 12) (seq 0 n).

Definition get_weather_run (fetches : nat -> fetch)
  : snapshot * list net_event :=
  retry_loop fetches 3 0 [].

Definition get_weather (fetches : nat -> fetch) : snapshot :=
  fst (get_weather_run fetches).

End WeatherDef.

Arguments mkresponse {JVal}.
Arguments r_t {JVal}.
Arguments r_hum {JVal}.
Arguments r_ws {JVal}.
Arguments r_wd {JVal}.
Arguments r_wcode {JVal}.
Arguments r_tmax {JVal}.
Arguments r_tmin {JVal}.
Arguments FetchRaised {JVal}.
Arguments Fetched {JVal} r.
Arguments mksnapshot {JVal}.
Arguments ok {JVal}.
Arguments weather_code {JVal}.
Arguments lines {JVal}.
Arguments unavailable {JVal}.
Arguments humidity_line {JVal} py_int hum.
Arguments wind_line {JVal} py_float fmt_0f ws wd.
Arguments snapshot_of {JVal} fmt_1f py_int py_float fmt_0f r.
Arguments attempt {JVal} fmt_1f py_int py_float fmt_0f f.
Arguments retry_loop {JVal} fmt_1f py_int py_float fmt_0f fetches n k trace.
Arguments get_weather_run {JVal} fmt_1f py_int py_float fmt_0f fetches.
Arguments get_weather {JVal} fmt_1f py_int py_float fmt_0f fetches.

(** Numeric JSON values, with Python's conversions on exact values. *)
Module JsonNum.

Inductive jnum : Type :=
| JInt (z : Z)
| JFloat (x : pyfloat).

(** Rounding to the nearest integer, ties to the even one. *)
Definition round_half_even (q : Q) : Z :=
  let fl := Qfloor q in
  match Qcompare (q - inject_Z fl) (1 # 2) with
  | Lt => fl
  | Gt => (fl + 1)%Z
  | Eq => if Z.even fl then fl else (fl + 1)%Z
  end.

Definition is_negative (q : Q) : bool :=
  match Qcompare q 0 with Lt => true | _ => false end.

(** [f"{x:.0f}"] *)
Definition fmt_0f (x : pyfloat) : pystr :=
  match x with
  | Finite q =>
      (if is_negative q then str "-" else [])
        ++ of_int (Z.abs (round_half_even q))
  | NaN => str "nan"
  | PosInf => str "inf"
  | NegInf => str "-inf"
  end.

(** [f"{x:.1f}"] for a float. *)
Definition fmt_1f_float (x : pyfloat) : pystr :=
  match x with
  | Finite q =>
      let tenths := Z.abs (round_half_even (q * 10)) in
      (if is_negative q then str "-" else [])
        ++ of_int (tenths / 10) ++ str "." ++ of_int (tenths mod 10)
  | NaN => str "nan"
  | PosInf => str "inf"
  | NegInf => str "-inf"
  end.

Definition py_float (v : jnum) : option pyfloat :=
  match v with
  | JInt z => Some (Finite (inject_Z z))
  | JFloat x => Some x
  end.

(** [f"{v:.1f}"]: an [int] is formatted as the float of its value. *)
Definition fmt_1f (v : jnum) : option pystr :=
  match v with
  | JInt z => Some (fmt_1f_float (Finite (inject_Z z)))
  | JFloat x => Some (fmt_1f_float x)
  end.

(** [int(v)]: truncation toward zero; NaN and the infinities are rejected. *)
Definition py_int (v : jnum) : option Z :=
  match v with
  | JInt z => Some z
  | JFloat (Finite q) => Some (Z.quot (Qnum q) (Z.pos (Qden q)))
  | JFloat _ => None
  end.

End JsonNum.

(* ================================================================== *)
(** * Card layout ([card_block]) *)
(* ================================================================== *)

Section CardDef.

Variable font : Type.
Variable textbbox_right : font -> pystr -> Z.
(** The fonts of the header and of the content. *)
Variables f_h f_txt : font.
(** [str.lower] *)
Variable lower : pystr -> pystr.
(** Colours: the values of [white], [muted] and [divider] in the renderer. *)
Variable colour : Type.
Variables white muted divider : colour.

(** The drawing calls, in the order made. *)
Inductive draw_op : Type :=
| PasteShadow (x y w h radius : Z)
| RoundedRectangle (x0 y0 x1 y1 radius : Z) (fill : colour)
| DrawText (x y : Z) (s : pystr) (fill : colour) (f : font)
| DrawLine (x0 y0 x1 y1 : Z) (fill : colour) (width : Z).

(** [_rounded_with_shadow] *)
Definition _rounded_with_shadow (style : pystr) (x y w h radius : Z)
  (fill_rgb : colour) : list draw_op :=
  (if PyStr.eqb style (str "cards")
   then [PasteShadow (x - 20) (y - 10) (w + 40) (h + 40) radius]
   else [])
  ++ [RoundedRectangle x y (x + w) (y + h) radius fill_rgb].

(** The first prefix of the tuple that [s] starts with is cut off. *)
Fixpoint cut_first_prefix (prefixes : list pystr) (s : pystr) : pystr :=
  match prefixes with
  | [] => s
  | p :: ps =>
      if startswith p s then skipn (List.length p) s
      else cut_first_prefix ps s
  end.

Definition _clean_todo (s : pystr) : pystr :=
  let s := strip s in
  let s := cut_first_prefix [str "- [ ] "; str "- [x] "; str "- [X] "] s in
  if startswith (str "-") s then strip (skipn 1 s) else s.

(** Where a loop over the items stands: still running at cursor [yy], or
    left through [return yy]. *)
Inductive flow : Type :=
| Running (yy : Z) (ops : list draw_op)
| Returned_yy (yy : Z) (ops : list draw_op).

(** The loop over the wrapped lines of one item.  The first line is drawn at
    [first_x] behind [prefix], the others at [rest_x]; after each line the
    cursor advances by 44 and the routine returns when it is past [limit]. *)
Fixpoint draw_wrapped (limit first_x rest_x : Z) (prefix : pystr)
  (is_first : bool) (wrapped_lines : list pystr) (yy : Z)
  (ops : list draw_op) : flow :=
  match wrapped_lines with
  | [] => Running yy ops
  | wrapped :: rest =>
      let op :=
        if is_first then DrawText first_x yy (prefix ++ wrapped) muted f_txt
        else DrawText rest_x yy wrapped muted f_txt in
      let yy := (yy + 44)%Z in
      if (yy >? limit)%Z then Returned_yy yy (ops ++ [op])
      else draw_wrapped limit first_x rest_x prefix false rest yy (ops ++ [op])
  end.

Definition bullet : pystr := str "• ".

Definition todo_headers : list pystr :=
  [str "to-dos"; str "to‑dos"; str "to-do"; str "to‑do"; str "todos";
   str "to dos"].

Definition calendar_headers : list pystr :=
  [str "termine"; str "kalender"; str "calendar"; str "events"].

(** The three ways an item is laid out, up to the divider. *)
Definition draw_item (x y w h : Z) (is_todos is_calendar : bool)
  (ln : pystr) (yy : Z) (ops : list draw_op) : flow :=
  let max_w := (w - 68)%Z in
  let limit := (y + h - 40)%Z in
  let ln := if is_todos then bullet ++ _clean_todo ln else ln in
  let base_x := (x + 34)%Z in
  if startswith bullet ln then
    let bullet_w := textbbox_right f_txt bullet in
    let content := lstrip (skipn (List.length bullet) ln) in
    let wrapped_lines := _wrap textbbox_right content f_txt (max_w - bullet_w) in
    draw_wrapped limit base_x (base_x + bullet_w) bullet true wrapped_lines yy ops
  else if is_calendar && truthy (strip ln)
          && contains COLON (hd [] (split1 ln)) then
    match split1 (strip ln) with
    | [first0; first1] =>
        if existsb (Z.eqb (len first0)) [4; 5]%Z && (count COLON first0 =? 1)%Z
        then
          let time_prefix := first0 ++ str " " in
          let content := strip first1 in
          let time_w := textbbox_right f_txt time_prefix in
          let wrapped_lines :=
            _wrap textbbox_right content f_txt (max_w - time_w) in
          draw_wrapped limit base_x (base_x + time_w) time_prefix true
            wrapped_lines yy ops
        else
          draw_wrapped limit base_x base_x [] true
            (_wrap textbbox_right ln f_txt max_w) yy ops
    | _ =>
        draw_wrapped limit base_x base_x [] true
          (_wrap textbbox_right ln f_txt max_w) yy ops
    end
  else
    draw_wrapped limit base_x base_x [] true
      (_wrap textbbox_right ln f_txt max_w) yy ops.

(** The divider under an item. *)
Definition draw_divider (style : pystr) (x y w h : Z) (is_todos : bool)
  (yy : Z) (ops : list draw_op) : Z * list draw_op :=
  if (yy <? y + h - 60)%Z then
    let line_y := (yy + 8)%Z in
    if PyStr.eqb style (str "list") || is_todos
    then ((yy + 24)%Z,
          ops ++ [DrawLine (x + 34) line_y (x + w - 34) line_y divider 2])
    else (yy, ops)
  else (yy, ops).

(** The loop over the items. *)
Fixpoint draw_items (style : pystr) (x y w h : Z) (is_todos is_calendar : bool)
  (lines : list pystr) (yy : Z) (ops : list draw_op) : flow :=
  match lines with
  | [] => Running yy ops
  | ln :: rest =>
      match draw_item x y w h is_todos is_calendar ln yy ops with
      | Returned_yy yy' ops' => Returned_yy yy' ops'
      | Running yy' ops' =>
          let (yy'', ops'') := draw_divider style x y w h is_todos yy' ops' in
          draw_items style x y w h is_todos is_calendar rest yy'' ops''
      end
  end.

(** The section of a card, by its header. *)
Definition is_todos_header (header : pystr) : bool :=
  existsb (PyStr.eqb (lower (strip header))) todo_headers.

Definition is_calendar_header (header : pystr) : bool :=
  existsb (PyStr.eqb (lower (strip header))) calendar_headers.

(** [card_block]: the drawing calls made and the cursor returned. *)
Definition card_block (style : pystr) (x y w h : Z) (header : pystr)
  (lines : list pystr) (bgcol : colour) : list draw_op * Z :=
  let r := if PyStr.eqb style (str "cards") then 34%Z else 20%Z in
  let ops := _rounded_with_shadow style x y w h r bgcol in
  let ops := ops ++ [DrawText (x + 34) (y + 26) header white f_h] in
  let yy := (y + 86)%Z in
  let _h := lower (strip header) in
  let is_todos := existsb (PyStr.eqb _h) todo_headers in
  let is_calendar := existsb (PyStr.eqb _h) calendar_headers in
  match draw_items style x y w h is_todos is_calendar lines yy ops with
  | Running yy ops => (ops, yy)
  | Returned_yy yy ops => (ops, yy)
  end.

Definition flow_ops (fl : flow) : list draw_op :=
  match fl with Running _ ops => ops | Returned_yy _ ops => ops end.

Definition flow_yy (fl : flow) : Z :=
  match fl with Running yy _ => yy | Returned_yy yy _ => yy end.

Definition flow_returned (fl : flow) : bool :=
  match fl with Running _ _ => false | Returned_yy _ _ => true end.

(** The content lines and the dividers among drawing calls, counted. *)
Definition is_text (op : draw_op) : bool :=
  match op with DrawText _ _ _ _ _ => true | _ => false end.

Definition is_divider (op : draw_op) : bool :=
  match op with DrawLine _ _ _ _ _ _ => true | _ => false end.

Definition count_ops (p : draw_op -> bool) (ops : list draw_op) : Z :=
  Z.of_nat (List.length (filter p ops)).

(** The header part of a card: the background and the header line. *)
Definition card_frame (style : pystr) (x y w h : Z) (header : pystr)
  (bgcol : colour) : list draw_op :=
  _rounded_with_shadow style x y w h
    (if PyStr.eqb style (str "cards") then 34%Z else 20%Z) bgcol
  ++ [DrawText (x + 34) (y + 26) header white f_h].

(** The drawing sequences of the content of a card whose cursor may not
    pass [limit]: [content_trace limit yy ops yy' returned] says that [ops],
    drawn from cursor [yy], leave the cursor at [yy'], and whether the
    routine returned early.  A line is drawn at the cursor, which then
    advances by 44; the line that takes the cursor past [limit] is the last
    one.  A divider is drawn 8 below a cursor that is more than 20 above
    [limit], which then advances by 24. *)
Inductive content_trace (limit : Z)
  : Z -> list draw_op -> Z -> bool -> Prop :=
| trace_end (yy : Z) : content_trace limit yy [] yy false
| trace_line (yy x0 : Z) (s : pystr) (ops : list draw_op) (yy' : Z)
    (returned : bool) :
    (yy + 44 <= limit)%Z ->
    content_trace limit (yy + 44) ops yy' returned ->
    content_trace limit yy (DrawText x0 yy s muted f_txt :: ops) yy' returned
| trace_last_line (yy x0 : Z) (s : pystr) :
    (yy + 44 > limit)%Z ->
    content_trace limit yy [DrawText x0 yy s muted f_txt] (yy + 44) true
| trace_divider (yy x0 x1 : Z) (ops : list draw_op) (yy' : Z)
    (returned : bool) :
    (yy < limit - 20)%Z ->
    content_trace limit (yy + 24) ops yy' returned ->
    content_trace limit yy
      (DrawLine x0 (yy + 8) x1 (yy + 8) divider 2 :: ops) yy' returned.

End CardDef.

Arguments PasteShadow {font colour}.
Arguments RoundedRectangle {font colour}.
Arguments DrawText {font colour}.
Arguments DrawLine {font colour}.
Arguments Running {font colour}.
Arguments Returned_yy {font colour}.
Arguments flow_ops {font colour}.
Arguments flow_yy {font colour}.
Arguments flow_returned {font colour}.
Arguments _rounded_with_shadow {font colour}.
Arguments is_text {font colour}.
Arguments is_divider {font colour}.
Arguments count_ops {font colour}.
Arguments card_frame {font} f_h {colour} white.
Arguments draw_wrapped {font} f_txt {colour} muted.
Arguments draw_item {font} textbbox_right f_txt {colour} muted.
Arguments draw_divider {font colour} divider.
Arguments draw_items {font} textbbox_right f_txt {colour} muted divider.
Arguments card_block {font} textbbox_right f_h f_txt lower {colour} white
  muted divider.
Arguments content_trace {font} f_txt {colour} muted divider.

(** A fixed-width font and a palette, to run the layout on examples. *)
Module CardExample.

Inductive face : Type := Header_face | Text_face.

Inductive palette : Type := White | Muted | Divider | CardBg.

(** Every character is 20 wide. *)
Definition fixed_width (f : face) (s : pystr) : Z := (20 * len s)%Z.

(** [str.lower] on ASCII letters. *)
Definition lower_ascii (s : pystr) : pystr :=
  map (fun c => if ((65 <=? c) && (c <=? 90))%N then (c + 32)%N else c) s.

Definition card_block :=
  card_block fixed_width Header_face Text_face lower_ascii White Muted Divider.

End CardExample.

(* ================================================================== *)
(** * Entry point ([get_greeting], [main]) *)
(* ================================================================== *)

Definition get_greeting (hour : Z) : pystr :=
  if ((5 <=? hour) && (hour <? 11))%Z then str "Guten Morgen!"
  else if ((11 <=? hour) && (hour <? 14))%Z then str "Mahlzeit!"
  else if ((14 <=? hour) && (hour <? 18))%Z then str "Guten Tag!"
  else if ((18 <=? hour) && (hour <? 22))%Z then str "Guten Abend!"
  else str "Gute Nacht!".

Section MainDef.

Variable JVal : Type.
Variable fmt_1f : JVal -> option pystr.
Variable py_int : JVal -> option Z.
Variable py_float : JVal -> option pyfloat.
Variable fmt_0f : pyfloat -> pystr.

(** What one run finds outside the process. *)
Record world : Type := mkworld
  { now_hour : Z;
    now_date : Birthdays.date;
    now_dmy : pystr;                    (* today.strftime("%d.%m.%Y") *)
    fetches : nat -> fetch JVal;
    khal : result pystr;
    todo_file : Todos.todo_file;
    birthdays_file : Birthdays.birthdays_file }.

(** The arguments of the two composers. *)
Record dashboard : Type := mkdashboard
  { title : pystr;
    subtitle : pystr;
    today_str : pystr;
    weather : snapshot JVal;
    weather_lines : list weather_line;
    events : list pystr;
    todos : list pystr;
    birthdays : list pystr }.

Variable png : Type.
(** The renderer and the two delivery calls.  [render_dashboard_png] raises
    on any drawing failure; [send_telegram_photo] raises when the bot token
    cannot be loaded and otherwise returns the flag of the reply;
    [send_telegram_message] catches every exception itself. *)
Variable render_dashboard_png : dashboard -> result png.
Variable send_telegram_photo : png -> result bool.
Variable build_text_dashboard : dashboard -> pystr.
Variable send_telegram_message : pystr -> bool.

(** [[x for x in l if x]] on the weather lines. *)
Fixpoint present {A} (l : list (option A)) : list A :=
  match l with
  | [] => []
  | Some a :: l' => a :: present l'
  | None :: l' => present l'
  end.

(** The first part of [main]: the adapters are called in turn; an exception
    of the birthday adapter is not caught. *)
Definition gather (w : world) : result dashboard :=
  let greeting := get_greeting (now_hour w) in
  let weather := get_weather fmt_1f py_int py_float fmt_0f (fetches w) in
  let weather_lines := present (lines weather) in
  let events := Calendar.get_calendar (khal w) in
  let todos := Todos.get_todos_lines 6 (todo_file w) in
  match Birthdays.get_upcoming_birthdays 7 (now_date w) (birthdays_file w) with
  | Raised e => Raised e
  | Returned birthdays =>
      Returned
        (mkdashboard greeting (str "Rathenow · " ++ now_dmy w) (now_dmy w)
           weather weather_lines events todos birthdays)
  end.

(** The deliveries a run attempts, in order. *)
Inductive delivery : Type :=
| SendPhoto (image : png)
| SendMessage (text : pystr).

(** Step 2 of [main]: the text fallback. *)
Definition text_fallback (d : dashboard) (log : list delivery)
  : list delivery * result Z :=
  let message := build_text_dashboard d in
  if send_telegram_message message
  then (log ++ [SendMessage message], Returned 0%Z)
  else (log ++ [SendMessage message], Returned 1%Z).

(** [main]: the deliveries attempted, and the value returned, which
    [raise SystemExit(main())] makes the exit code, or the exception that
    leaves [main]. *)
Definition main (w : world) : list delivery * result Z :=
  match gather w with
  | Raised e => ([], Raised e)
  | Returned d =>
      match render_dashboard_png d with
      | Returned image =>
          match send_telegram_photo image with
          | Returned true => ([SendPhoto image], Returned 0%Z)
          | Returned false => text_fallback d [SendPhoto image]
          | Raised _ => text_fallback d [SendPhoto image]
          end
      | Raised _ => text_fallback d []
      end
  end.

End MainDef.

Arguments mkworld {JVal}.
Arguments now_hour {JVal}.
Arguments now_date {JVal}.
Arguments now_dmy {JVal}.
Arguments fetches {JVal}.
Arguments khal {JVal}.
Arguments todo_file {JVal}.
Arguments birthdays_file {JVal}.
Arguments mkdashboard {JVal}.
Arguments title {JVal}.
Arguments subtitle {JVal}.
Arguments today_str {JVal}.
Arguments weather {JVal}.
Arguments weather_lines {JVal}.
Arguments events {JVal}.
Arguments todos {JVal}.
Arguments birthdays {JVal}.
Arguments SendPhoto {png} image.
Arguments SendMessage {png} text.
Arguments gather {JVal} fmt_1f py_int py_float fmt_0f w.
Arguments text_fallback {JVal png} build_text_dashboard send_telegram_message
  d log.
Arguments main {JVal} fmt_1f py_int py_float fmt_0f {png} render_dashboard_png
  send_telegram_photo build_text_dashboard send_telegram_message w.

(* ================================================================== *)
(** * Further definitions: the rest of the program *)
(* ================================================================== *)

(** Lines in the order [_wrap] returns them are filled greedily when the
    first word of every line but the first measures too wide behind the
    line before it. *)
Fixpoint greedy_lines {font : Type} (textbbox_right : font -> pystr -> Z)
  (f : font) (max_width : Z) (lines : list pystr) : Prop :=
  match lines with
  | l1 :: rest =>
      match rest with
      | l2 :: _ =>
          (exists w ws,
              split l2 = w :: ws
              /\ (textbbox_right f (l1 ++ SP :: w) > max_width)%Z)
          /\ greedy_lines textbbox_right f max_width rest
      | [] => True
      end
  | [] => True
  end.




(* ================================================================== *)
(** * Delivery: the Telegram Bot API *)
(* ================================================================== *)

Module Telegram.

Definition TELEGRAM_CHAT_ID : pystr := str "REDACTED_CHAT_ID".

(** [~/.openclaw/openclaw.json]: opening it, decoding it or walking down to
    the token raised; or it was read, with the string found under
    [channels.telegram.botToken] ([None]: a key of the path is absent, or the
    value is null). *)
Inductive config_file : Type :=
| ConfigRaised
| ConfigRead (botToken : option pystr).

Record environment : Type := mkenvironment
  { env_token : option pystr;   (* os.environ.get("TELEGRAM_BOT_TOKEN") *)
    config : config_file }.

Definition token_not_found : pystr :=
  str "Telegram bot token not found (env TELEGRAM_BOT_TOKEN or ~/.openclaw/openclaw.json).".

Definition _load_telegram_bot_token (e : environment) : result pystr :=
  match env_token e with
  | Some (c :: t) => Returned (c :: t)
  | _ =>
      match config e with
      | ConfigRead (Some (c :: t)) => Returned (c :: t)
      | _ => Raised token_not_found
      end
  end.

Definition bytes : Type := list Byte.byte.

Definition byte_of (n : N) : Byte.byte :=
  match Byte.of_N (n mod 256) with Some b => b | None => Byte.x00 end.

(** [c.encode("utf-8")] for one code point; the surrogates are refused. *)
Definition utf8_char (c : char) : option (list N) :=
  (if c <? 128 then Some [c]
   else if c <? 2048 then Some [192 + c / 64; 128 + c mod 64]
   else if (55296 <=? c) && (c <=? 57343) then None
   else if c <? 65536
        then Some [224 + c / 4096; 128 + (c / 64) mod 64; 128 + c mod 64]
   else Some [240 + c / 262144; 128 + (c / 4096) mod 64;
              128 + (c / 64) mod 64; 128 + c mod 64])%N.

(** [s.encode("utf-8")]; [None] is [UnicodeEncodeError]. *)
Fixpoint encode (s : pystr) : option bytes :=
  match s with
  | [] => Some []
  | c :: s' =>
      match utf8_char c, encode s' with
      | Some bs, Some r => Some (map byte_of bs ++ r)
      | _, _ => None
      end
  end.

Definition QUOTE : char := 34%N.
Definition crlf : pystr := [13; 10]%N.
Definition boundary : pystr := str "----openclawboundary7MA4YWxkTrZu0gW".

(** What is posted: the dictionary handed to [json.dumps], or the bytes of a
    form. *)
Inductive body : Type :=
| Json (payload : list (pystr * pystr))
| Form (data : bytes).

Record request : Type := mkrequest
  { url : pystr;
    data : body;
    content_type : pystr;
    timeout : Z }.

(** What comes of a request: [urlopen], reading or decoding the reply
    raised, or the reply was decoded, with [ok] its flag
    [bool(result.get("ok"))]. *)
Inductive reply : Type :=
| ReplyRaised (msg : pystr)
| Reply (ok : bool).

Section Api.

Variable e : environment.
Variable urlopen : request -> reply.

(** The value returned or the exception raised, and the requests made. *)
Definition _telegram_api_request (method : pystr)
  (payload : list (pystr * pystr)) : result bool * list request :=
  match _load_telegram_bot_token e with
  | Raised msg => (Raised msg, [])
  | Returned token =>
      let req :=
        mkrequest
          (str "https://api.telegram.org/bot" ++ token ++ str "/" ++ method)
          (Json payload) (str "application/json") 20 in
      match urlopen req with
      | ReplyRaised msg => (Raised msg, [req])
      | Reply ok => (Returned ok, [req])
      end
  end.

Definition send_telegram_message (text : pystr) : bool * list request :=
  match
    _telegram_api_request (str "sendMessage")
      [(str "chat_id", TELEGRAM_CHAT_ID); (str "text", text);
       (str "parse_mode", str "Markdown")]
  with
  | (Returned ok, reqs) => (ok, reqs)
  | (Raised _, reqs) => (false, reqs)
  end.

Definition _part (name value : pystr) : option bytes :=
  encode
    (str "--" ++ boundary ++ crlf
     ++ str "Content-Disposition: form-data; name=" ++ [QUOTE] ++ name
     ++ [QUOTE] ++ crlf ++ crlf
     ++ value ++ crlf).

Definition file_part_header : pystr :=
  str "--" ++ boundary ++ crlf
  ++ str "Content-Disposition: form-data; name=" ++ [QUOTE] ++ str "photo"
  ++ [QUOTE] ++ str "; filename=" ++ [QUOTE] ++ str "dashboard.png"
  ++ [QUOTE] ++ crlf
  ++ str "Content-Type: image/png" ++ crlf ++ crlf.

(** The body of the form; [None] is the [UnicodeEncodeError] of a part. *)
Definition photo_body (png_bytes : bytes) (caption : option pystr)
  : option bytes :=
  match _part (str "chat_id") TELEGRAM_CHAT_ID with
  | None => None
  | Some chat =>
      let caption_part :=
        match caption with
        | Some (c :: t) => _part (str "caption") (c :: t)
        | _ => Some []
        end in
      match caption_part, encode file_part_header, encode crlf,
            encode (str "--" ++ boundary ++ str "--" ++ crlf) with
      | Some cap, Some head, Some nl, Some close =>
          Some (chat ++ cap ++ head ++ png_bytes ++ nl ++ close)
      | _, _, _, _ => None
      end
  end.

(** The message of the [UnicodeEncodeError] that encoding a caption
    raises. *)
Variable encode_error : pystr -> pystr.

Definition send_telegram_photo (png_bytes : bytes) (caption : option pystr)
  : result bool * list request :=
  match _load_telegram_bot_token e with
  | Raised msg => (Raised msg, [])
  | Returned token =>
      match photo_body png_bytes caption with
      | None =>
          (Raised (encode_error (match caption with Some c => c | None => [] end)),
           [])
      | Some form =>
          let req :=
            mkrequest
              (str "https://api.telegram.org/bot" ++ token
               ++ str "/sendPhoto")
              (Form form)
              (str "multipart/form-data; boundary=" ++ boundary) 30 in
          match urlopen req with
          | ReplyRaised _ => (Returned false, [req])
          | Reply ok => (Returned ok, [req])
          end
      end
  end.

End Api.

End Telegram.

(* ================================================================== *)
(** * The entry point with its deliveries *)
(* ================================================================== *)

Section MainTelegramDef.

Variable JVal : Type.
Variable fmt_1f : JVal -> option pystr.
Variable py_int : JVal -> option Z.
Variable py_float : JVal -> option pyfloat.
Variable fmt_0f : pyfloat -> pystr.
Variable render_dashboard_png : dashboard JVal -> result Telegram.bytes.
Variable build_text_dashboard : dashboard JVal -> pystr.
Variable e : Telegram.environment.
Variable urlopen : Telegram.request -> Telegram.reply.
Variable encode_error : pystr -> pystr.

(** [main] with the two delivery calls of the program: the photo without a
    caption, and the text. *)
Definition main_telegram (w : world JVal)
  : list (delivery Telegram.bytes) * result Z :=
  main fmt_1f py_int py_float fmt_0f render_dashboard_png
    (fun image =>
       fst (Telegram.send_telegram_photo e urlopen encode_error image None))
    build_text_dashboard
    (fun text => fst (Telegram.send_telegram_message e urlopen text))
    w.

(** The requests a delivery makes. *)
Definition delivery_requests (d : delivery Telegram.bytes)
  : list Telegram.request :=
  match d with
  | SendPhoto image =>
      snd (Telegram.send_telegram_photo e urlopen encode_error image None)
  | SendMessage text => snd (Telegram.send_telegram_message e urlopen text)
  end.

(** The requests of a run, in order. *)
Definition main_requests (w : world JVal) : list Telegram.request :=
  flat_map delivery_requests (fst (main_telegram w)).

End MainTelegramDef.

Arguments main_telegram {JVal} fmt_1f py_int py_float fmt_0f
  render_dashboard_png build_text_dashboard e urlopen encode_error w.
Arguments main_requests {JVal} fmt_1f py_int py_float fmt_0f
  render_dashboard_png build_text_dashboard e urlopen encode_error w.

(* ================================================================== *)
(** * The image ([render_dashboard_png]) *)
(* ================================================================== *)

Module Render.

Local Open Scope Z_scope.

Definition W : Z := 1080.
Definition H : Z := 2340.
Definition margin : Z := 48.

Definition rgb : Type := (Z * Z * Z)%type.

Record palette : Type := mkpalette
  { bg : rgb; card : rgb; card2 : rgb; white : rgb; muted : rgb;
    divider : rgb }.

Definition palette_of (theme : pystr) : palette :=
  if PyStr.eqb theme (str "light")
  then mkpalette (242, 242, 247) (255, 255, 255) (255, 255, 255)
         (18, 18, 20) (90, 90, 100) (199, 199, 204)
  else mkpalette (13, 16, 22) (24, 30, 42) (28, 36, 52)
         (245, 246, 250) (175, 183, 196) (55, 64, 82).

(** The variables of the environment the renderer reads; [None]: not
    set. *)
Record environ : Type := mkenviron
  { DASH_STYLE : option pystr;
    DASH_THEME : option pystr;
    DASH_ICONS : option pystr;
    DASH_WEATHER_ICON_MODE : option pystr }.

(** [_find_font]: the first candidate that exists. *)
Definition candidates : list pystr :=
  [str "/home/clawd/clawd/assets/fonts/DejaVuSans.ttf";
   str "/usr/share/fonts/truetype/dejavu/DejaVuSans.ttf";
   str "/usr/share/fonts/truetype/dejavu/DejaVuSans-Bold.ttf";
   str "/home/linuxbrew/.linuxbrew/share/fonts/DejaVuSans.ttf"].

Definition _find_font (path_exists : pystr -> bool) : option pystr :=
  find path_exists candidates.

(** Layout: four sections, stacked. *)
Definition gap : Z := 22.
Definition card_w : Z := W - 2 * margin.
Definition h_weather : Z := 280.
Definition h_calendar : Z := 360.
Definition h_birthdays : Z := 300.
Definition content_height : Z := 1836.
Definition remaining : Z :=
  content_height - (h_weather + h_calendar + h_birthdays + 3 * gap).
Definition h_todos : Z := Z.max 520 remaining.

Definition label_map (lk : pystr) : pystr :=
  if PyStr.eqb lk (str "temp") then str "Aktuell"
  else if PyStr.eqb lk (str "range") then str "Tief / Hoch"
  else if PyStr.eqb lk (str "humidity") then str "Luftfeuchte"
  else if PyStr.eqb lk (str "wind") then str "Wind"
  else if PyStr.eqb lk (str "info") then str "Info"
  else lk.

Definition _extract_value (lk txt : pystr) : pystr :=
  let t := strip txt in
  if negb (truthy t) then t
  else
    let parts := split t in
    if PyStr.eqb lk (str "range") then t
    else if existsb (PyStr.eqb lk) [str "temp"; str "humidity"]
            && truthy_list parts
    then match parts with p :: _ => p | [] => t end
    else t.

Definition _pick_icon_for_weather_line (line_kind : pystr) (size : Z)
  : Icons.icon :=
  if PyStr.eqb line_kind (str "temp") then Icons._icon_thermo size
  else if PyStr.eqb line_kind (str "range") then Icons._icon_thermo size
  else if PyStr.eqb line_kind (str "humidity") then Icons._icon_drop size
  else if PyStr.eqb line_kind (str "wind") then Icons._icon_wind size
  else Icons._icon_cloud size false false.

Section Drawing.

Variable font : Type.
Variable textbbox_right : font -> pystr -> Z.
(** [str.lower] *)
Variable lower : pystr -> pystr.
Variable JVal : Type.
Variable py_int : JVal -> option Z.

(** The calls made on the image, in the order made. *)
Inductive op : Type :=
| NewImage (width height : Z) (fill : rgb)
| Draw (o : draw_op font rgb)
| Paste (ic : Icons.icon) (x y : Z).

(** [os.environ.get(name, default).strip().lower()] *)
Definition setting (value : option pystr) (default : pystr) : pystr :=
  lower (strip (match value with Some v => v | None => default end)).

Definition style_of (env : environ) : pystr :=
  let style := setting (DASH_STYLE env) (str "cards") in
  if existsb (PyStr.eqb style) [str "cards"; str "list"] then style
  else str "cards".

Definition theme_of (env : environ) : pystr :=
  let theme := setting (DASH_THEME env) (str "dark") in
  if existsb (PyStr.eqb theme) [str "dark"; str "light"] then theme
  else str "dark".

Definition icons_on_of (env : environ) : bool :=
  let icons := setting (DASH_ICONS env) (str "on") in
  negb (existsb (PyStr.eqb icons)
          [str "off"; str "0"; str "false"; str "no"]).

Definition weather_icon_mode_of (env : environ) : pystr :=
  let mode := setting (DASH_WEATHER_ICON_MODE env) (str "mini") in
  if existsb (PyStr.eqb mode) [str "mini"; str "lines"] then mode
  else str "mini".

(** The argument [_weather_code_to_kind] gets from the weather. *)
Definition code_of (code : option JVal) : Icons.code_arg :=
  match code with
  | None => Icons.CodeNone
  | Some v =>
      match py_int v with
      | Some c => Icons.CodeInt c
      | None => Icons.CodeBad
      end
  end.

Section Blocks.

Variables f_h f_txt : font.
Variable style : pystr.
Variable colours : palette.
Variable icons_on : bool.
Variable weather_icon_mode : pystr.

(** The loop over the wrapped lines of a value: line [j] is drawn at
    [yy + j * 44], and the loop is left behind the line that reaches past
    [limit]. *)
Fixpoint draw_value (limit value_x yy j : Z) (wrapped_lines : list pystr)
  : list op :=
  match wrapped_lines with
  | [] => []
  | wrapped :: rest =>
      Draw (DrawText value_x (yy + j * 44) wrapped (white colours) f_txt)
      :: (if yy + (j + 1) * 44 >? limit then []
          else draw_value limit value_x yy (j + 1) rest)
  end.

(** The loop over the rows. *)
Fixpoint draw_rows (x y0 w h : Z) (rows : list (pystr * pystr * pystr))
  (yy : Z) : list op :=
  match rows with
  | [] => []
  | (lk, label, value) :: rest =>
      let max_w := w - 68 in
      let use_line_icon :=
        icons_on && PyStr.eqb weather_icon_mode (str "lines") in
      let icon_w := if use_line_icon then 54 else 0 in
      let label_w := 240 in
      let col_gap := 16 in
      let x0 := x + 34 in
      let label_x := x0 + icon_w in
      let value_x := label_x + label_w + col_gap in
      let value_w := max_w - icon_w - label_w - col_gap in
      (if use_line_icon
       then [Paste (_pick_icon_for_weather_line lk 44) x0 (yy - 6)]
       else [])
      ++ [Draw (DrawText label_x yy label (muted colours) f_txt)]
      ++ draw_value (y0 + h - 40) value_x yy 0
           (_wrap textbbox_right value f_txt value_w)
      ++ (let yy := yy + 44 in
          if yy >? y0 + h - 40 then []
          else if yy <? y0 + h - 60
               then Draw (DrawLine (x + 34) (yy + 6) (x + w - 34) (yy + 6)
                            (divider colours) 2)
                    :: draw_rows x y0 w h rest (yy + 18)
               else draw_rows x y0 w h rest yy)
  end.

Definition rows_of (weather_obj : snapshot JVal)
  : list (pystr * pystr * pystr) :=
  map (fun t : weather_line =>
         let (lk, txt) := t in (lk, label_map lk, _extract_value lk txt))
    (present (lines weather_obj)).

Definition weather_block (x y0 w h : Z) (weather_obj : snapshot JVal)
  : list op :=
  let r := if PyStr.eqb style (str "cards") then 34 else 20 in
  map Draw (_rounded_with_shadow style x y0 w h r (card colours))
  ++ [Draw (DrawText (x + 34) (y0 + 26) (str "Wetter") (white colours) f_h)]
  ++ (if icons_on
      then
        let kind :=
          Icons._weather_code_to_kind (code_of (weather_code weather_obj)) in
        [Paste (Icons._pick_icon_for_weather kind 140)
           (x + w - 34 - 140) (y0 + 6)]
      else [])
  ++ draw_rows x y0 w h (rows_of weather_obj) (y0 + 92).

(** [card_block] as the renderer calls it: its drawing calls. *)
Definition card_ops (x y w h : Z) (header : pystr) (lines : list pystr)
  (bgcol : rgb) : list op :=
  map Draw
    (fst (card_block textbbox_right f_h f_txt lower (white colours)
            (muted colours) (divider colours) style x y w h header lines
            bgcol)).

End Blocks.

(** [from PIL import ...]: the message of the [ImportError], if any. *)
Variable pillow_missing : option pystr.
Variable path_exists : pystr -> bool.
(** [ImageFont.truetype(path, size)] *)
Variable truetype : pystr -> Z -> result font.

(** The calls made on the image that is then saved, or the exception. *)
Definition render_dashboard_png (env : environ) (title subtitle : pystr)
  (weather : snapshot JVal) (calendar todos birthdays : list pystr)
  : result (list op) :=
  match pillow_missing with
  | Some e => Raised e
  | None =>
      let style := style_of env in
      let colours := palette_of (theme_of env) in
      let icons_on := icons_on_of env in
      match _find_font path_exists with
      | None => Raised (str "No font found on system")
      | Some font_path =>
          match truetype font_path 64 with
          | Raised e => Raised e
          | Returned f_title =>
          match truetype font_path 34 with
          | Raised e => Raised e
          | Returned f_sub =>
          match truetype font_path 40 with
          | Raised e => Raised e
          | Returned f_h =>
          match truetype font_path 32 with
          | Raised e => Raised e
          | Returned f_txt =>
              let y := 210 in
              let header :=
                [Draw (DrawText margin y title (white colours) f_title);
                 Draw (DrawText margin (y + 80) subtitle (muted colours)
                         f_sub)] in
              let y := y + 80 + 58 in
              let weather_icon_mode := weather_icon_mode_of env in
              let y0 := y in
              let section1 :=
                weather_block f_h f_txt style colours icons_on
                  weather_icon_mode margin y0 card_w h_weather weather in
              let y0 := y0 + h_weather + gap in
              let section2 :=
                card_ops f_h f_txt style colours margin y0 card_w h_calendar
                  (str "Termine") (PySeq.take 11 calendar) (card colours) in
              let y0 := y0 + h_calendar + gap in
              let section3 :=
                card_ops f_h f_txt style colours margin y0 card_w h_todos
                  (str "To-dos") (PySeq.take 18 todos) (card2 colours) in
              let y0 := y0 + h_todos + gap in
              let b_lines :=
                if truthy_list birthdays then birthdays
                else [str "Keine in den nächsten 7 Tagen"] in
              let section4 :=
                card_ops f_h f_txt style colours margin y0 card_w h_birthdays
                  (str "Geburtstage (7 Tage)") (PySeq.take 5 b_lines)
                  (card2 colours) in
              Returned
                (NewImage W H (bg colours) :: header ++ section1 ++ section2
                 ++ section3 ++ section4)
          end end end end
      end
  end.

End Drawing.

Arguments NewImage {font} width height fill.
Arguments Draw {font} o.
Arguments Paste {font} ic x y.
Arguments code_of {JVal} py_int code.
Arguments draw_value {font} f_txt colours limit value_x yy j wrapped_lines.
Arguments draw_rows {font} textbbox_right f_txt colours icons_on
  weather_icon_mode x y0 w h rows yy.
Arguments rows_of {JVal} weather_obj.
Arguments weather_block {font} textbbox_right {JVal} py_int f_h f_txt style
  colours icons_on weather_icon_mode x y0 w h weather_obj.
Arguments card_ops {font} textbbox_right lower f_h f_txt style colours
  x y w h header lines bgcol.
Arguments render_dashboard_png {font} textbbox_right lower {JVal} py_int
  pillow_missing path_exists truetype env title subtitle weather calendar
  todos birthdays.

(** The text lines and the dividers of [ops] start between [top] and
    [bottom]. *)
Definition drawn_between {font : Type} (ops : list (op font))
  (top bottom : Z) : Prop :=
  (forall x y s c f,
      In (Draw (DrawText x y s c f)) ops -> top < y < bottom)
  /\ (forall x0 y0 x1 y1 c wd,
        In (Draw (DrawLine x0 y0 x1 y1 c wd)) ops ->
        y1 = y0 /\ top < y0 < bottom).

(** The text lines among drawing calls, counted. *)
Definition is_text_op {font : Type} (o : op font) : bool :=
  match o with Draw (DrawText _ _ _ _ _) => true | _ => false end.

Definition count_texts {font : Type} (ops : list (op font)) : Z :=
  Z.of_nat (List.length (filter is_text_op ops)).

(** The text lines that start between [top] and [bottom], counted. *)
Definition text_between {font : Type} (top bottom : Z) (o : op font) : bool :=
  match o with
  | Draw (DrawText _ y _ _ _) => (top <? y) && (y <? bottom)
  | _ => false
  end.

Definition texts_between {font : Type} (ops : list (op font))
  (top bottom : Z) : Z :=
  Z.of_nat (List.length (filter (text_between top bottom) ops)).

End Render.

(* ================================================================== *)
(** * The text message ([build_text_dashboard]) *)
(* ================================================================== *)

Section TextDef.

(** [f"{ln}"] for an element of [weather_lines]: [str] of the tuple. *)
Variable format_line : weather_line -> pystr.

(** [s.replace('!', '')] *)
Definition remove_bang (s : pystr) : pystr :=
  filter (fun c => negb (c =? 33)%N) s.

(** The list [lines] when it is joined. *)
Definition text_lines (today_str greeting : pystr)
  (weather_lines : list weather_line)
  (birthdays events todos : list pystr) : list pystr :=
  let lines := [] in
  let lines := lines ++ [remove_bang greeting ++ str ", Daniel!"] in
  let lines := lines ++ [[]] in
  let lines := lines ++ [str "Rathenow – " ++ today_str] in
  let lines := lines ++ [[]] in
  let lines := lines ++ [str "🌡️ Wetter:"] in
  let lines :=
    lines ++ map (fun ln => str "- " ++ format_line ln) weather_lines in
  let lines := lines ++ [[]] in
  let lines :=
    if truthy_list birthdays
    then
      let lines := lines ++ [str "🎂 Geburtstage (nächste 7 Tage):"] in
      let lines := lines ++ map (fun b => str "  " ++ b) birthdays in
      lines ++ [[]]
    else lines in
  let lines := lines ++ [str "📅 Termine heute:"] in
  let lines := lines ++ map (fun e => str "- " ++ e) events in
  let lines := lines ++ [[]] in
  let lines := lines ++ [str "📝 To-dos:"] in
  lines ++ map (fun t => str "- " ++ t) todos.

Definition build_text_dashboard (today_str greeting : pystr)
  (weather_lines : list weather_line)
  (birthdays events todos : list pystr) : pystr :=
  join [NL] (text_lines today_str greeting weather_lines birthdays events
               todos).

(** The message [main] composes from the data it gathered. *)
Definition main_text {JVal : Type} (d : dashboard JVal) : pystr :=
  build_text_dashboard (today_str d) (title d) (weather_lines d)
    (birthdays d) (events d) (todos d).

End TextDef.

(* ================================================================== *)
(** * The program: [main] with its renderer, its text and its deliveries *)
(* ================================================================== *)

Section ProgramDef.

Variable JVal : Type.
Variable fmt_1f : JVal -> option pystr.
Variable py_int : JVal -> option Z.
Variable py_float : JVal -> option pyfloat.
Variable fmt_0f : pyfloat -> pystr.
Variable font : Type.
Variable textbbox_right : font -> pystr -> Z.
Variable lower : pystr -> pystr.
Variable pillow_missing : option pystr.
Variable path_exists : pystr -> bool.
Variable truetype : pystr -> Z -> result font.
Variable env : Render.environ.
(** [img.save(buf, format="PNG", optimize=True)]: the bytes of the image
    the calls have drawn, or the exception of the encoder. *)
Variable save : list (Render.op font) -> result Telegram.bytes.
Variable format_line : weather_line -> pystr.
Variable e : Telegram.environment.
Variable urlopen : Telegram.request -> Telegram.reply.
Variable encode_error : pystr -> pystr.

(** The renderer as [main] calls it. *)
Definition render_png (d : dashboard JVal) : result Telegram.bytes :=
  match
    Render.render_dashboard_png textbbox_right lower py_int pillow_missing
      path_exists truetype env (title d) (subtitle d) (weather d) (events d)
      (todos d) (birthdays d)
  with
  | Returned ops => save ops
  | Raised msg => Raised msg
  end.

Definition program (w : world JVal)
  : list (delivery Telegram.bytes) * result Z :=
  main_telegram fmt_1f py_int py_float fmt_0f render_png
    (main_text format_line) e urlopen encode_error w.

Definition program_requests (w : world JVal) : list Telegram.request :=
  main_requests fmt_1f py_int py_float fmt_0f render_png
    (main_text format_line) e urlopen encode_error w.

End ProgramDef.

Arguments render_png {JVal} py_int {font} textbbox_right lower pillow_missing
  path_exists truetype env save d.
Arguments program {JVal} fmt_1f py_int py_float fmt_0f {font} textbbox_right
  lower pillow_missing path_exists truetype env save format_line e urlopen
  encode_error w.
Arguments program_requests {JVal} fmt_1f py_int py_float fmt_0f {font}
  textbbox_right lower pillow_missing path_exists truetype env save
  format_line e urlopen encode_error w.

(* ================================================================== *)
(** * Properties of Python strings *)
(* ================================================================== *)

Module PyStrFacts.

Lemma lstrip_app_nonspace (l : pystr) (c : char) :
  is_space c = false -> lstrip (l ++ [c]) <> [].
Proof.
  intros Hc. induction l as [| d l IH]; cbn.
  - rewrite Hc. discriminate.
  - destruct (is_space d); [exact IH | discriminate].
Qed.

(** A string that starts with a non-space is not blank. *)
Lemma strip_nonspace_head (c : char) (s : pystr) :
  is_space c = false -> strip (c :: s) <> [].
Proof.
  intros Hc. unfold strip, rstrip. cbn [lstrip]. rewrite Hc.
  cbn [rev]. intros E.
  apply (lstrip_app_nonspace (rev s) c Hc).
  apply (f_equal (@rev char)) in E. rewrite rev_involutive in E. exact E.
Qed.

Lemma truthy_true (s : pystr) : truthy s = true <-> s <> [].
Proof. destruct s; cbn; split; congruence. Qed.

End PyStrFacts.

(* ================================================================== *)
(** * Properties of the calendar adapter *)
(* ================================================================== *)

Module CalendarFacts.
Import Calendar PyStrFacts.

(** A line kept by the filter is neither a header line nor blank. *)
Lemma is_event_spec (l : pystr) :
  is_event l = true <->
  startswith (str "Today,") l = false /\ strip l <> [].
Proof.
  unfold is_event. rewrite andb_true_iff, negb_true_iff, truthy_true.
  reflexivity.
Qed.

(** C1, as the code has it.  Whatever the calendar tool does, the adapter
    returns a list and never raises; no line it returns is a header line
    ("Today," at its start) or blank; when the tool ran, the result is the
    lines of its output that are neither, in their order, and exactly
    ["Keine Termine"] when there is none; when the call raised (tool
    missing, timeout, any exception) the result is the one-element list
    ["Fehler: " + message]. *)
Theorem get_calendar_result (run : result pystr) :
  get_calendar run <> []
  /\ Forall (fun l => startswith (str "Today,") l = false /\ strip l <> [])
            (get_calendar run)
  /\ match run with
     | Returned stdout =>
         let events := filter is_event (output_lines stdout) in
         (events = [] -> get_calendar run = [str "Keine Termine"])
         /\ (events <> [] -> get_calendar run = events)
     | Raised e => get_calendar run = [str "Fehler: " ++ e]
     end.
Proof.
  destruct run as [stdout | e]; cbn [get_calendar].
  - remember (filter is_event (output_lines stdout)) as events eqn:Hev.
    destruct events as [| ev events].
    + split; [discriminate |]. split.
      * constructor; [| constructor]. split; [reflexivity |].
        apply strip_nonspace_head. reflexivity.
      * cbv zeta. split; [reflexivity | congruence].
    + split; [discriminate |]. split.
      * rewrite Hev. apply Forall_forall. intros l Hl.
        apply filter_In in Hl. apply is_event_spec. apply Hl.
      * cbv zeta. split; [discriminate | reflexivity].
  - split; [discriminate |]. split; [| reflexivity].
    constructor; [| constructor]. split; [reflexivity |].
    apply strip_nonspace_head. reflexivity.
Qed.

(** C1 as stated fails: when the tool is missing ([FileNotFoundError]) the
    adapter returns the error line, not the "Keine Termine" placeholder. *)
Lemma get_calendar_error_not_placeholder :
  get_calendar (Raised (str "[Errno 2] No such file or directory: 'khal'"))
  = [str "Fehler: [Errno 2] No such file or directory: 'khal'"]
  /\ get_calendar (Raised (str "[Errno 2] No such file or directory: 'khal'"))
     <> [str "Keine Termine"].
Proof. split; [vm_compute; reflexivity | vm_compute; discriminate]. Qed.

Lemma get_calendar_result_witness :
  get_calendar (Returned (str "Today, 03.11.2026
10:00-11:00 Besprechung

")) = [str "10:00-11:00 Besprechung"]
  /\ get_calendar (Returned (str "Today, 03.11.2026")) = [str "Keine Termine"].
Proof.
  split.
  - refine (eq_trans
              (proj2 (proj2 (proj2 (get_calendar_result (Returned _)))) _) _).
    + vm_compute. discriminate.
    + reflexivity.
  - apply (proj1 (proj2 (proj2 (get_calendar_result (Returned _))))).
    reflexivity.
Defined.

End CalendarFacts.

(* ================================================================== *)
(** * Words: what [split] returns and [join] puts back together *)
(* ================================================================== *)

Module WordFacts.

Lemma word_cons (c : char) (w : pystr) :
  is_space c = false -> Forall (fun c => is_space c = false) w ->
  word (c :: w).
Proof. intros Hc Hw. split; [discriminate | now constructor]. Qed.

(** [split] on a word followed by a space and more text. *)
Lemma split_word_space (w rest : pystr) :
  word w -> split (w ++ SP :: rest) = w :: split rest.
Proof.
  intros [Hne Hw]. induction w as [| c w IH]; [congruence |].
  inversion Hw as [| ? ? Hc Hw']; subst.
  destruct w as [| d w].
  - cbn. rewrite Hc. reflexivity.
  - inversion Hw' as [| ? ? Hd _]; subst.
    change (split ((c :: d :: w) ++ SP :: rest))
      with (if is_space c then split ((d :: w) ++ SP :: rest)
            else if is_space d then [c] :: split ((d :: w) ++ SP :: rest)
                 else match split ((d :: w) ++ SP :: rest) with
                      | w0 :: ws => (c :: w0) :: ws
                      | [] => [[c]]
                      end).
    rewrite Hc, Hd, IH by (discriminate || assumption). reflexivity.
Qed.

(** [split] on a word alone. *)
Lemma split_word (w : pystr) : word w -> split w = [w].
Proof.
  intros [Hne Hw]. induction w as [| c w IH]; [congruence |].
  inversion Hw as [| ? ? Hc Hw']; subst.
  destruct w as [| d w].
  - cbn. rewrite Hc. reflexivity.
  - inversion Hw' as [| ? ? Hd _]; subst.
    change (split (c :: d :: w))
      with (if is_space c then split (d :: w)
            else if is_space d then [c] :: split (d :: w)
                 else match split (d :: w) with
                      | w0 :: ws => (c :: w0) :: ws
                      | [] => [[c]]
                      end).
    rewrite Hc, Hd, IH by (discriminate || assumption). reflexivity.
Qed.

(** Splitting the words joined by single spaces gives the words back. *)
Lemma split_join (ws : list pystr) :
  Forall word ws -> split (join [SP] ws) = ws.
Proof.
  induction ws as [| w ws IH]; intros Hws; [reflexivity |].
  inversion Hws as [| ? ? Hw Hws']; subst.
  destruct ws as [| w' ws].
  - cbn [join]. now apply split_word.
  - change (join [SP] (w :: w' :: ws)) with (w ++ SP :: join [SP] (w' :: ws)).
    rewrite split_word_space by assumption. now rewrite IH.
Qed.

(** What [split] returns are words. *)
Lemma split_words (s : pystr) : Forall word (split s).
Proof.
  induction s as [| c s IH]; [constructor |].
  cbn [split]. destruct (is_space c) eqn:Hc; [exact IH |].
  destruct s as [| d s].
  - constructor; [| constructor]. apply word_cons; [exact Hc | constructor].
  - destruct (is_space d) eqn:Hd.
    + constructor; [| exact IH]. apply word_cons; [exact Hc | constructor].
    + destruct (split (d :: s)) as [| w0 ws].
      * constructor; [| constructor]. apply word_cons; [exact Hc | constructor].
      * inversion IH as [| ? ? [_ Hw0] Hws]; subst.
        constructor; [| exact Hws]. now apply word_cons.
Qed.

End WordFacts.

(* ================================================================== *)
(** * Properties of the word wrap *)
(* ================================================================== *)

Section WrapFacts.
Import WordFacts.

Variable font : Type.
Variable textbbox_right : font -> pystr -> Z.
Variable f : font.
Variable max_width : Z.

Let step := wrap_step textbbox_right f max_width.
Let fits := one_line textbbox_right f max_width.
Let done := settled textbbox_right f max_width.
Let inv := wrap_inv textbbox_right f max_width.

Lemma one_line_nil : fits [].
Proof. reflexivity. Qed.

Lemma one_line_single (w : pystr) : fits [w].
Proof.
  unfold fits, one_line. cbn [fold_left]. unfold wrap_step.
  cbn [truthy_list negb]. now rewrite orb_true_r.
Qed.

Lemma wrap_step_inv (st : wrap_state) (w : pystr) :
  word w -> inv st -> inv (step st w).
Proof.
  destruct st as [lines cur]. intros Hw (Hl & Hc & Ho). cbn [fst snd] in *.
  unfold step, wrap_step.
  destruct ((textbbox_right f (strip (join [SP] (cur ++ [w]))) <=? max_width)%Z
            || negb (truthy_list cur)) eqn:Htest.
  - repeat split; cbn [fst snd]; try assumption.
    + apply Forall_app. split; [assumption | now constructor].
    + unfold one_line in *. rewrite fold_left_app, Ho. cbn [fold_left].
      unfold wrap_step. now rewrite Htest.
  - apply orb_false_iff in Htest as [_ Hcur].
    repeat split; cbn [fst snd].
    + apply Forall_app. split; [assumption |]. constructor; [| constructor].
      exists cur. repeat split; try assumption.
      destruct cur; discriminate.
    + now constructor.
    + apply one_line_single.
Qed.

Lemma wrap_loop_inv (ws : list pystr) (st : wrap_state) :
  Forall word ws -> inv st -> inv (fold_left step ws st).
Proof.
  revert st. induction ws as [| w ws IH]; intros st Hws Hst; [exact Hst |].
  inversion Hws; subst. cbn [fold_left]. apply IH; [assumption |].
  now apply wrap_step_inv.
Qed.

(** Every line of the result is settled. *)
Lemma wrap_settled (text : pystr) :
  Forall done (_wrap textbbox_right text f max_width).
Proof.
  unfold _wrap.
  assert (inv ([], [])) as H0 by (repeat split; try constructor).
  pose proof (wrap_loop_inv (split text) ([], []) (split_words text) H0) as H.
  fold step.
  destruct (fold_left step (split text) ([], [])) as [lines cur].
  destruct H as (Hl & Hc & Ho); cbn [fst snd] in *.
  unfold wrap_finish.
  destruct cur as [| w cur]; cbn [truthy_list]; [exact Hl |].
  apply Forall_app. split; [exact Hl |]. constructor; [| constructor].
  exists (w :: cur). repeat split; try assumption. discriminate.
Qed.

(** Wrapping a settled line gives the line back. *)
Lemma wrap_of_settled (line : pystr) :
  done line -> _wrap textbbox_right line f max_width = [line].
Proof.
  intros (cur & Hne & Hw & Ho & ->).
  unfold _wrap. rewrite split_join by assumption.
  unfold one_line in Ho. rewrite Ho.
  unfold wrap_finish. destruct cur; [congruence | reflexivity].
Qed.

(** The words of the lines, in order, are the words of the text. *)
Lemma wrap_loop_words (ws : list pystr) (st : wrap_state) :
  inv st -> Forall word ws ->
  List.concat (map split (wrap_finish (fold_left step ws st)))
  = List.concat (map split (wrap_finish st)) ++ ws.
Proof.
  revert st. induction ws as [| w ws IH]; intros st Hst Hws.
  - cbn [fold_left]. now rewrite app_nil_r.
  - inversion Hws as [| ? ? Hw Hws']; subst. cbn [fold_left].
    rewrite IH by (assumption || now apply wrap_step_inv).
    change (w :: ws) with ([w] ++ ws). rewrite app_assoc. f_equal.
    destruct st as [lines cur]. destruct Hst as (Hl & Hc & Ho).
    cbn [fst snd] in *. unfold step, wrap_step.
    destruct ((textbbox_right f (strip (join [SP] (cur ++ [w]))) <=? max_width)%Z
              || negb (truthy_list cur)) eqn:Htest; unfold wrap_finish.
    + assert (truthy_list (cur ++ [w]) = true) as -> by (destruct cur; reflexivity).
      rewrite map_app, concat_app. cbn [map List.concat]. rewrite app_nil_r.
      rewrite split_join by (apply Forall_app; split; [assumption | now constructor]).
      destruct cur as [| c cur]; cbn [truthy_list].
      * reflexivity.
      * rewrite map_app, concat_app. cbn [map List.concat]. rewrite app_nil_r.
        rewrite split_join by assumption. now rewrite <- app_assoc.
    + apply orb_false_iff in Htest as [_ Hcur].
      destruct cur as [| c cur]; [discriminate |]. cbn [truthy_list].
      rewrite !map_app, !concat_app. cbn [map List.concat]. rewrite !app_nil_r.
      change (join [SP] [w]) with w.
      rewrite (split_word w) by assumption. reflexivity.
Qed.

(** C3.  For every text, font measure and maximal width, wrapping is
    idempotent line by line: each line of the output, wrapped again with
    the same measure and width, comes back as that single line.  No word is
    split or lost: the words of the output lines, in order, are the words of
    the text. *)
Theorem wrap_idempotent (text : pystr) :
  Forall (fun line => _wrap textbbox_right line f max_width = [line])
         (_wrap textbbox_right text f max_width)
  /\ List.concat (map split (_wrap textbbox_right text f max_width)) = split text.
Proof.
  split.
  - eapply Forall_impl; [| apply wrap_settled]. apply wrap_of_settled.
  - unfold _wrap. fold step.
    rewrite wrap_loop_words; [reflexivity | | apply split_words].
    repeat split; try constructor.
Qed.

End WrapFacts.

(* ================================================================== *)
(** * Properties of the to-do adapter *)
(* ================================================================== *)

Module TodosFacts.
Import Todos.

(** The loop keeps the trimmed lines that start with the checkbox marker:
    such a line is neither empty nor a heading. *)
Lemma task_step_filter (ln : pystr) (tasks : list pystr) :
  task_step tasks ln
  = tasks ++ filter (startswith (str "- [")) [strip ln].
Proof.
  unfold task_step. cbn [filter].
  destruct (strip ln) as [| c s]; [cbn; now rewrite app_nil_r |].
  cbn [truthy negb].
  change (startswith (str "#") (c :: s)) with ((35 =? c)%N && true).
  change (startswith (str "- [") (c :: s))
    with ((45 =? c)%N && startswith (str " [") s).
  destruct (N.eqb_spec 35 c) as [<- | _]; cbn [andb].
  - now rewrite app_nil_r.
  - destruct ((45 =? c)%N && startswith (str " [") s);
      [reflexivity | now rewrite app_nil_r].
Qed.

Lemma tasks_filter (raw : list pystr) (tasks : list pystr) :
  fold_left task_step raw tasks
  = tasks ++ filter (startswith (str "- [")) (map strip raw).
Proof.
  revert tasks. induction raw as [| ln raw IH]; intros tasks; cbn [fold_left].
  - cbn. now rewrite app_nil_r.
  - rewrite IH, task_step_filter. rewrite <- app_assoc. f_equal.
    cbn [map filter]. destruct (startswith (str "- [") (strip ln)); reflexivity.
Qed.

(** C7.  The adapter keeps exactly the trimmed lines that start with the
    checkbox marker "- [", in their order (headings, blank lines and prose
    are dropped).  With [tasks] the lines kept: if there is none, or the
    file is absent or unreadable, the result is the one-element placeholder;
    if there are at most [max_lines] of them the result is [tasks]; if there
    are more than [max_lines] (not negative; 6 by default) the result is the
    first [max_lines] of them followed by the single line
    "… (+N weitere)" that counts the rest.  The five lines of the example
    give its two tasks. *)
Theorem get_todos_lines_spec :
  (forall (max_lines : Z) (raw : list pystr),
     let tasks := filter (startswith (str "- [")) (map strip raw) in
     (tasks = [] -> get_todos_lines max_lines (Lines raw) = placeholder)
     /\ (tasks <> [] -> (len_list tasks <= max_lines)%Z ->
         get_todos_lines max_lines (Lines raw) = tasks)
     /\ ((0 <= max_lines)%Z -> (max_lines < len_list tasks)%Z ->
         get_todos_lines max_lines (Lines raw)
         = firstn (Z.to_nat max_lines) tasks
             ++ [str "… (+" ++ of_int (len_list tasks - max_lines)
                   ++ str " weitere)"]))
  /\ (forall max_lines, get_todos_lines max_lines Absent = placeholder)
  /\ (forall max_lines, get_todos_lines max_lines Unreadable = placeholder)
  /\ placeholder = [str "Keine To-dos für heute"]
  /\ get_todos_lines 6
       (Lines [str "# Heading"; str ""; str "- [ ] task1"; str "- [x] task2";
               str "note text"])
     = [str "- [ ] task1"; str "- [x] task2"].
Proof.
  split; [| repeat split].
  intros max_lines raw tasks.
  unfold get_todos_lines. rewrite tasks_filter. cbn [app]. fold tasks.
  destruct tasks as [| t tasks'] eqn:Ht.
  - split; [reflexivity |]. split; [congruence |].
    unfold len_list; cbn [List.length]. lia.
  - split; [discriminate |]. split.
    + intros _ Hle.
      destruct (Z.gtb_spec (len_list (t :: tasks')) max_lines); [lia | reflexivity].
    + intros Hmax Hlt.
      destruct (Z.gtb_spec (len_list (t :: tasks')) max_lines); [| lia].
      unfold take. destruct (Z.ltb_spec max_lines 0); [lia | reflexivity].
Qed.

Lemma get_todos_lines_spec_witness :
  get_todos_lines 6
    (Lines [str "- [ ] a"; str "text"; str "  - [x] b"; str "- [ ] c";
            str "- [ ] d"; str "## h"; str "- [ ] e"; str "- [ ] f";
            str "- [ ] g"; str "- [ ] h"])
  = [str "- [ ] a"; str "- [x] b"; str "- [ ] c"; str "- [ ] d"; str "- [ ] e";
     str "- [ ] f"; str "… (+2 weitere)"].
Proof.
  refine (eq_trans
            (proj2 (proj2 (proj1 get_todos_lines_spec 6%Z _)) _ _) _).
  - lia.
  - vm_compute. reflexivity.
  - reflexivity.
Defined.

End TodosFacts.

(* ================================================================== *)
(** * Properties of the wind direction label *)
(* ================================================================== *)

Module WindFacts.
Import Wind.






End WindFacts.

(* ================================================================== *)
(** * Properties of the weather code table *)
(* ================================================================== *)

Module IconFacts.
Import Icons.

(** Replaces every test of [c] against a literal by [false]; for a [c]
    outside the range of the table. *)
Ltac no_code c :=
  repeat match goal with
    | |- context [Z.eqb c ?k] =>
        replace (Z.eqb c k) with false by (symmetry; apply Z.eqb_neq; lia)
    end.

(** Outside 0..99 every code falls through to the default. *)
Lemma code_outside_table (c : Z) :
  (c < 0 \/ 99 < c)%Z ->
  _weather_code_to_kind (CodeInt c) = str "cloud"
  /\ documented_name (Some c) = str "cloud"
  /\ documented_bucket (Some c) = Cloud.
Proof.
  intros Hc.
  unfold _weather_code_to_kind, documented_name, documented_bucket, mem, existsb.
  no_code c. repeat split.
Qed.

(** Inside 0..99 the two tables are compared code by code. *)
Lemma code_inside_table (n : nat) (size : Z) :
  (n < 100)%nat ->
  let c := Z.of_nat n in
  _weather_code_to_kind (CodeInt c) = documented_name (Some c)
  /\ _pick_icon_for_weather (_weather_code_to_kind (CodeInt c)) size
     = icon_of_kind (documented_bucket (Some c)) size.
Proof.
  intros Hn.
  do 100 (destruct n as [| n]; [vm_compute; split; reflexivity |]).
  lia.
Qed.

(** C5.  The mapping from weather code to icon is total and agrees with the
    documented table at every integer and at null: the kind name is the
    documented one (drizzle and storm keep their names), the icon drawn is
    the one of the documented bucket (drizzle, rain and storm are the rain
    cloud, snow is the snow cloud), every other integer and null give the
    plain cloud, and so does a value that is not a number. *)
Theorem weather_code_icon_table (code : option Z) (size : Z) :
  _weather_code_to_kind (arg_of code) = documented_name code
  /\ _pick_icon_for_weather (_weather_code_to_kind (arg_of code)) size
     = icon_of_kind (documented_bucket code) size
  /\ _pick_icon_for_weather (_weather_code_to_kind CodeBad) size
     = icon_of_kind Cloud size.
Proof.
  split; [| split]; [| | reflexivity]; destruct code as [c |];
    try reflexivity; cbn [arg_of].
  - destruct (Z_lt_le_dec c 0) as [Hneg | Hpos];
      [| destruct (Z_lt_le_dec 99 c) as [Hbig | Hsmall]].
    + destruct (code_outside_table c (or_introl Hneg)) as (-> & -> & _).
      reflexivity.
    + destruct (code_outside_table c (or_intror Hbig)) as (-> & -> & _).
      reflexivity.
    + pose proof (code_inside_table (Z.to_nat c) size) as H.
      rewrite Z2Nat.id in H by lia. apply H. lia.
  - destruct (Z_lt_le_dec c 0) as [Hneg | Hpos];
      [| destruct (Z_lt_le_dec 99 c) as [Hbig | Hsmall]].
    + destruct (code_outside_table c (or_introl Hneg)) as (E1 & _ & E2).
      rewrite E1, E2. reflexivity.
    + destruct (code_outside_table c (or_intror Hbig)) as (E1 & _ & E2).
      rewrite E1, E2. reflexivity.
    + pose proof (code_inside_table (Z.to_nat c) size) as H.
      rewrite Z2Nat.id in H by lia. apply H. lia.
Qed.

(** The buckets of the table, code by code. *)
Example documented_buckets :
  map (fun c => documented_bucket (Some c))
      [0; 1; 2; 3; 45; 48; 51; 53; 55; 56; 57; 61; 63; 65; 66; 67; 80; 81; 82;
       71; 73; 75; 77; 85; 86; 95; 96; 99; 4; 100; -1]%Z
  = [Sun; Cloud; Cloud; Cloud; Fog; Fog;
     RainCloud; RainCloud; RainCloud; RainCloud; RainCloud;
     RainCloud; RainCloud; RainCloud; RainCloud; RainCloud;
     RainCloud; RainCloud; RainCloud;
     SnowCloud; SnowCloud; SnowCloud; SnowCloud; SnowCloud; SnowCloud;
     RainCloud; RainCloud; RainCloud; Cloud; Cloud; Cloud].
Proof. reflexivity. Qed.

End IconFacts.

(* ================================================================== *)
(** * The calendar: ordinals follow the order of dates *)
(* ================================================================== *)

Module DateFacts.
Import Birthdays.
Local Open Scope Z_scope.

Lemma valid_date_bounds (y m d : Z) :
  valid_date y m d = true ->
  1 <= y <= 9999 /\ 1 <= m <= 12 /\ 1 <= d <= days_in_month y m.
Proof. unfold valid_date. lia. Qed.

Lemma days_in_month_bounds (y m : Z) : 28 <= days_in_month y m <= 31.
Proof.
  unfold days_in_month.
  destruct (m =? 2); [destruct (is_leap y); lia |].
  destruct (existsb (Z.eqb m) [4; 6; 9; 11]); lia.
Qed.

Lemma days_before_year_succ (y : Z) :
  days_before_year (y + 1) = days_before_year y + year_length y.
Proof.
  unfold days_before_year, year_length, is_leap.
  replace (y + 1 - 1) with y by lia.
  destruct (Z.eqb_spec (y mod 4) 0), (Z.eqb_spec (y mod 100) 0),
    (Z.eqb_spec (y mod 400) 0); cbn [negb andb orb];
    Z.div_mod_to_equations; lia.
Qed.

Lemma days_before_month_from_S (y : Z) (k : nat) :
  days_before_month_from y (S k)
  = days_before_month_from y k + days_in_month y (Z.of_nat (S k)).
Proof. reflexivity. Qed.

Lemma days_before_month_from_mono (y : Z) (j k : nat) :
  (j <= k)%nat -> days_before_month_from y j <= days_before_month_from y k.
Proof.
  induction 1 as [| k _ IH]; [lia |].
  cbn [days_before_month_from].
  pose proof (days_in_month_bounds y (Z.of_nat (S k))). lia.
Qed.

Lemma days_before_month_from_12 (y : Z) :
  days_before_month_from y 12 = year_length y.
Proof.
  unfold year_length. cbn. unfold days_in_month. cbn.
  destruct (is_leap y); reflexivity.
Qed.

(** A valid day of a month is one of the days of the year. *)
Lemma day_of_year_bounds (y m d : Z) :
  valid_date y m d = true ->
  1 <= days_before_month y m + d <= year_length y.
Proof.
  intros H. apply valid_date_bounds in H as (_ & Hm & Hd).
  unfold days_before_month.
  pose proof (days_before_month_from_mono y 0 (Z.to_nat (m - 1)) ltac:(lia)) as H0.
  cbn [days_before_month_from] in H0.
  pose proof (days_before_month_from_mono y (S (Z.to_nat (m - 1))) 12 ltac:(lia))
    as H1.
  rewrite days_before_month_from_12, days_before_month_from_S in H1.
  replace (Z.of_nat (S (Z.to_nat (m - 1)))) with m in H1 by lia.
  lia.
Qed.

(** Within a year, a later month and day has a later day of the year. *)
Lemma day_of_year_mono (y m d m' d' : Z) :
  valid_date y m d = true -> valid_date y m' d' = true ->
  m < m' \/ (m = m' /\ d <= d') ->
  days_before_month y m + d <= days_before_month y m' + d'.
Proof.
  intros H H' [Hlt | [-> Hle]]; [| lia].
  apply valid_date_bounds in H as (_ & Hm & Hd).
  apply valid_date_bounds in H' as (_ & Hm' & Hd').
  unfold days_before_month.
  pose proof (days_before_month_from_mono y (S (Z.to_nat (m - 1)))
                (Z.to_nat (m' - 1)) ltac:(lia)) as H1.
  rewrite days_before_month_from_S in H1.
  replace (Z.of_nat (S (Z.to_nat (m - 1)))) with m in H1 by lia.
  lia.
Qed.

(** A date that is not before [b], in the year of [b], is no earlier day. *)
Lemma same_year_not_before (a b : date) :
  valid a -> valid b -> year a = year b -> date_ltb a b = false ->
  0 <= days_between a b.
Proof.
  unfold valid, days_between, toordinal, date_ltb. intros Ha Hb Hy Hlt.
  rewrite Hy in *.
  pose proof (day_of_year_mono (year b) (month b) (day b) (month a) (day a)
                Hb Ha) as H.
  assert (month b < month a \/ month b = month a /\ day b <= day a) as Hc by lia.
  specialize (H Hc). lia.
Qed.

(** A date of the next year is a later day. *)
Lemma next_year_after (a b : date) :
  valid a -> valid b -> year a = year b + 1 -> 0 < days_between a b.
Proof.
  unfold valid, days_between, toordinal. intros Ha Hb Hy.
  rewrite Hy in *. rewrite days_before_year_succ.
  pose proof (day_of_year_bounds _ _ _ Ha).
  pose proof (day_of_year_bounds _ _ _ Hb).
  lia.
Qed.

End DateFacts.

(* ================================================================== *)
(** * Properties of the birthday adapter *)
(* ================================================================== *)

Module BirthdayFacts.
Import Birthdays DateFacts.
Local Open Scope Z_scope.

Lemma replace_some (y m d : Z) (x : date) :
  replace y m d = Some x -> x = mkdate y m d /\ valid x.
Proof.
  unfold replace, valid. destruct (valid_date y m d) eqn:H; [| discriminate].
  intros [= <-]. split; [reflexivity | exact H].
Qed.

Lemma falsy_false (v : option Z) :
  falsy v = false -> exists z, v = Some z /\ z <> 0.
Proof.
  destruct v as [z |]; cbn; [| discriminate].
  intros H. exists z. split; [reflexivity | lia].
Qed.

(** The occurrence the loop computes for an entry: the entry's day and month
    in this year, unless that day is before today, and then in the next
    year; it is never before today. *)
Lemma occurrence_spec (today : date) (data : entry) (occ : date) :
  valid today -> occurrence today data = Some occ ->
  exists m d,
    e_month data = Some m /\ e_day data = Some d
    /\ month occ = m /\ day occ = d /\ valid occ
    /\ ((year occ = year today /\ date_ltb occ today = false)
        \/ (year occ = year today + 1
            /\ date_ltb (mkdate (year today) m d) today = true))
    /\ 0 <= days_between occ today.
Proof.
  intros Ht. unfold occurrence.
  destruct (falsy (e_day data)) eqn:Hd; [discriminate |].
  destruct (falsy (e_month data)) eqn:Hm; [discriminate |].
  cbn [orb].
  apply falsy_false in Hd as (d & Hd & _).
  apply falsy_false in Hm as (m & Hm & _).
  rewrite Hd, Hm. cbn [get0].
  destruct (replace (year today) m d) as [this |] eqn:Hthis; [| discriminate].
  apply replace_some in Hthis as [-> Hv]. cbn [month day].
  destruct (date_ltb (mkdate (year today) m d) today) eqn:Hlt.
  - intros Hnext. apply replace_some in Hnext as [-> Hv'].
    exists m, d. repeat split; try reflexivity; try assumption.
    + right. split; [reflexivity | exact Hlt].
    + apply Z.lt_le_incl. apply next_year_after; try assumption. reflexivity.
  - intros [= <-]. exists m, d. repeat split; try reflexivity; try assumption.
    + left. split; [reflexivity | exact Hlt].
    + apply same_year_not_before; try assumption. reflexivity.
Qed.











(** C10.  When the birth year of an entry is the year of its occurrence the
    age is 0 and the entry is formatted without an age suffix; the suffix
    is there exactly for the ages that are not zero. *)
Theorem age_zero_suffix_omitted :
  (forall (days : Z) (today : date) (name : pystr) (data : entry)
          (occ : date),
     valid today -> occurrence today data = Some occ ->
     days_between occ today <= days ->
     e_year data = Some (year occ) ->
     age_at data occ = Some 0
     /\ get_upcoming_birthdays days today (Loaded [(name, data)])
        = Returned [day_prefix (days_between occ today) ++ str ": " ++ name])
  /\ (forall d name,
        format_entry (d, name, Some 0) = day_prefix d ++ str ": " ++ name)
  /\ (forall a, age_str (Some a) = [] <-> a = 0).
Proof.
  split; [| split].
  - intros days today name data occ Ht Ho Hd Hy.
    destruct (occurrence_spec today data occ Ht Ho)
      as (m & d & _ & _ & _ & _ & Hv & _ & _).
    apply valid_date_bounds in Hv as (Hyear & _).
    assert (age_at data occ = Some 0) as Hage.
    { unfold age_at. rewrite Hy. cbn.
      destruct (Z.eqb_spec (year occ) 0); [lia |]. f_equal. lia. }
    split; [exact Hage |].
    cbn. rewrite Ho.
    destruct (Z.leb_spec (days_between occ today) days); [| lia].
    cbn. rewrite Hage. cbn. now rewrite app_nil_r.
  - intros d name. cbn. now rewrite app_nil_r.
  - intros a. unfold age_str. destruct (Z.eqb_spec a 0) as [-> | Hne].
    + split; reflexivity.
    + split; [discriminate | contradiction].
Qed.

Lemma age_zero_suffix_omitted_witness :
  get_upcoming_birthdays 7 (mkdate 2024 6 10)
    (Loaded [(str "NAME", mkentry (Some 10) (Some 6) (Some 2024))])
  = Returned [str "Heute: NAME"].
Proof.
  refine (proj2 (proj1 age_zero_suffix_omitted 7 (mkdate 2024 6 10)
                   (str "NAME") (mkentry (Some 10) (Some 6) (Some 2024))
                   (mkdate 2024 6 10) eq_refl eq_refl _ eq_refl)).
  vm_compute. discriminate.
Defined.

End BirthdayFacts.

(* ================================================================== *)
(** * Properties of the weather adapter *)
(* ================================================================== *)

Section WeatherFacts.

Variable JVal : Type.
Variable fmt_1f : JVal -> option pystr.
Variable py_int : JVal -> option Z.
Variable py_float : JVal -> option pyfloat.
Variable fmt_0f : pyfloat -> pystr.

Let try_once := attempt fmt_1f py_int py_float fmt_0f.
Let run := get_weather_run fmt_1f py_int py_float fmt_0f.

(** An attempt that yields a snapshot yields one with [ok] set. *)
Lemma attempt_ok (f : fetch JVal) (s : snapshot JVal) :
  try_once f = Some s -> ok s = true.
Proof.
  unfold try_once, attempt, snapshot_of. destruct f as [| r]; [discriminate |].
  destruct (r_t r), (r_tmax r), (r_tmin r); try discriminate.
  destruct (fmt_1f j), (fmt_1f j1), (fmt_1f j0),
    (humidity_line py_int (r_hum r)),
    (wind_line py_float fmt_0f (r_ws r) (r_wd r)); try discriminate.
  now intros [= <-].
Qed.

(** An attempt fails when the request raises and when a required field is
    missing. *)
Lemma attempt_fails :
  try_once FetchRaised = None
  /\ forall r, r_t r = None \/ r_tmax r = None \/ r_tmin r = None ->
               try_once (Fetched r) = None.
Proof.
  split; [reflexivity |].
  intros r H. unfold try_once, attempt, snapshot_of.
  destruct (r_t r), (r_tmax r), (r_tmin r); try reflexivity;
    destruct H as [H | [H | H]]; discriminate.
Qed.

(** C4.  The adapter makes at most three requests, one after the other and
    with nothing in between (no delay), and stops at the first attempt that
    succeeds: if attempt [k] is the first to succeed, exactly [k + 1]
    requests are made and the result is that attempt's snapshot, with [ok]
    set; if all three attempts fail (the request raises, or a required field
    is missing), three requests are made and the result is exactly the
    snapshot with [ok] cleared, no weather code and the single line
    ("info", "Wetterdaten nicht verfügbar"). *)
Theorem get_weather_retries (fetches : nat -> fetch JVal) :
  let snap := fst (run fetches) in
  let trace := snd (run fetches) in
  get_weather fmt_1f py_int py_float fmt_0f fetches = snap
  /\ (exists n, (1 <= n <= 3)%nat /\ trace = requests n)
  /\ ~ In Sleep trace
  /\ (forall k s,
        (k < 3)%nat -> try_once (fetches k) = Some s ->
        (forall j, (j < k)%nat -> try_once (fetches j) = None) ->
        snap = s /\ ok snap = true /\ trace = requests (S k))
  /\ ((forall k, (k < 3)%nat -> try_once (fetches k) = None) ->
      trace = requests 3
      /\ snap = mksnapshot false None
                  [Some (str "info", str "Wetterdaten nicht verfügbar")])
  /\ (ok snap = true <->
      exists k, (k < 3)%nat /\ try_once (fetches k) <> None)
  /\ try_once FetchRaised = None
  /\ (forall r, r_t r = None \/ r_tmax r = None \/ r_tmin r = None ->
                try_once (Fetched r) = None).
Proof.
  cbv zeta. unfold run, get_weather, get_weather_run.
  split; [reflexivity |].
  cbn [retry_loop app]. fold try_once.
  destruct (try_once (fetches 0%nat)) as [s0 |] eqn:H0;
    [| destruct (try_once (fetches 1%nat)) as [s1 |] eqn:H1;
       [| destruct (try_once (fetches 2%nat)) as [s2 |] eqn:H2]];
    cbn [fst snd].
  - pose proof (attempt_ok _ _ H0) as Hok.
    split; [exists 1%nat; split; [lia | reflexivity] |].
    split; [intros [H | []]; discriminate |].
    split.
    { intros k s Hk Hs Hfirst. destruct k as [| k].
      - rewrite H0 in Hs. injection Hs as <-. repeat split; assumption.
      - specialize (Hfirst 0%nat ltac:(lia)). congruence. }
    split; [intros Hall; specialize (Hall 0%nat ltac:(lia)); congruence |].
    split; [| apply attempt_fails].
    split; [intros _; exists 0%nat; split; [lia | congruence] | intros _; exact Hok].
  - pose proof (attempt_ok _ _ H1) as Hok.
    split; [exists 2%nat; split; [lia | reflexivity] |].
    split; [intros [H | [H | []]]; discriminate |].
    split.
    { intros k s Hk Hs Hfirst. destruct k as [| [| k]].
      - congruence.
      - rewrite H1 in Hs. injection Hs as <-. repeat split; assumption.
      - specialize (Hfirst 1%nat ltac:(lia)). congruence. }
    split; [intros Hall; specialize (Hall 1%nat ltac:(lia)); congruence |].
    split; [| apply attempt_fails].
    split; [intros _; exists 1%nat; split; [lia | congruence] | intros _; exact Hok].
  - pose proof (attempt_ok _ _ H2) as Hok.
    split; [exists 3%nat; split; [lia | reflexivity] |].
    split; [intros [H | [H | [H | []]]]; discriminate |].
    split.
    { intros k s Hk Hs Hfirst. destruct k as [| [| [| k]]].
      - congruence.
      - congruence.
      - rewrite H2 in Hs. injection Hs as <-. repeat split; assumption.
      - lia. }
    split; [intros Hall; specialize (Hall 2%nat ltac:(lia)); congruence |].
    split; [| apply attempt_fails].
    split; [intros _; exists 2%nat; split; [lia | congruence] | intros _; exact Hok].
  - split; [exists 3%nat; split; [lia | reflexivity] |].
    split; [intros [H | [H | [H | []]]]; discriminate |].
    split.
    { intros k s Hk Hs Hfirst. destruct k as [| [| [| k]]]; [congruence .. | lia]. }
    split; [intros _; split; reflexivity |].
    split; [| apply attempt_fails].
    split; [discriminate |].
    intros (k & Hk & Hne). destruct k as [| [| [| k]]]; [congruence .. | lia].
Qed.

End WeatherFacts.

Lemma get_weather_retries_witness :
  get_weather_run JsonNum.fmt_1f JsonNum.py_int JsonNum.py_float JsonNum.fmt_0f
    (fun _ => FetchRaised)
  = (unavailable, requests 3)
  /\ ok (get_weather JsonNum.fmt_1f JsonNum.py_int JsonNum.py_float
           JsonNum.fmt_0f
           (fun k =>
              match k with
              | 1%nat =>
                  Fetched
                    (mkresponse (Some (JsonNum.JFloat (Finite 5.25)))
                       (Some (JsonNum.JInt 92))
                       (Some (JsonNum.JFloat (Finite 12.5)))
                       (Some (JsonNum.JInt 245)) (Some (JsonNum.JInt 3))
                       (Some (JsonNum.JInt 8))
                       (Some (JsonNum.JFloat (Finite 1.5))))
              | _ => FetchRaised
              end))
     = true.
Proof.
  split.
  - pose proof (get_weather_retries _ JsonNum.fmt_1f JsonNum.py_int
                  JsonNum.py_float JsonNum.fmt_0f (fun _ => FetchRaised))
      as (_ & _ & _ & _ & Hall & _).
    destruct (Hall (fun _ _ => eq_refl)) as [Ht Hs].
    apply injective_projections; [exact Hs | exact Ht].
  - pose proof (get_weather_retries _ JsonNum.fmt_1f JsonNum.py_int
                  JsonNum.py_float JsonNum.fmt_0f
                  (fun k =>
                     match k with
                     | 1%nat =>
                         Fetched
                           (mkresponse (Some (JsonNum.JFloat (Finite 5.25)))
                              (Some (JsonNum.JInt 92))
                              (Some (JsonNum.JFloat (Finite 12.5)))
                              (Some (JsonNum.JInt 245)) (Some (JsonNum.JInt 3))
                              (Some (JsonNum.JInt 8))
                              (Some (JsonNum.JFloat (Finite 1.5))))
                     | _ => FetchRaised
                     end))
      as (_ & _ & _ & Hfirst & _).
    refine (proj1 (proj2 (Hfirst 1%nat _ _ eq_refl _))).
    + lia.
    + intros j Hj. destruct j; [reflexivity | lia].
Defined.

(* ================================================================== *)
(** * Properties of the entry point *)
(* ================================================================== *)

Section MainFacts.

Variable JVal : Type.
Variable fmt_1f : JVal -> option pystr.
Variable py_int : JVal -> option Z.
Variable py_float : JVal -> option pyfloat.
Variable fmt_0f : pyfloat -> pystr.
Variable png : Type.
Variable render_dashboard_png : dashboard JVal -> result png.
Variable send_telegram_photo : png -> result bool.
Variable build_text_dashboard : dashboard JVal -> pystr.
Variable send_telegram_message : pystr -> bool.

Let collect := gather fmt_1f py_int py_float fmt_0f.
Let run :=
  main fmt_1f py_int py_float fmt_0f render_dashboard_png send_telegram_photo
    build_text_dashboard send_telegram_message.

(** The text path: one message, and the exit code is its outcome. *)
Lemma text_fallback_spec (d : dashboard JVal) (log : list (delivery png)) :
  text_fallback build_text_dashboard send_telegram_message d log
  = (log ++ [SendMessage (build_text_dashboard d)],
     Returned (if send_telegram_message (build_text_dashboard d)
               then 0%Z else 1%Z)).
Proof.
  unfold text_fallback.
  destruct (send_telegram_message (build_text_dashboard d)); reflexivity.
Qed.

(** The run after the data is gathered. *)
Lemma main_delivery (w : world JVal) (d : dashboard JVal) :
  collect w = Returned d ->
  let log := fst (run w) in
  let code := snd (run w) in
  let text := build_text_dashboard d in
  let image_delivered :=
    exists image, render_dashboard_png d = Returned image
                  /\ send_telegram_photo image = Returned true in
  (forall image,
      render_dashboard_png d = Returned image ->
      send_telegram_photo image = Returned true ->
      log = [SendPhoto image] /\ code = Returned 0%Z)
  /\ (forall image,
        render_dashboard_png d = Returned image ->
        send_telegram_photo image <> Returned true ->
        log = [SendPhoto image; SendMessage text]
        /\ code = Returned (if send_telegram_message text then 0%Z else 1%Z))
  /\ (forall e,
        render_dashboard_png d = Raised e ->
        log = [SendMessage text]
        /\ code = Returned (if send_telegram_message text then 0%Z else 1%Z))
  /\ (code = Returned 0%Z
      <-> image_delivered \/ send_telegram_message text = true)
  /\ (code = Returned 1%Z
      <-> ~ image_delivered /\ send_telegram_message text = false)
  /\ (code = Returned 0%Z \/ code = Returned 1%Z).
Proof.
  intros Hd. cbv zeta. unfold run, main. fold collect. rewrite Hd.
  set (text := build_text_dashboard d).
  destruct (render_dashboard_png d) as [image | e] eqn:Hr;
    [destruct (send_telegram_photo image) as [[|] | e] eqn:Hp |];
    rewrite ?text_fallback_spec; fold text; cbn [fst snd app];
    try destruct (send_telegram_message text) eqn:Ht;
    (split; [| split; [| split; [| split; [| split]]]]).
  all: try (intros img E; injection E as <-; intros; split; congruence).
  all: try (intros err E; (discriminate E || (split; reflexivity))).
  all: try (left; reflexivity).
  all: try (right; reflexivity).
  all: try (split; [intros _ | reflexivity]).
  all: try (split; [discriminate |]).
  all: try (left; exists image; split; [reflexivity | assumption]).
  all: try (right; reflexivity).
  all: try (intros [Hn _]; exfalso; apply Hn; exists image; split;
            [reflexivity | assumption]).
  all: try (intros [_ Hn]; discriminate Hn).
  all: try (intros [(img & E & Hi) | Hi]; [| discriminate Hi];
            (discriminate E || (injection E as <-; congruence))).
  all: try (split; [| reflexivity]; intros (img & E & Hi);
            (discriminate E || (injection E as <-; congruence))).
Qed.

(** An exception of the birthday adapter leaves [main] before anything is
    delivered. *)
Lemma main_uncaught (w : world JVal) (e : pystr) :
  collect w = Raised e -> run w = ([], Raised e).
Proof. intros H. unfold run, main. fold collect. now rewrite H. Qed.

(** C9.  With [d] the data gathered: when the image renders and its
    delivery succeeds, the photo is the only delivery and [main] returns 0;
    when the image renders and its delivery fails (a negative reply, or an
    exception), the photo is attempted once and the text is sent after it;
    when rendering raises, only the text is sent; on the text path [main]
    returns 0 if the text delivery succeeds and 1 if it fails.  So [main]
    returns 0 exactly when the image or the text is delivered, and 1
    exactly when the image is not delivered and the text delivery fails.
    When gathering raises (only the birthday adapter can), nothing is
    delivered and [main] returns no value. *)
Theorem main_exit_code (w : world JVal) :
  let log := fst (run w) in
  let code := snd (run w) in
  (forall d, collect w = Returned d ->
     let text := build_text_dashboard d in
     let image_delivered :=
       exists image, render_dashboard_png d = Returned image
                     /\ send_telegram_photo image = Returned true in
     (forall image,
         render_dashboard_png d = Returned image ->
         send_telegram_photo image = Returned true ->
         log = [SendPhoto image] /\ code = Returned 0%Z)
     /\ (forall image,
           render_dashboard_png d = Returned image ->
           send_telegram_photo image <> Returned true ->
           log = [SendPhoto image; SendMessage text]
           /\ code
              = Returned (if send_telegram_message text then 0%Z else 1%Z))
     /\ (forall e,
           render_dashboard_png d = Raised e ->
           log = [SendMessage text]
           /\ code
              = Returned (if send_telegram_message text then 0%Z else 1%Z))
     /\ (code = Returned 0%Z
         <-> image_delivered \/ send_telegram_message text = true)
     /\ (code = Returned 1%Z
         <-> ~ image_delivered /\ send_telegram_message text = false)
     /\ (code = Returned 0%Z \/ code = Returned 1%Z))
  /\ (forall e, collect w = Raised e -> log = [] /\ code = Raised e)
  /\ (code = Returned 0%Z ->
      exists sent, In sent log
        /\ match sent with
           | SendPhoto image => send_telegram_photo image = Returned true
           | SendMessage text => send_telegram_message text = true
           end).
Proof.
  cbv zeta. split; [| split].
  - intros d Hd. exact (main_delivery w d Hd).
  - intros e He. rewrite (main_uncaught w e He). now split.
  - destruct (collect w) as [d | e] eqn:Hd.
    + destruct (main_delivery w d Hd) as (Himg & Hfail & Hraise & _).
      cbv zeta in *. intros Hcode.
      destruct (render_dashboard_png d) as [image | e] eqn:Hr.
      * destruct (send_telegram_photo image) as [[|] | e] eqn:Hp.
        -- destruct (Himg image eq_refl Hp) as [-> _].
           exists (SendPhoto image). split; [now left | exact Hp].
        -- destruct (Hfail image eq_refl ltac:(congruence)) as [Hl Hc].
           rewrite Hl. rewrite Hc in Hcode.
           exists (SendMessage (build_text_dashboard d)).
           split; [right; now left |].
           destruct (send_telegram_message (build_text_dashboard d));
             [reflexivity | discriminate].
        -- destruct (Hfail image eq_refl ltac:(congruence)) as [Hl Hc].
           rewrite Hl. rewrite Hc in Hcode.
           exists (SendMessage (build_text_dashboard d)).
           split; [right; now left |].
           destruct (send_telegram_message (build_text_dashboard d));
             [reflexivity | discriminate].
      * destruct (Hraise e eq_refl) as [Hl Hc].
        rewrite Hl. rewrite Hc in Hcode.
        exists (SendMessage (build_text_dashboard d)).
        split; [now left |].
        destruct (send_telegram_message (build_text_dashboard d));
          [reflexivity | discriminate].
    + rewrite (main_uncaught w e Hd). cbn [snd]. discriminate.
Qed.

End MainFacts.

Lemma main_exit_code_witness :
  main JsonNum.fmt_1f JsonNum.py_int JsonNum.py_float JsonNum.fmt_0f
    (fun _ => Raised (str "No font found on system"))
    (fun _ : unit => Returned false)
    (fun d => title d ++ str " " ++ today_str d)
    (fun _ => true)
    (mkworld 7 (Birthdays.mkdate 2024 6 10) (str "10.06.2024")
       (fun _ => FetchRaised) (Raised (str "khal")) Todos.Absent
       Birthdays.Missing)
  = ([SendMessage (str "Guten Morgen! 10.06.2024")], Returned 0%Z).
Proof.
  pose proof
    (main_exit_code JsonNum.jnum JsonNum.fmt_1f JsonNum.py_int JsonNum.py_float
       JsonNum.fmt_0f unit
       (fun _ => Raised (str "No font found on system"))
       (fun _ : unit => Returned false)
       (fun d => title d ++ str " " ++ today_str d)
       (fun _ => true)
       (mkworld 7 (Birthdays.mkdate 2024 6 10) (str "10.06.2024")
          (fun _ => FetchRaised) (Raised (str "khal")) Todos.Absent
          Birthdays.Missing))
    as (Hrun & _).
  destruct (Hrun _ eq_refl) as (_ & _ & Hraise & _).
  destruct (Hraise (str "No font found on system") eq_refl) as [Hlog Hcode].
  apply injective_projections; [exact Hlog | exact Hcode].
Defined.

(* ================================================================== *)
(** * Properties of the card layout *)
(* ================================================================== *)

Section CardFacts.
Local Open Scope Z_scope.

Variable font : Type.
Variable textbbox_right : font -> pystr -> Z.
Variables f_h f_txt : font.
Variable lower : pystr -> pystr.
Variable colour : Type.
Variables white muted divider : colour.

Let trace := content_trace f_txt muted divider.
Let wrapped := draw_wrapped f_txt muted.
Let item := draw_item textbbox_right f_txt muted.
Let items := draw_items textbbox_right f_txt muted divider.
Let card := card_block textbbox_right f_h f_txt lower white muted divider.

(** ** Drawing sequences *)

Lemma trace_app (limit yy yy1 yy2 : Z) (ops1 ops2 : list (draw_op font colour)) (r : bool) :
  trace limit yy ops1 yy1 false -> trace limit yy1 ops2 yy2 r ->
  trace limit yy (ops1 ++ ops2) yy2 r.
Proof.
  intros H1 H2. remember false as r1 eqn:Hr1.
  induction H1 as [yy | yy x0 s ops yy' r' Hle H IH | yy x0 s Hgt
                  | yy x0 x1 ops yy' r' Hlt H IH]; cbn [app].
  - exact H2.
  - apply trace_line; [exact Hle | now apply IH].
  - discriminate.
  - apply trace_divider; [exact Hlt | now apply IH].
Qed.

(** The line that takes the cursor past the limit is the last thing drawn,
    and the cursor returned is the one behind it. *)
Lemma trace_stop (limit yy yy' : Z) (ops : list (draw_op font colour)) (r : bool) :
  trace limit yy ops yy' r ->
  forall pre x0 y0 s c f post,
    ops = pre ++ DrawText x0 y0 s c f :: post -> y0 + 44 > limit ->
    post = [] /\ yy' = y0 + 44 /\ r = true.
Proof.
  induction 1 as [yy | yy x1 s1 ops yy' r' Hle H IH | yy x1 s1 Hgt
                 | yy x1 x2 ops yy' r' Hlt H IH];
    intros pre x0 y0 s c f post E Hy0.
  - destruct pre; discriminate.
  - destruct pre as [| p pre]; cbn [app] in E.
    + injection E as <- <- <- <- <- <-. lia.
    + injection E as _ E. eapply IH; eassumption.
  - destruct pre as [| p pre]; cbn [app] in E.
    + injection E as <- <- <- <- <- <-. repeat split.
    + injection E as _ E. destruct pre; discriminate.
  - destruct pre as [| p pre]; cbn [app] in E; [discriminate |].
    injection E as _ E. eapply IH; eassumption.
Qed.

(** A run that returned early ends with the line that crossed the limit. *)
Lemma trace_returned (limit yy yy' : Z) (ops : list (draw_op font colour)) :
  trace limit yy ops yy' true ->
  exists pre x0 s,
    ops = pre ++ [DrawText x0 (yy' - 44) s muted f_txt] /\ yy' > limit.
Proof.
  intros H. remember true as r eqn:Hr.
  induction H as [yy | yy x1 s1 ops yy' r' Hle H IH | yy x1 s1 Hgt
                 | yy x1 x2 ops yy' r' Hlt H IH].
  - discriminate.
  - destruct (IH Hr) as (pre & x0 & s & -> & Hgt).
    exists (DrawText x1 yy s1 muted f_txt :: pre), x0, s. now split.
  - exists [], x1, s1. replace (yy + 44 - 44) with yy by lia. now split.
  - destruct (IH Hr) as (pre & x0 & s & -> & Hgt).
    eexists (_ :: pre), x0, s. now split.
Qed.

(** Where the lines and the dividers of a run from cursor [yy] are. *)
Lemma trace_bounds (limit yy yy' : Z) (ops : list (draw_op font colour)) (r : bool) :
  trace limit yy ops yy' r ->
  yy <= yy'
  /\ (forall x0 y0 s c f,
         In (DrawText x0 y0 s c f) ops ->
         c = muted /\ f = f_txt /\ yy <= y0 /\ (y0 = yy \/ y0 <= limit + 3))
  /\ (forall x0 y0 x1 y1 c wd,
         In (DrawLine x0 y0 x1 y1 c wd) ops ->
         y1 = y0 /\ yy + 8 <= y0 /\ y0 < limit - 12).
Proof.
  induction 1 as [yy | yy x1 s1 ops yy' r' Hle H (IHy & IHt & IHd)
                 | yy x1 s1 Hgt
                 | yy x1 x2 ops yy' r' Hlt H (IHy & IHt & IHd)].
  - split; [lia |]. split; intros; contradiction.
  - split; [lia |]. split.
    + intros x0 y0 s c f [E | Hin].
      * injection E as <- <- <- <- <-. repeat split; lia.
      * destruct (IHt _ _ _ _ _ Hin) as (-> & -> & Hy & Hb).
        repeat split; lia.
    + intros x0 y0 x2 y1 c wd [E | Hin]; [discriminate |].
      destruct (IHd _ _ _ _ _ _ Hin) as (-> & Hy & Hb). repeat split; lia.
  - split; [lia |]. split.
    + intros x0 y0 s c f [E | []].
      injection E as <- <- <- <- <-. repeat split; lia.
    + intros x0 y0 x2 y1 c wd [E | []]. discriminate.
  - split; [lia |]. split.
    + intros x0 y0 s c f [E | Hin]; [discriminate |].
      destruct (IHt _ _ _ _ _ Hin) as (-> & -> & Hy & Hb).
      repeat split; lia.
    + intros x0 y0 x3 y1 c wd [E | Hin].
      * injection E as <- <- <- <- <- <-. repeat split; lia.
      * destruct (IHd _ _ _ _ _ _ Hin) as (-> & Hy & Hb). repeat split; lia.
Qed.

(** The cursor advances by 44 for a line and by 24 for a divider. *)
Lemma trace_cursor (limit yy yy' : Z) (ops : list (draw_op font colour))
  (r : bool) :
  trace limit yy ops yy' r ->
  yy' = yy + 44 * count_ops is_text ops + 24 * count_ops is_divider ops.
Proof.
  unfold count_ops.
  induction 1 as [yy | yy x1 s1 ops yy' r' Hle H IH | yy x1 s1 Hgt
                 | yy x1 x2 ops yy' r' Hlt H IH]; cbn [filter is_text is_divider].
  - cbn. lia.
  - rewrite IH. cbn [List.length]. lia.
  - cbn. lia.
  - rewrite IH. cbn [List.length]. lia.
Qed.

(** ** The routine draws such a sequence *)

Lemma draw_wrapped_trace (limit first_x rest_x : Z) (prefix : pystr)
  (wrapped_lines : list pystr) (is_first : bool) (yy : Z) (ops : list (draw_op font colour)) :
  let fl := wrapped limit first_x rest_x prefix is_first wrapped_lines yy ops in
  exists new,
    flow_ops fl = ops ++ new
    /\ trace limit yy new (flow_yy fl) (flow_returned fl).
Proof.
  cbv zeta. unfold wrapped. revert is_first yy ops.
  induction wrapped_lines as [| wl rest IH]; intros is_first yy ops.
  - exists []. cbn. rewrite app_nil_r. split; [reflexivity | constructor].
  - cbn [draw_wrapped].
    destruct (Z.gtb_spec (yy + 44) limit) as [Hgt | Hle]; cbv iota.
    + cbn [flow_ops flow_yy flow_returned]. eexists. split; [reflexivity |].
      destruct is_first; apply trace_last_line; lia.
    + destruct (IH false (yy + 44) (ops ++ [if is_first
                   then DrawText first_x yy (prefix ++ wl) muted f_txt
                   else DrawText rest_x yy wl muted f_txt]))
        as (new & Hops & Htr).
      rewrite Hops. rewrite <- app_assoc. eexists. split; [reflexivity |].
      cbn [app]. destruct is_first; apply trace_line; assumption.
Qed.

Lemma draw_item_trace (x y w h : Z) (is_todos is_calendar : bool)
  (ln : pystr) (yy : Z) (ops : list (draw_op font colour)) :
  let fl := item x y w h is_todos is_calendar ln yy ops in
  exists new,
    flow_ops fl = ops ++ new
    /\ trace (y + h - 40) yy new (flow_yy fl) (flow_returned fl).
Proof.
  cbv zeta. unfold item, draw_item.
  repeat match goal with
    | |- context [if ?b then _ else _] => destruct b
    | |- context [match ?l with [] => _ | _ :: _ => _ end] => destruct l
    end; apply draw_wrapped_trace.
Qed.

Lemma draw_divider_trace (style : pystr) (x y w h : Z) (is_todos : bool)
  (yy : Z) (ops : list (draw_op font colour)) :
  exists new,
    snd (draw_divider divider style x y w h is_todos yy ops) = ops ++ new
    /\ trace (y + h - 40) yy new
         (fst (draw_divider divider style x y w h is_todos yy ops)) false.
Proof.
  unfold draw_divider.
  destruct (Z.ltb_spec yy (y + h - 60)) as [Hlt | Hge].
  - destruct (PyStr.eqb style (str "list") || is_todos); cbn [fst snd].
    + eexists. split; [reflexivity |].
      apply trace_divider; [lia | constructor].
    + exists []. rewrite app_nil_r. split; [reflexivity | constructor].
  - exists []. rewrite app_nil_r. split; [reflexivity | constructor].
Qed.

Lemma draw_items_trace (style : pystr) (x y w h : Z)
  (is_todos is_calendar : bool) (lines : list pystr) (yy : Z)
  (ops : list (draw_op font colour)) :
  let fl := items style x y w h is_todos is_calendar lines yy ops in
  exists new,
    flow_ops fl = ops ++ new
    /\ trace (y + h - 40) yy new (flow_yy fl) (flow_returned fl).
Proof.
  cbv zeta. revert yy ops. induction lines as [| ln rest IH]; intros yy ops.
  - exists []. cbn. rewrite app_nil_r. split; [reflexivity | constructor].
  - unfold items. cbn [draw_items]. fold items. fold item.
    destruct (draw_item_trace x y w h is_todos is_calendar ln yy ops)
      as (new1 & Hops1 & Htr1).
    destruct (item x y w h is_todos is_calendar ln yy ops) as [yy1 ops1 | yy1 ops1];
      cbn [flow_ops flow_yy flow_returned] in *.
    + destruct (draw_divider_trace style x y w h is_todos yy1 ops1)
        as (new2 & Hops2 & Htr2).
      destruct (draw_divider divider style x y w h is_todos yy1 ops1)
        as [yy2 ops2]. cbn [fst snd] in *.
      destruct (IH yy2 ops2) as (new3 & Hops3 & Htr3).
      exists (new1 ++ new2 ++ new3). split.
      * rewrite Hops3, Hops2, Hops1. now rewrite <- !app_assoc.
      * eapply trace_app; [exact Htr1 |].
        eapply trace_app; [exact Htr2 | exact Htr3].
    + exists new1. split; assumption.
Qed.

(** Once the routine has returned, the items that follow are not looked at. *)
Lemma draw_items_app (style : pystr) (x y w h : Z)
  (is_todos is_calendar : bool) (lines rest : list pystr) (yy : Z)
  (ops : list (draw_op font colour)) :
  flow_returned (items style x y w h is_todos is_calendar lines yy ops) = true ->
  items style x y w h is_todos is_calendar (lines ++ rest) yy ops
  = items style x y w h is_todos is_calendar lines yy ops.
Proof.
  revert yy ops. induction lines as [| ln lines IH]; intros yy ops.
  - cbn. discriminate.
  - unfold items. cbn [draw_items app]. fold items.
    destruct (draw_item textbbox_right f_txt muted x y w h is_todos is_calendar
                ln yy ops) as [yy1 ops1 | yy1 ops1]; [| reflexivity].
    destruct (draw_divider divider style x y w h is_todos yy1 ops1)
      as [yy2 ops2].
    apply IH.
Qed.

(** ** The font metrics are the only thing the layout takes from the font *)

Section Metrics.

Variable textbbox_right' : font -> pystr -> Z.
Hypothesis same_metrics :
  forall s, textbbox_right' f_txt s = textbbox_right f_txt s.

Lemma wrap_step_metrics (max_width : Z) (st : wrap_state) (w : pystr) :
  wrap_step textbbox_right' f_txt max_width st w
  = wrap_step textbbox_right f_txt max_width st w.
Proof. unfold wrap_step. destruct st. now rewrite same_metrics. Qed.

Lemma wrap_metrics (text : pystr) (max_width : Z) :
  _wrap textbbox_right' text f_txt max_width
  = _wrap textbbox_right text f_txt max_width.
Proof.
  unfold _wrap. f_equal. generalize (@nil pystr, @nil pystr).
  induction (split text) as [| w ws IH]; intros st; [reflexivity |].
  cbn [fold_left]. rewrite wrap_step_metrics. apply IH.
Qed.

Lemma draw_item_metrics (x y w h : Z) (is_todos is_calendar : bool)
  (ln : pystr) (yy : Z) (ops : list (draw_op font colour)) :
  draw_item textbbox_right' f_txt muted x y w h is_todos is_calendar ln yy ops
  = item x y w h is_todos is_calendar ln yy ops.
Proof.
  unfold item, draw_item.
  repeat match goal with
    | |- context [if ?b then _ else _] => destruct b
    | |- context [match ?l with [] => _ | _ :: _ => _ end] => destruct l
    end;
    rewrite ?same_metrics, ?wrap_metrics; reflexivity.
Qed.

Lemma draw_items_metrics (style : pystr) (x y w h : Z)
  (is_todos is_calendar : bool) (lines : list pystr) (yy : Z)
  (ops : list (draw_op font colour)) :
  draw_items textbbox_right' f_txt muted divider style x y w h is_todos
    is_calendar lines yy ops
  = items style x y w h is_todos is_calendar lines yy ops.
Proof.
  revert yy ops. induction lines as [| ln lines IH]; intros yy ops;
    [reflexivity |].
  unfold items. cbn [draw_items]. fold items. rewrite draw_item_metrics.
  unfold item.
  destruct (draw_item textbbox_right f_txt muted x y w h is_todos is_calendar
              ln yy ops) as [yy1 ops1 | yy1 ops1]; [| reflexivity].
  destruct (draw_divider divider style x y w h is_todos yy1 ops1). apply IH.
Qed.

End Metrics.

(** ** The card *)

(** [card_block] is the frame followed by the loop over the items. *)
Lemma card_block_flow (style : pystr) (x y w h : Z) (header : pystr)
  (lines : list pystr) (bgcol : colour) :
  let fl :=
    items style x y w h (is_todos_header lower header)
      (is_calendar_header lower header) lines (y + 86) (card_frame f_h white style x y w h header bgcol) in
  card style x y w h header lines bgcol = (flow_ops fl, flow_yy fl).
Proof.
  cbv zeta. unfold card, card_block, items, card_frame, is_todos_header,
    is_calendar_header.
  destruct (draw_items _ _ _ _ _ _ _ _ _ _ _ _ _ _); reflexivity.
Qed.

(** C2.  For every header and list of items, with [limit] the bottom padding
    boundary [y + h - 40]: the routine draws the frame, then the content,
    and returns a cursor (it never raises): [y + 86] advanced by 44 for
    each content line and by 24 for each divider drawn.  A content line
    whose drawing takes the cursor past [limit] is the last thing drawn, and
    the cursor behind it is what is returned; the items after it are
    dropped: they have no effect on the result.  Every content line is drawn at a cursor
    that is [y + 86] or at most [limit + 3], so in a card higher than its
    header band (86) no content line starts below the card; the dividers lie
    above the boundary.  The result depends on the font only through its
    metrics: two fonts that measure alike give the same drawing and the
    same cursor. *)
Theorem card_block_truncation (style : pystr) (x y w h : Z) (header : pystr)
  (lines : list pystr) (bgcol : colour) :
  let limit := y + h - 40 in
  let result := card style x y w h header lines bgcol in
  exists content,
    fst result = card_frame f_h white style x y w h header bgcol ++ content
    /\ snd result
       = y + 86 + 44 * count_ops is_text content
         + 24 * count_ops is_divider content
    /\ (forall pre x0 y0 s c f post,
          content = pre ++ DrawText x0 y0 s c f :: post ->
          y0 + 44 > limit ->
          post = [] /\ snd result = y0 + 44)
    /\ (forall rest,
          (exists pre x0 y0 s c f,
              content = pre ++ [DrawText x0 y0 s c f] /\ y0 + 44 > limit) ->
          card style x y w h header (lines ++ rest) bgcol = result)
    /\ (forall x0 y0 s c f,
          In (DrawText x0 y0 s c f) content ->
          c = muted /\ f = f_txt /\ y + 86 <= y0
          /\ (y0 = y + 86 \/ y0 <= limit + 3))
    /\ (86 < h ->
        forall x0 y0 s c f,
          In (DrawText x0 y0 s c f) content -> y < y0 < y + h)
    /\ (forall x0 y0 x1 y1 c wd,
          In (DrawLine x0 y0 x1 y1 c wd) content ->
          y1 = y0 /\ y + 94 <= y0 < limit - 12)
    /\ (forall textbbox_right' : font -> pystr -> Z,
          (forall s, textbbox_right' f_txt s = textbbox_right f_txt s) ->
          card_block textbbox_right' f_h f_txt lower white muted divider
            style x y w h header lines bgcol
          = result).
Proof.
  cbv zeta. rewrite card_block_flow. cbn [fst snd].
  set (frame := card_frame f_h white style x y w h header bgcol).
  set (td := is_todos_header lower header).
  set (cal := is_calendar_header lower header).
  destruct (draw_items_trace style x y w h td cal lines (y + 86) frame)
    as (content & Hops & Htr).
  exists content. split; [exact Hops |].
  destruct (trace_bounds _ _ _ _ _ Htr) as (Hyy & Htext & Hdiv).
  split; [exact (trace_cursor _ _ _ _ _ Htr) |].
  split.
  { intros pre x0 y0 s c f post E Hy0.
    destruct (trace_stop _ _ _ _ _ Htr _ _ _ _ _ _ _ E Hy0) as (Hp & Hy & _).
    now split. }
  split.
  { intros rest (pre & x0 & y0 & s & c & f & E & Hy0).
    destruct (trace_stop _ _ _ _ _ Htr _ _ _ _ _ _ _ E Hy0) as (_ & _ & Hr).
    rewrite card_block_flow. fold frame td cal.
    now rewrite draw_items_app. }
  split; [exact Htext |].
  split.
  { intros Hh x0 y0 s c f Hin.
    destruct (Htext _ _ _ _ _ Hin) as (_ & _ & Hlo & Hhi). lia. }
  split.
  { intros x0 y0 x1 y1 c wd Hin.
    destruct (Hdiv _ _ _ _ _ _ Hin) as (Hy1 & Hlo & Hhi).
    repeat split; lia. }
  intros tb' Hsame.
  unfold card_block. rewrite (draw_items_metrics tb' Hsame).
  pose proof (card_block_flow style x y w h header lines bgcol) as Hfl.
  cbv zeta in Hfl. fold frame td cal in Hfl. rewrite <- Hfl.
  reflexivity.
Qed.

End CardFacts.

Lemma card_block_truncation_witness :
  exists content,
    fst (CardExample.card_block (str "cards") 48 1000 984 300
           (str "Geburtstage (7 Tage)")
           [str "Heute: Anna (34)"; str "Morgen: Ben";
            str "in 3 Tagen: Clara Sophie Marie von und zu Beispielhausen";
            str "in 5 Tagen: Dora"; str "in 7 Tagen: Emil"]
           CardExample.CardBg)
    = card_frame CardExample.Header_face CardExample.White (str "cards")
        48 1000 984 300 (str "Geburtstage (7 Tage)") CardExample.CardBg
      ++ content
    /\ forall x0 y0 s c f,
         In (DrawText x0 y0 s c f) content -> (1000 < y0 < 1000 + 300)%Z.
Proof.
  destruct (card_block_truncation _ CardExample.fixed_width
              CardExample.Header_face CardExample.Text_face
              CardExample.lower_ascii _ CardExample.White CardExample.Muted
              CardExample.Divider (str "cards") 48 1000 984 300
              (str "Geburtstage (7 Tage)")
              [str "Heute: Anna (34)"; str "Morgen: Ben";
               str "in 3 Tagen: Clara Sophie Marie von und zu Beispielhausen";
               str "in 5 Tagen: Dora"; str "in 7 Tagen: Emil"]
              CardExample.CardBg)
    as (content & Hops & _ & _ & _ & _ & Hin & _).
  exists content. split; [exact Hops |].
  apply Hin. lia.
Defined.

(** A birthday card of height 300 holds four lines: the fifth physical line
    and the items after it are dropped, and the cursor returned is behind
    the fourth line. *)
Example card_block_truncated :
  CardExample.card_block (str "cards") 48 1000 984 300
    (str "Geburtstage (7 Tage)")
    [str "Heute: Anna (34)"; str "Morgen: Ben";
     str "in 3 Tagen: Clara Sophie Marie von und zu Beispielhausen";
     str "in 5 Tagen: Dora"; str "in 7 Tagen: Emil"]
    CardExample.CardBg
  = (card_frame CardExample.Header_face CardExample.White (str "cards")
       48 1000 984 300 (str "Geburtstage (7 Tage)") CardExample.CardBg
     ++ [DrawText 82 1086 (str "Heute: Anna (34)") CardExample.Muted
           CardExample.Text_face;
         DrawText 82 1130 (str "Morgen: Ben") CardExample.Muted
           CardExample.Text_face;
         DrawText 82 1174 (str "in 3 Tagen: Clara Sophie Marie von und zu")
           CardExample.Muted CardExample.Text_face;
         DrawText 82 1218 (str "Beispielhausen") CardExample.Muted
           CardExample.Text_face],
     1262%Z).
Proof. reflexivity. Qed.

(** A to-do card: bullets, hanging indent, and a divider under each item. *)
Example card_block_todos :
  CardExample.card_block (str "cards") 48 0 400 830 (str "To-dos")
    [str "- [ ] Steuer machen und Belege sortieren"; str "- [x] Brot"]
    CardExample.CardBg
  = (card_frame CardExample.Header_face CardExample.White (str "cards")
       48 0 400 830 (str "To-dos") CardExample.CardBg
     ++ [DrawText 82 86 (str "• Steuer machen") CardExample.Muted
           CardExample.Text_face;
         DrawText 122 130 (str "und Belege") CardExample.Muted
           CardExample.Text_face;
         DrawText 122 174 (str "sortieren") CardExample.Muted
           CardExample.Text_face;
         DrawLine 82 226 414 226 CardExample.Divider 2;
         DrawText 82 242 (str "• Brot") CardExample.Muted
           CardExample.Text_face;
         DrawLine 82 294 414 294 CardExample.Divider 2],
     310%Z).
Proof. reflexivity. Qed.

(* ================================================================== *)
(** * More on the wind direction label *)
(* ================================================================== *)

Module WindTotal.
Import Wind WindFacts.




End WindTotal.

(* ================================================================== *)
(** * More on Python strings: trimming *)
(* ================================================================== *)

Module TrimFacts.
Import WordFacts.

Lemma lstrip_idem (s : pystr) : lstrip (lstrip s) = lstrip s.
Proof.
  induction s as [| c s IH]; [reflexivity |].
  cbn [lstrip]. destruct (is_space c) eqn:Hc; [exact IH |].
  cbn [lstrip]. now rewrite Hc.
Qed.

Lemma rstrip_idem (s : pystr) : rstrip (rstrip s) = rstrip s.
Proof. unfold rstrip. now rewrite rev_involutive, lstrip_idem. Qed.

Lemma lstrip_snoc_nonspace (l : pystr) (c : char) :
  is_space c = false -> lstrip (l ++ [c]) = lstrip l ++ [c].
Proof.
  intros Hc. induction l as [| d l IH]; cbn.
  - now rewrite Hc.
  - destruct (is_space d); [exact IH | reflexivity].
Qed.

Lemma rstrip_cons_nonspace (c : char) (s : pystr) :
  is_space c = false -> rstrip (c :: s) = c :: rstrip s.
Proof.
  intros Hc. unfold rstrip. cbn [rev].
  rewrite lstrip_snoc_nonspace by exact Hc.
  rewrite rev_app_distr. reflexivity.
Qed.

Lemma rstrip_snoc_nonspace (s : pystr) (c : char) :
  is_space c = false -> rstrip (s ++ [c]) = s ++ [c].
Proof.
  intros Hc. unfold rstrip. rewrite rev_app_distr. cbn [rev app lstrip].
  rewrite Hc. cbn [rev]. now rewrite rev_involutive.
Qed.

(** Trimming is idempotent. *)
Lemma strip_idem (s : pystr) : strip (strip s) = strip s.
Proof.
  unfold strip. destruct (lstrip s) as [| c t] eqn:E; [reflexivity |].
  assert (is_space c = false) as Hc.
  { clear -E. induction s as [| d s IH]; [discriminate |].
    cbn [lstrip] in E. destruct (is_space d) eqn:Hd; [now apply IH |].
    now injection E as <- _. }
  rewrite (rstrip_cons_nonspace c t Hc). cbn [lstrip]. rewrite Hc.
  rewrite (rstrip_cons_nonspace c _ Hc). now rewrite rstrip_idem.
Qed.

(** A string between two non-spaces is left as it is. *)
Lemma strip_between (c d : char) (m : pystr) :
  is_space c = false -> is_space d = false ->
  strip (c :: m ++ [d]) = c :: m ++ [d].
Proof.
  intros Hc Hd. unfold strip. cbn [lstrip]. rewrite Hc.
  change (c :: m ++ [d]) with ((c :: m) ++ [d]).
  now apply rstrip_snoc_nonspace.
Qed.

Lemma strip_single (c : char) : is_space c = false -> strip [c] = [c].
Proof.
  intros Hc. unfold strip. cbn [lstrip]. rewrite Hc.
  now apply (rstrip_snoc_nonspace [] c).
Qed.

(** The ends of a word. *)
Lemma word_ends (w : pystr) :
  word w ->
  (exists c, is_space c = false /\ w = [c])
  \/ (exists c m d, is_space c = false /\ is_space d = false
                    /\ w = c :: m ++ [d]).
Proof.
  intros [Hne Hw]. destruct w as [| c t]; [congruence |].
  inversion Hw as [| ? ? Hc Ht]; subst.
  destruct t as [| e t]; [left; now exists c |].
  right. destruct (exists_last (l := e :: t) ltac:(discriminate))
    as (m & d & E).
  exists c, m, d. rewrite E in *. repeat split; try assumption.
  apply Forall_app in Ht as [_ Hd]. now inversion Hd.
Qed.

(** The join of words starts and ends with a non-space. *)
Lemma join_ends (ws : list pystr) :
  ws <> [] -> Forall word ws ->
  (exists c, is_space c = false /\ join [SP] ws = [c])
  \/ (exists c m d, is_space c = false /\ is_space d = false
                    /\ join [SP] ws = c :: m ++ [d]).
Proof.
  induction ws as [| w ws IH]; intros Hne Hws; [congruence |].
  inversion Hws as [| ? ? Hw Hws']; subst.
  destruct ws as [| w' ws]; [cbn [join]; now apply word_ends |].
  right.
  change (join [SP] (w :: w' :: ws)) with (w ++ SP :: join [SP] (w' :: ws)).
  assert (exists c t, is_space c = false /\ w = c :: t) as (c & t & Hc & ->).
  { destruct (word_ends w Hw) as [(c & Hc & ->) | (c & m & d & Hc & _ & ->)];
      eauto. }
  destruct (IH ltac:(discriminate) Hws')
    as [(d & Hd & ->) | (c' & m & d & _ & Hd & ->)].
  - exists c, (t ++ [SP]), d. repeat split; try assumption.
    cbn. now rewrite <- app_assoc.
  - exists c, (t ++ SP :: c' :: m), d. repeat split; try assumption.
    cbn. rewrite <- app_assoc. reflexivity.
Qed.

(** Words joined by single spaces need no trimming. *)
Lemma strip_join_words (ws : list pystr) :
  ws <> [] -> Forall word ws -> strip (join [SP] ws) = join [SP] ws.
Proof.
  intros Hne Hws.
  destruct (join_ends ws Hne Hws)
    as [(c & Hc & ->) | (c & m & d & Hc & Hd & ->)].
  - now apply strip_single.
  - now apply strip_between.
Qed.

Lemma join_nonempty (ws : list pystr) :
  ws <> [] -> Forall word ws -> join [SP] ws <> [].
Proof.
  intros Hne Hws.
  destruct (join_ends ws Hne Hws) as [(c & _ & ->) | (c & m & d & _ & _ & ->)];
    discriminate.
Qed.

Lemma join_snoc (ws : list pystr) (w : pystr) :
  ws <> [] -> join [SP] (ws ++ [w]) = join [SP] ws ++ SP :: w.
Proof.
  induction ws as [| v ws IH]; intros Hne; [congruence |].
  destruct ws as [| v' ws]; [reflexivity |].
  change (join [SP] ((v :: v' :: ws) ++ [w]))
    with (v ++ SP :: join [SP] ((v' :: ws) ++ [w])).
  rewrite IH by discriminate.
  change (join [SP] (v :: v' :: ws)) with (v ++ SP :: join [SP] (v' :: ws)).
  now rewrite <- app_assoc.
Qed.

(** [split] finds no word exactly in a blank string. *)
Lemma split_nil_iff (s : pystr) :
  split s = [] <-> Forall (fun c => is_space c = true) s.
Proof.
  induction s as [| c s IH]; [split; [constructor | reflexivity] |].
  cbn [split]. destruct (is_space c) eqn:Hc.
  - rewrite IH. split; [now constructor | now inversion 1].
  - split.
    + destruct s as [| d s]; [discriminate |].
      destruct (is_space d); [discriminate |].
      destruct (split (d :: s)); discriminate.
    + inversion 1; congruence.
Qed.

End TrimFacts.

(* ================================================================== *)
(** * More on the word wrap *)
(* ================================================================== *)

Section WrapMore.
Import WordFacts TrimFacts.
Local Open Scope Z_scope.

Variable font : Type.
Variable textbbox_right : font -> pystr -> Z.
Variable f : font.
Variable max_width : Z.

Let step := wrap_step textbbox_right f max_width.
Let fits := one_line textbbox_right f max_width.
Let inv := wrap_inv textbbox_right f max_width.
Let greedy := greedy_lines textbbox_right f max_width.

(** Words that stay on one line, the last of them not the only one, measure
    at most the width. *)
Lemma one_line_fits (cur : list pystr) (w : pystr) :
  cur <> [] -> Forall word (cur ++ [w]) -> fits (cur ++ [w]) ->
  textbbox_right f (join [SP] (cur ++ [w])) <= max_width.
Proof.
  intros Hne Hws. unfold fits, one_line. rewrite fold_left_app.
  destruct (fold_left (wrap_step textbbox_right f max_width) cur ([], []))
    as [l c].
  cbn [fold_left]. unfold wrap_step.
  destruct ((textbbox_right f (strip (join [SP] (c ++ [w]))) <=? max_width)
            || negb (truthy_list c)) eqn:Htest.
  - intros [= -> E]. apply app_inj_tail in E as [-> _].
    rewrite strip_join_words in Htest
      by (assumption || (destruct cur; discriminate)).
    destruct cur; [congruence |]. cbn [truthy_list negb] in Htest.
    rewrite orb_false_r in Htest. lia.
  - intros [= E _]. destruct l; discriminate.
Qed.

(** The lines of a wrapped text are not empty and need no trimming. *)
Lemma wrap_lines_trimmed (text : pystr) :
  Forall (fun line => line <> [] /\ strip line = line)
         (_wrap textbbox_right text f max_width).
Proof.
  eapply Forall_impl; [| apply wrap_settled].
  intros line (cur & Hne & Hws & _ & ->).
  split; [now apply join_nonempty | now apply strip_join_words].
Qed.

(** Every line of a wrapped text is not empty, has no space at either end,
    and measures at most the width unless it is a single word. *)
Theorem wrap_lines_fit (text : pystr) :
  Forall (fun line =>
            line <> [] /\ strip line = line
            /\ (textbbox_right f line <= max_width \/ word line))
         (_wrap textbbox_right text f max_width).
Proof.
  eapply Forall_impl; [| apply wrap_settled].
  intros line (cur & Hne & Hws & Hone & ->).
  split; [now apply join_nonempty |].
  split; [now apply strip_join_words |].
  destruct (exists_last Hne) as (cur' & w & ->).
  destruct cur' as [| v cur'].
  - right. cbn. now inversion Hws.
  - left. apply one_line_fits; [discriminate | assumption | assumption].
Qed.

(** A text gives no line exactly when it is blank. *)
Theorem wrap_nil_iff (text : pystr) :
  _wrap textbbox_right text f max_width = []
  <-> Forall (fun c => is_space c = true) text.
Proof.
  rewrite <- split_nil_iff. split.
  - intros E.
    pose proof (wrap_loop_words font textbbox_right f max_width (split text)
                  ([], [])) as H.
    unfold _wrap in E. rewrite E in H. cbn in H. symmetry. apply H.
    + repeat split; constructor.
    + apply split_words.
  - intros E. unfold _wrap. now rewrite E.
Qed.

(** ** The lines are filled greedily *)

Lemma greedy_replace_last (ls : list pystr) (a a' : pystr) (w : pystr)
  (ws ws' : list pystr) :
  split a = w :: ws -> split a' = w :: ws' ->
  greedy (ls ++ [a]) -> greedy (ls ++ [a']).
Proof.
  intros Ha Ha'. induction ls as [| l ls IH]; [trivial |].
  destruct ls as [| l' ls].
  - cbn. intros [(w0 & ws0 & E & Hgt) _]. split; [| trivial].
    rewrite Ha in E. injection E as <- <-. now exists w, ws'.
  - cbn [app greedy_lines]. unfold greedy at 1 2. cbn [app greedy_lines].
    intros [H1 H2]. split; [exact H1 |]. apply IH. exact H2.
Qed.

Lemma greedy_snoc (ls : list pystr) (a b : pystr) (w : pystr)
  (ws : list pystr) :
  split b = w :: ws -> textbbox_right f (a ++ SP :: w) > max_width ->
  greedy (ls ++ [a]) -> greedy (ls ++ [a; b]).
Proof.
  intros Hb Hgt. induction ls as [| l ls IH].
  - cbn. intros _. split; [| trivial]. now exists w, ws.
  - destruct ls as [| l' ls].
    + cbn. intros [H1 _]. split; [exact H1 |]. split; [| trivial].
      now exists w, ws.
    + unfold greedy. cbn [app greedy_lines].
      intros [H1 H2]. split; [exact H1 |]. apply IH. exact H2.
Qed.

(** The invariant of the loop: the finished lines, with the current line
    behind them, are filled greedily. *)
Lemma wrap_step_greedy (st : wrap_state) (w : pystr) :
  word w -> inv st ->
  (snd st = [] -> fst st = []) ->
  (snd st <> [] -> greedy (fst st ++ [join [SP] (snd st)])) ->
  snd (step st w) <> []
  /\ greedy (fst (step st w) ++ [join [SP] (snd (step st w))]).
Proof.
  destruct st as [lines cur]. cbn [fst snd].
  intros Hw (_ & Hc & _) Hnil Hgr.
  unfold step, wrap_step.
  destruct ((textbbox_right f (strip (join [SP] (cur ++ [w]))) <=? max_width)
            || negb (truthy_list cur)) eqn:Htest; cbn [fst snd].
  - split; [destruct cur; discriminate |].
    destruct cur as [| v cur].
    + rewrite (Hnil eq_refl). cbn. trivial.
    + eapply greedy_replace_last; [| | apply Hgr; discriminate].
      * apply split_join. exact Hc.
      * rewrite split_join
          by (apply Forall_app; split; [exact Hc | now constructor]).
        reflexivity.
  - apply orb_false_iff in Htest as [Hgt Hcur].
    destruct cur as [| v cur]; [discriminate |].
    split; [discriminate |].
    rewrite <- app_assoc. cbn [app].
    change (join [SP] [w]) with w.
    eapply greedy_snoc; [apply split_word; exact Hw | | apply Hgr; discriminate].
    rewrite strip_join_words in Hgt
      by (try (apply Forall_app; split; [exact Hc | now constructor]);
          discriminate).
    rewrite join_snoc in Hgt by discriminate. lia.
Qed.

Lemma wrap_loop_greedy (ws : list pystr) (st : wrap_state) :
  Forall word ws -> inv st ->
  (snd st = [] -> fst st = []) ->
  (snd st <> [] -> greedy (fst st ++ [join [SP] (snd st)])) ->
  greedy (wrap_finish (fold_left step ws st)).
Proof.
  revert st. induction ws as [| w ws IH]; intros st Hws Hinv Hnil Hgr.
  - cbn [fold_left]. destruct st as [lines cur]. cbn [fst snd] in *.
    unfold wrap_finish. destruct cur as [| v cur]; cbn [truthy_list].
    + rewrite (Hnil eq_refl). cbn. trivial.
    + apply Hgr. discriminate.
  - inversion Hws as [| ? ? Hw Hws']; subst. cbn [fold_left].
    destruct (wrap_step_greedy st w Hw Hinv Hnil Hgr) as [Hne Hg].
    apply IH; try assumption.
    + now apply wrap_step_inv.
    + intros E. contradiction.
    + intros _. exact Hg.
Qed.

(** A line is broken only where the next word does not fit: the first word
    of every line but the first, put behind the line before it after one
    space, measures more than the width. *)
Theorem wrap_greedy (text : pystr) (before : list pystr) (l1 l2 : pystr)
  (after : list pystr) :
  _wrap textbbox_right text f max_width = before ++ l1 :: l2 :: after ->
  exists w ws,
    split l2 = w :: ws /\ textbbox_right f (l1 ++ SP :: w) > max_width.
Proof.
  intros E.
  assert (greedy (_wrap textbbox_right text f max_width)) as Hg.
  { unfold _wrap. apply wrap_loop_greedy.
    - apply split_words.
    - repeat split; constructor.
    - reflexivity.
    - intros H. now contradiction H. }
  rewrite E in Hg. clear E.
  induction before as [| b before IH].
  - cbn in Hg. apply Hg.
  - apply IH. destruct before as [| b' before]; cbn in Hg; apply Hg.
Qed.

End WrapMore.

Lemma wrap_nil_iff_witness :
  _wrap CardExample.fixed_width (str "   ") CardExample.Text_face 100 = [].
Proof.
  apply (proj2 (wrap_nil_iff _ CardExample.fixed_width CardExample.Text_face
                  100 (str "   "))).
  vm_compute. repeat constructor.
Defined.

Lemma wrap_greedy_witness :
  exists w ws,
    split (str "bb cc") = w :: ws
    /\ (CardExample.fixed_width CardExample.Text_face
          (str "aaa" ++ SP :: w) > 100)%Z.
Proof.
  apply (wrap_greedy _ CardExample.fixed_width CardExample.Text_face 100
           (str "aaa bb cc dddddddd e") [] (str "aaa") (str "bb cc")
           [str "dddddddd"; str "e"]).
  vm_compute. reflexivity.
Defined.

(* ================================================================== *)
(** * More on the to-do adapter *)
(* ================================================================== *)

Module TodosMore.
Import Todos TodosFacts TrimFacts.
Local Open Scope Z_scope.

(** The tasks kept are trimmed task lines already: reading them again
    keeps them all. *)
Lemma tasks_kept_again (raw : list pystr) :
  let tasks := filter (startswith (str "- [")) (map strip raw) in
  filter (startswith (str "- [")) (map strip tasks) = tasks.
Proof.
  cbv zeta. induction raw as [| ln raw IH]; [reflexivity |].
  cbn [map filter].
  destruct (startswith (str "- [") (strip ln)) eqn:E; [| exact IH].
  cbn [map filter]. rewrite strip_idem, E. now rewrite IH.
Qed.

(** The number of lines returned for a file that was read: the number of
    tasks, cut at [max_lines + 1], and one when there is no task. *)
Lemma todos_lines_length (max_lines : Z) (raw : list pystr) :
  0 <= max_lines ->
  len_list (get_todos_lines max_lines (Lines raw))
  = Z.max 1
      (Z.min (len_list (filter (startswith (str "- [")) (map strip raw)))
         (max_lines + 1)).
Proof.
  intros Hm. unfold len_list. cbn [get_todos_lines].
  rewrite tasks_filter. cbn [app].
  destruct (filter (startswith (str "- [")) (map strip raw)) as [| t tasks];
    [cbn; lia |].
  destruct (Z.gtb_spec (len_list (t :: tasks)) max_lines) as [Hgt | Hle].
  - unfold take. destruct (Z.ltb_spec max_lines 0); [lia |].
    rewrite length_app, length_firstn. unfold len_list in Hgt.
    cbn [List.length] in *. lia.
  - unfold len_list in Hle. cbn [List.length] in *. lia.
Qed.

(** The result always has at least one line, and at most [max_lines + 1]
    when [max_lines] is not negative. *)
Theorem get_todos_lines_bounded (max_lines : Z) (file : todo_file) :
  0 <= max_lines ->
  1 <= len_list (get_todos_lines max_lines file) <= Z.max 1 (max_lines + 1).
Proof.
  intros Hm. destruct file as [| | raw].
  - cbn. lia.
  - cbn. lia.
  - rewrite todos_lines_length by exact Hm. lia.
Qed.

Lemma get_todos_lines_bounded_witness :
  (1 <= len_list (get_todos_lines 6 Absent) <= 7)%Z.
Proof. apply (get_todos_lines_bounded 6 Absent). lia. Defined.

(** When nothing was cut off, the result read as a to-do file gives the same
    result again: the task lines are kept as they are, and the placeholder
    line is no task. *)
Theorem get_todos_lines_reread (max_lines : Z) (raw : list pystr) :
  len_list (filter (startswith (str "- [")) (map strip raw)) <= max_lines ->
  get_todos_lines max_lines (Lines (get_todos_lines max_lines (Lines raw)))
  = get_todos_lines max_lines (Lines raw).
Proof.
  intros Hle. pose proof (tasks_kept_again raw) as Hagain. cbv zeta in Hagain.
  unfold get_todos_lines at 2 3. rewrite tasks_filter. cbn [app].
  destruct (filter (startswith (str "- [")) (map strip raw)) as [| t tasks]
    eqn:Ht.
  - vm_compute. reflexivity.
  - destruct (Z.gtb_spec (len_list (t :: tasks)) max_lines) as [Hgt | _];
      [lia |].
    unfold get_todos_lines. rewrite tasks_filter. cbn [app]. rewrite Hagain.
    destruct (Z.gtb_spec (len_list (t :: tasks)) max_lines) as [Hgt | _];
      [lia | reflexivity].
Qed.

Lemma get_todos_lines_reread_witness :
  get_todos_lines 6
    (Lines (get_todos_lines 6
              (Lines [str "# Heute"; str "  - [ ] Brot kaufen "; str "Notiz"])))
  = get_todos_lines 6
      (Lines [str "# Heute"; str "  - [ ] Brot kaufen "; str "Notiz"]).
Proof.
  apply (get_todos_lines_reread 6
           [str "# Heute"; str "  - [ ] Brot kaufen "; str "Notiz"]).
  vm_compute. discriminate.
Defined.

End TodosMore.

(* ================================================================== *)
(** * More on the birthday adapter *)
(* ================================================================== *)

Module BirthdayMore.
Import Birthdays DateFacts BirthdayFacts.
Local Open Scope Z_scope.

(** ** The calendar *)

Lemma leap_next_not_leap (y : Z) : is_leap y = true -> is_leap (y + 1) = false.
Proof.
  unfold is_leap. intros H.
  destruct (Z.eqb_spec (y mod 4) 0) as [H4 | H4]; [| discriminate].
  destruct (Z.eqb_spec ((y + 1) mod 4) 0) as [H4' | H4']; [| reflexivity].
  exfalso. Z.div_mod_to_equations. lia.
Qed.

(** The days before a month: those of a common year, and one more behind
    February in a leap year. *)
Lemma days_before_month_leap (y m : Z) :
  1 <= m <= 12 ->
  days_before_month y m
  = nth (Z.to_nat (m - 1))
      [0; 31; 59; 90; 120; 151; 181; 212; 243; 273; 304; 334] 0
    + (if (2 <? m) && is_leap y then 1 else 0).
Proof.
  intros Hm.
  assert (m = 1 \/ m = 2 \/ m = 3 \/ m = 4 \/ m = 5 \/ m = 6 \/ m = 7 \/ m = 8
          \/ m = 9 \/ m = 10 \/ m = 11 \/ m = 12) as H by lia.
  unfold days_before_month.
  repeat (destruct H as [-> | H]); try subst m;
    repeat match goal with
      | |- context [Z.to_nat ?e] =>
          let n := eval vm_compute in (Z.to_nat e) in
          change (Z.to_nat e) with n
      end;
    cbn; unfold days_in_month; cbn; destruct (is_leap y); reflexivity.
Qed.



(** ** How far away an occurrence can be *)





(** ** 29 February *)

Lemma valid_leap_day (y : Z) :
  valid_date y 2 29 = (1 <=? y) && (y <=? 9999) && is_leap y.
Proof.
  unfold valid_date, days_in_month.
  destruct (is_leap y), (1 <=? y), (y <=? 9999); reflexivity.
Qed.

(** A birthday on 29 February has an occurrence only in a leap year, and
    only until that day: in a common year, and in a leap year after the
    day, the entry is skipped; the occurrence is never moved to another
    day. *)
Theorem leap_day_birthday (today : date) (data : entry) :
  valid today -> e_month data = Some 2 -> e_day data = Some 29 ->
  (occurrence today data <> None
   <-> is_leap (year today) = true
       /\ date_ltb (mkdate (year today) 2 29) today = false)
  /\ (forall occ,
        occurrence today data = Some occ -> occ = mkdate (year today) 2 29).
Proof.
  intros Ht Hm Hd. apply valid_date_bounds in Ht as (Hy & _ & _).
  unfold occurrence. rewrite Hm, Hd.
  change (falsy (Some 29) || falsy (Some 2)) with false. cbv iota.
  change (get0 (Some 2)) with 2. change (get0 (Some 29)) with 29.
  unfold replace. rewrite valid_leap_day.
  destruct (Z.leb_spec 1 (year today)) as [_ | ?]; [| lia].
  destruct (Z.leb_spec (year today) 9999) as [_ | ?]; [| lia].
  cbn [andb].
  destruct (is_leap (year today)) eqn:Hl.
  - cbn [month day].
    destruct (date_ltb (mkdate (year today) 2 29) today) eqn:Hlt.
    + rewrite valid_leap_day, (leap_next_not_leap _ Hl), andb_false_r.
      split; [| discriminate].
      split; [congruence | intros [_ E]; discriminate E].
    + split; [| now intros occ [= <-]].
      split; [now split | discriminate].
  - split; [| discriminate].
    split; [congruence | intros [E _]; discriminate E].
Qed.

Lemma leap_day_birthday_witness :
  occurrence (mkdate 2024 2 10) (mkentry (Some 29) (Some 2) None)
  = Some (mkdate 2024 2 29).
Proof.
  destruct (occurrence (mkdate 2024 2 10) (mkentry (Some 29) (Some 2) None))
    as [occ |] eqn:E.
  - f_equal.
    apply (proj2 (leap_day_birthday (mkdate 2024 2 10)
                    (mkentry (Some 29) (Some 2) None)
                    eq_refl eq_refl eq_refl) occ).
    exact E.
  - discriminate E.
Defined.

(** ** The turn of the year *)

Lemma valid_january (y d : Z) :
  valid_date y 1 d = (1 <=? y) && (y <=? 9999) && (1 <=? d) && (d <=? 31).
Proof.
  unfold valid_date, days_in_month.
  destruct (1 <=? y), (y <=? 9999), (1 <=? d); reflexivity.
Qed.

(** Across the turn of the year: on 31 December a birthday on the [d]th of
    January is [d] days away, in a leap year as in a common one, and is
    listed when the horizon reaches that far. *)
Theorem new_year_birthday (y d days : Z) (name : pystr) :
  1 <= y <= 9998 -> 1 <= d <= 31 -> d <= days ->
  get_upcoming_birthdays days (mkdate y 12 31)
    (Loaded [(name, mkentry (Some d) (Some 1) None)])
  = Returned [day_prefix d ++ str ": " ++ name].
Proof.
  intros Hy Hd Hdays.
  assert (occurrence (mkdate y 12 31) (mkentry (Some d) (Some 1) None)
          = Some (mkdate (y + 1) 1 d)) as Hocc.
  { unfold occurrence. cbn [e_day e_month year falsy].
    destruct (Z.eqb_spec d 0) as [? | _]; [lia |].
    change (1 =? 0) with false. cbn [orb get0].
    unfold replace. rewrite !valid_january.
    destruct (Z.leb_spec 1 y) as [_ | ?]; [| lia].
    destruct (Z.leb_spec y 9999) as [_ | ?]; [| lia].
    destruct (Z.leb_spec 1 d) as [_ | ?]; [| lia].
    destruct (Z.leb_spec d 31) as [_ | ?]; [| lia].
    cbn [andb].
    assert (date_ltb (mkdate y 1 d) (mkdate y 12 31) = true) as ->.
    { unfold date_ltb. cbn [year month day]. rewrite Z.eqb_refl.
      destruct (y <? y); reflexivity. }
    cbn [month day]. rewrite valid_january.
    destruct (Z.leb_spec 1 (y + 1)) as [_ | ?]; [| lia].
    destruct (Z.leb_spec (y + 1) 9999) as [_ | ?]; [| lia].
    destruct (Z.leb_spec 1 d) as [_ | ?]; [| lia].
    destruct (Z.leb_spec d 31) as [_ | ?]; [| lia].
    reflexivity. }
  assert (days_between (mkdate (y + 1) 1 d) (mkdate y 12 31) = d) as Hbetween.
  { unfold days_between, toordinal. cbn [year month day].
    rewrite days_before_year_succ, !days_before_month_leap by lia.
    change (Z.to_nat (1 - 1)) with 0%nat.
    change (Z.to_nat (12 - 1)) with 11%nat.
    unfold year_length.
    cbn [nth Z.ltb Z.compare Pos.compare Pos.compare_cont andb].
    destruct (is_leap y); lia. }
  cbn [get_upcoming_birthdays fold_left scan_step]. rewrite Hocc, Hbetween.
  destruct (Z.leb_spec d days) as [_ | ?]; [| lia].
  cbn [app sort_by_days fold_right insert_by_days map format_entry age_at
         e_year falsy age_str].
  now rewrite app_nil_r.
Qed.

Lemma new_year_birthday_witness :
  get_upcoming_birthdays 7 (mkdate 2025 12 31)
    (Loaded [(str "Eva", mkentry (Some 3) (Some 1) None)])
  = Returned [day_prefix 3 ++ str ": " ++ str "Eva"].
Proof. apply (new_year_birthday 2025 3 7 (str "Eva")); lia. Defined.

(** ** Entries on the same day *)





End BirthdayMore.

(* ================================================================== *)
(** * The weather adapter: which responses are accepted *)
(* ================================================================== *)

Section WeatherMore.

Variable JVal : Type.
Variable fmt_1f : JVal -> option pystr.
Variable py_int : JVal -> option Z.
Variable py_float : JVal -> option pyfloat.
Variable fmt_0f : pyfloat -> pystr.

Let snap_of := snapshot_of fmt_1f py_int py_float fmt_0f.

Lemma humidity_line_fails (hum : option JVal) :
  humidity_line py_int hum = None
  <-> exists h, hum = Some h /\ py_int h = None.
Proof.
  unfold humidity_line. destruct hum as [h |].
  - destruct (py_int h) eqn:E; split.
    + discriminate.
    + intros (h' & [= <-] & H). congruence.
    + intros _. now exists h.
    + reflexivity.
  - split; [discriminate | intros (h & H & _); discriminate].
Qed.

Lemma wind_line_fails (ws wd : option JVal) :
  wind_line py_float fmt_0f ws wd = None
  <-> exists s, ws = Some s
        /\ (py_float s = None
            \/ exists d, wd = Some d /\ py_float d = None).
Proof.
  unfold wind_line. destruct ws as [s |].
  - destruct wd as [d |].
    + destruct (py_float d) eqn:Ed, (py_float s) eqn:Es; split;
        try discriminate; try reflexivity.
      * intros (s' & [= <-] & [H | (d' & [= <-] & H)]); congruence.
      * intros _. exists s. split; [reflexivity | now left].
      * intros _. exists s. split; [reflexivity |]. right. now exists d.
      * intros _. exists s. split; [reflexivity | now left].
    + destruct (py_float s) eqn:Es; split; try discriminate; try reflexivity.
      * intros (s' & [= <-] & [H | (d' & H & _)]); congruence.
      * intros _. exists s. split; [reflexivity | now left].
  - split; [discriminate | intros (s & H & _); discriminate].
Qed.

(** The responses an attempt rejects: one of the three temperatures is
    missing or cannot be formatted; or a humidity is present that [int]
    rejects; or a wind speed is present and [float] rejects it, or rejects
    the wind direction that comes with it.  A wind direction without a
    wind speed is never looked at. *)
Theorem weather_response_rejected (r : response JVal) :
  snap_of r = None
  <-> (exists v,
         (r_t r = Some v \/ r_tmin r = Some v \/ r_tmax r = Some v)
         /\ fmt_1f v = None)
      \/ r_t r = None \/ r_tmax r = None \/ r_tmin r = None
      \/ (exists h, r_hum r = Some h /\ py_int h = None)
      \/ (exists s, r_ws r = Some s
            /\ (py_float s = None
                \/ exists d, r_wd r = Some d /\ py_float d = None)).
Proof.
  unfold snap_of, snapshot_of.
  rewrite <- humidity_line_fails, <- wind_line_fails.
  destruct (r_t r) as [t |]; [| split; [intros _; right; now left | reflexivity]].
  destruct (r_tmax r) as [tmax |];
    [| split; [intros _; right; right; now left | reflexivity]].
  destruct (r_tmin r) as [tmin |];
    [| split; [intros _; right; right; right; now left | reflexivity]].
  destruct (fmt_1f t) eqn:Et.
  2:{ split; [| reflexivity]. intros _. left. exists t. split; [now left | exact Et]. }
  destruct (fmt_1f tmin) eqn:Emin.
  2:{ split; [| reflexivity]. intros _. left. exists tmin.
      split; [right; now left | exact Emin]. }
  destruct (fmt_1f tmax) eqn:Emax.
  2:{ split; [| reflexivity]. intros _. left. exists tmax.
      split; [right; now right | exact Emax]. }
  destruct (humidity_line py_int (r_hum r)) eqn:Eh.
  2:{ split; [| reflexivity]. intros _. do 4 right. now left. }
  destruct (wind_line py_float fmt_0f (r_ws r) (r_wd r)) eqn:Ew.
  2:{ split; [| reflexivity]. intros _. do 4 right. now right. }
  split; [discriminate |].
  intros [(v & [[= <-] | [[= <-] | [= <-]]] & Hv)
         | [Hv | [Hv | [Hv | [Hv | Hv]]]]];
    congruence.
Qed.

(** The lines of an accepted response: always four entries, the current
    temperature and the range first; the third is the humidity, and is
    [None] exactly when the response has no humidity; the fourth is the
    wind, and is [None] exactly when the response has no wind speed. *)
Lemma snapshot_of_shape (r : response JVal) (s : snapshot JVal) :
  snap_of r = Some s ->
  ok s = true /\ weather_code s = r_wcode r
  /\ exists st smin smax hl wl,
       lines s = [ Some (str "temp", st ++ str "°C aktuell");
                   Some (str "range", smin ++ str "°C / " ++ smax ++ str "°C");
                   hl; wl ]
       /\ (hl = None <-> r_hum r = None)
       /\ (forall l, hl = Some l -> fst l = str "humidity")
       /\ (wl = None <-> r_ws r = None)
       /\ (forall l, wl = Some l -> fst l = str "wind").
Proof.
  unfold snap_of, snapshot_of.
  destruct (r_t r) as [t |]; [| discriminate].
  destruct (r_tmax r) as [tmax |]; [| discriminate].
  destruct (r_tmin r) as [tmin |]; [| discriminate].
  destruct (fmt_1f t) as [st |]; [| discriminate].
  destruct (fmt_1f tmin) as [smin |]; [| discriminate].
  destruct (fmt_1f tmax) as [smax |]; [| discriminate].
  destruct (humidity_line py_int (r_hum r)) as [hl |] eqn:Eh; [| discriminate].
  destruct (wind_line py_float fmt_0f (r_ws r) (r_wd r)) as [wl |] eqn:Ew;
    [| discriminate].
  intros [= <-]. cbn [ok weather_code lines].
  split; [reflexivity |]. split; [reflexivity |].
  exists st, smin, smax, hl, wl. split; [reflexivity |].
  unfold humidity_line in Eh. unfold wind_line in Ew.
  repeat split.
  - intros ->. destruct (r_hum r) as [h |]; [| reflexivity].
    destruct (py_int h); discriminate.
  - intros E. rewrite E in Eh. now injection Eh as <-.
  - intros l ->. destruct (r_hum r) as [h |]; [| discriminate].
    destruct (py_int h); [| discriminate]. now injection Eh as <-.
  - intros ->. destruct (r_ws r) as [s |]; [| reflexivity].
    destruct (r_wd r) as [d |].
    + destruct (py_float d), (py_float s); discriminate.
    + destruct (py_float s); discriminate.
  - intros E. rewrite E in Ew. now injection Ew as <-.
  - intros l ->. destruct (r_ws r) as [s |]; [| discriminate].
    destruct (r_wd r) as [d |].
    + destruct (py_float d), (py_float s); try discriminate.
      now injection Ew as <-.
    + destruct (py_float s); [| discriminate]. now injection Ew as <-.
Qed.

Lemma retry_loop_result (fetches : nat -> fetch JVal) (n k : nat)
  (trace : list net_event) :
  let s := fst (retry_loop fmt_1f py_int py_float fmt_0f fetches n k trace) in
  s = unavailable
  \/ exists j r, (k <= j < k + n)%nat /\ fetches j = Fetched r
                 /\ snap_of r = Some s.
Proof.
  revert k trace. induction n as [| n IH]; intros k trace; cbn [retry_loop].
  - now left.
  - destruct (attempt fmt_1f py_int py_float fmt_0f (fetches k)) as [s |] eqn:E.
    + right. cbn [fst]. unfold attempt in E.
      destruct (fetches k) as [| r] eqn:Ef; [discriminate |].
      exists k, r. split; [lia |]. split; assumption.
    + destruct (IH (S k) (trace ++ [Urlopen k 12])) as [H | (j & r & Hj & H)].
      * now left.
      * right. exists j, r. split; [lia | exact H].
Qed.

(** What the adapter returns is either the "not available" snapshot, with
    its single "info" line, or the snapshot of one of the three responses:
    [ok] set, the weather code of that response, and four entries, the
    temperature and the range first, then the humidity and the wind, each
    [None] exactly when that response lacks the humidity or the wind speed.
    The list of lines is never empty. *)
Theorem get_weather_lines (fetches : nat -> fetch JVal) :
  let s := get_weather fmt_1f py_int py_float fmt_0f fetches in
  lines s <> []
  /\ ((ok s = false /\ weather_code s = None
       /\ lines s = [Some (str "info", str "Wetterdaten nicht verfügbar")])
      \/ (ok s = true
          /\ exists k r st smin smax hl wl,
               (k < 3)%nat /\ fetches k = Fetched r
               /\ weather_code s = r_wcode r
               /\ lines s
                  = [ Some (str "temp", st ++ str "°C aktuell");
                      Some (str "range",
                            smin ++ str "°C / " ++ smax ++ str "°C");
                      hl; wl ]
               /\ (hl = None <-> r_hum r = None)
               /\ (forall l, hl = Some l -> fst l = str "humidity")
               /\ (wl = None <-> r_ws r = None)
               /\ (forall l, wl = Some l -> fst l = str "wind"))).
Proof.
  cbv zeta. unfold get_weather, get_weather_run.
  destruct (retry_loop_result fetches 3 0 []) as [H | (j & r & Hj & Hf & H)].
  - rewrite H. split; [discriminate |]. left. repeat split.
  - apply snapshot_of_shape in H
      as (Hok & Hcode & st & smin & smax & hl & wl & Hl & Hrest).
    split; [rewrite Hl; discriminate |]. right. split; [exact Hok |].
    exists j, r, st, smin, smax, hl, wl.
    split; [lia |]. split; [exact Hf |]. split; [exact Hcode |].
    split; [exact Hl | exact Hrest].
Qed.

End WeatherMore.



(* ================================================================== *)
(** * Cards: how much a card holds *)
(* ================================================================== *)

Section CardMore.

Local Open Scope Z_scope.

Variable font : Type.
Variable textbbox_right : font -> pystr -> Z.
Variables f_h f_txt : font.
Variable lower : pystr -> pystr.
Variable colour : Type.
Variables white muted divider : colour.

Lemma count_ops_cons (p : draw_op font colour -> bool)
  (o : draw_op font colour) (ops : list (draw_op font colour)) :
  count_ops p (o :: ops) = (if p o then 1 else 0) + count_ops p ops.
Proof.
  unfold count_ops. cbn [filter]. destruct (p o); cbn [List.length]; lia.
Qed.

Lemma count_ops_app (p : draw_op font colour -> bool)
  (a b : list (draw_op font colour)) :
  count_ops p (a ++ b) = count_ops p a + count_ops p b.
Proof.
  unfold count_ops. rewrite filter_app, length_app. lia.
Qed.

(** From a cursor [yy] there is room for the lines at [yy], [yy + 44], ...
    up to the boundary, and always for one. *)
Lemma trace_capacity (limit yy yy' : Z) (ops : list (draw_op font colour))
  (r : bool) :
  content_trace f_txt muted divider limit yy ops yy' r ->
  count_ops is_text ops <= Z.max 1 ((limit - yy) / 44 + 1).
Proof.
  clear textbbox_right lower f_h white.
  induction 1 as [yy | yy x1 s1 ops yy' r' Hle H IH | yy x1 s1 Hgt
                 | yy x1 x2 ops yy' r' Hlt H IH];
    rewrite ?count_ops_cons; cbn [is_text].
  - unfold count_ops. cbn. lia.
  - replace ((limit - (yy + 44)) / 44) with ((limit - yy) / 44 - 1) in IH
      by (Z.to_euclidean_division_equations; lia).
    assert (1 <= (limit - yy) / 44)
      by (Z.to_euclidean_division_equations; lia).
    lia.
  - unfold count_ops. cbn. lia.
  - assert ((limit - (yy + 24)) / 44 <= (limit - yy) / 44)
      by (Z.to_euclidean_division_equations; lia).
    lia.
Qed.

(** ** Dividers *)

Lemma draw_wrapped_dividers (limit first_x rest_x : Z) (prefix : pystr)
  (wrapped_lines : list pystr) (is_first : bool) (yy : Z)
  (ops : list (draw_op font colour)) :
  count_ops is_divider
    (flow_ops (draw_wrapped f_txt muted limit first_x rest_x prefix is_first
                 wrapped_lines yy ops))
  = count_ops is_divider ops.
Proof.
  revert is_first yy ops.
  induction wrapped_lines as [| wl rest IH]; intros is_first yy ops;
    [reflexivity |].
  cbn [draw_wrapped].
  destruct (yy + 44 >? limit); [cbn [flow_ops] | rewrite IH];
    rewrite count_ops_app, count_ops_cons; destruct is_first; cbn; lia.
Qed.

Lemma draw_item_dividers (x y w h : Z) (is_todos is_calendar : bool)
  (ln : pystr) (yy : Z) (ops : list (draw_op font colour)) :
  count_ops is_divider
    (flow_ops (draw_item textbbox_right f_txt muted x y w h is_todos
                 is_calendar ln yy ops))
  = count_ops is_divider ops.
Proof.
  unfold draw_item.
  repeat match goal with
    | |- context [if ?b then _ else _] => destruct b
    | |- context [match ?l with [] => _ | _ :: _ => _ end] => destruct l
    end; apply draw_wrapped_dividers.
Qed.

Lemma draw_items_dividers (style : pystr) (x y w h : Z)
  (is_todos is_calendar : bool) (lines : list pystr) (yy : Z)
  (ops : list (draw_op font colour)) :
  let n :=
    count_ops is_divider
      (flow_ops (draw_items textbbox_right f_txt muted divider style x y w h
                   is_todos is_calendar lines yy ops)) in
  n <= count_ops is_divider ops + Z.of_nat (List.length lines)
  /\ (PyStr.eqb style (str "list") || is_todos = false ->
      n = count_ops is_divider ops).
Proof.
  cbv zeta. revert yy ops.
  induction lines as [| ln lines IH]; intros yy ops.
  - cbn [draw_items flow_ops List.length]. split; [lia | reflexivity].
  - cbn [draw_items].
    pose proof (draw_item_dividers x y w h is_todos is_calendar ln yy ops)
      as Hit.
    destruct (draw_item textbbox_right f_txt muted x y w h is_todos
                is_calendar ln yy ops) as [yy1 ops1 | yy1 ops1];
      cbn [flow_ops] in Hit.
    + destruct (draw_divider divider style x y w h is_todos yy1 ops1)
        as [yy2 ops2] eqn:Ediv.
      destruct (IH yy2 ops2) as [IHle IHeq].
      assert (count_ops is_divider ops2 <= count_ops is_divider ops + 1
              /\ (PyStr.eqb style (str "list") || is_todos = false ->
                  count_ops is_divider ops2 = count_ops is_divider ops))
        as [Hle Heq].
      { unfold draw_divider in Ediv. rewrite <- Hit.
        destruct (yy1 <? y + h - 60);
          [destruct (PyStr.eqb style (str "list") || is_todos) |];
          injection Ediv as <- <-.
        - rewrite count_ops_app. unfold count_ops at 2. cbn.
          split; [lia | discriminate].
        - split; [lia | reflexivity].
        - split; [lia | reflexivity]. }
      cbn [List.length]. split; [lia |].
      intros Hs. rewrite (IHeq Hs). now apply Heq.
    + cbn [flow_ops List.length]. split; [lia | intros _; exact Hit].
Qed.

Lemma card_frame_dividers (style : pystr) (x y w h : Z) (header : pystr)
  (bgcol : colour) :
  count_ops is_divider (card_frame f_h white style x y w h header bgcol) = 0.
Proof.
  unfold card_frame, _rounded_with_shadow.
  destruct (PyStr.eqb style (str "cards")); reflexivity.
Qed.

(** What a card draws behind its frame. *)
Lemma card_block_content (style : pystr) (x y w h : Z) (header : pystr)
  (lines : list pystr) (bgcol : colour) :
  exists content,
    fst (card_block textbbox_right f_h f_txt lower white muted divider style
           x y w h header lines bgcol)
    = card_frame f_h white style x y w h header bgcol ++ content
    /\ count_ops is_text content <= Z.max 1 ((h - 126) / 44 + 1)
    /\ count_ops is_divider content <= Z.of_nat (List.length lines)
    /\ (PyStr.eqb style (str "list") = false ->
        is_todos_header lower header = false ->
        count_ops is_divider content = 0).
Proof.
  rewrite card_block_flow. cbn [fst].
  set (frame := card_frame f_h white style x y w h header bgcol).
  set (td := is_todos_header lower header).
  set (cal := is_calendar_header lower header).
  destruct (draw_items_trace font textbbox_right f_txt colour muted divider
              style x y w h td cal lines (y + 86) frame)
    as (content & Hops & Htr).
  destruct (draw_items_dividers style x y w h td cal lines (y + 86) frame)
    as [Hle Heq].
  assert (count_ops is_divider frame = 0) as Hf
    by apply card_frame_dividers.
  rewrite Hops, count_ops_app, Hf in Hle, Heq.
  exists content. split; [exact Hops |].
  split.
  { apply trace_capacity in Htr.
    now replace (y + h - 40 - (y + 86)) with (h - 126) in Htr by lia. }
  split; [lia |].
  intros Hs Ht. subst td. rewrite Hs, Ht in Heq. specialize (Heq eq_refl).
  lia.
Qed.

(** A card of height [h] shows at most [(h - 126) / 44 + 1] content lines
    (the lines at 86, 130, ... below its top, as far as the bottom padding
    of 40 admits), and at least room for one; whatever the items, the font
    and the style. *)
Theorem card_block_capacity (style : pystr) (x y w h : Z) (header : pystr)
  (lines : list pystr) (bgcol : colour) :
  exists content,
    fst (card_block textbbox_right f_h f_txt lower white muted divider style
           x y w h header lines bgcol)
    = card_frame f_h white style x y w h header bgcol ++ content
    /\ count_ops is_text content <= Z.max 1 ((h - 126) / 44 + 1).
Proof.
  destruct (card_block_content style x y w h header lines bgcol)
    as (content & H1 & H2 & _).
  now exists content.
Qed.

(** A card draws at most one divider per item; and in the style "cards" a
    card that is not the to-do card draws none. *)
Theorem card_block_dividers (style : pystr) (x y w h : Z) (header : pystr)
  (lines : list pystr) (bgcol : colour) :
  exists content,
    fst (card_block textbbox_right f_h f_txt lower white muted divider style
           x y w h header lines bgcol)
    = card_frame f_h white style x y w h header bgcol ++ content
    /\ count_ops is_divider content <= Z.of_nat (List.length lines)
    /\ (PyStr.eqb style (str "list") = false ->
        is_todos_header lower header = false ->
        forall x0 y0 x1 y1 c wd, ~ In (DrawLine x0 y0 x1 y1 c wd) content).
Proof.
  destruct (card_block_content style x y w h header lines bgcol)
    as (content & H1 & _ & H3 & H4).
  exists content. split; [exact H1 |]. split; [exact H3 |].
  intros Hs Ht x0 y0 x1 y1 c wd Hin. specialize (H4 Hs Ht).
  apply in_split in Hin as (l1 & l2 & ->).
  rewrite count_ops_app, count_ops_cons in H4. cbn [is_divider] in H4.
  unfold count_ops in H4. lia.
Qed.

(** ** The to-do card: the items that are never reached *)

Lemma startswith_app (p s : pystr) : startswith p (p ++ s) = true.
Proof.
  induction p as [| c p IH]; [reflexivity |].
  cbn [app startswith]. now rewrite N.eqb_refl, IH.
Qed.

Lemma skipn_length_app (p s : pystr) : skipn (List.length p) (p ++ s) = s.
Proof. induction p as [| c p IH]; [reflexivity | exact IH]. Qed.







End CardMore.

Lemma card_block_dividers_witness :
  exists content,
    fst (CardExample.card_block (str "cards") 48 1000 984 300
           (str "Geburtstage (7 Tage)")
           [str "Heute: Anna (34)"; str "Morgen: Ben"] CardExample.CardBg)
    = card_frame CardExample.Header_face CardExample.White (str "cards")
        48 1000 984 300 (str "Geburtstage (7 Tage)") CardExample.CardBg
      ++ content
    /\ forall x0 y0 x1 y1 c wd, ~ In (DrawLine x0 y0 x1 y1 c wd) content.
Proof.
  destruct (card_block_dividers _ CardExample.fixed_width
              CardExample.Header_face CardExample.Text_face
              CardExample.lower_ascii _ CardExample.White CardExample.Muted
              CardExample.Divider (str "cards") 48 1000 984 300
              (str "Geburtstage (7 Tage)")
              [str "Heute: Anna (34)"; str "Morgen: Ben"] CardExample.CardBg)
    as (content & Hops & _ & Hno).
  exists content. split; [exact Hops |].
  apply Hno; vm_compute; reflexivity.
Defined.


(** ** The text of a to-do item *)

Lemma strip_fixed (t : pystr) :
  strip t = t -> t <> [] ->
  exists c m, t = c :: m /\ is_space c = false /\ rstrip t = t.
Proof.
  intros Hs Hne. unfold strip in Hs.
  destruct (lstrip t) as [| c t'] eqn:E.
  - cbn in Hs. congruence.
  - assert (is_space c = false) as Hc.
    { clear -E. induction t as [| d t IH]; [discriminate |].
      cbn [lstrip] in E. destruct (is_space d) eqn:Hd; [now apply IH |].
      now injection E as <- _. }
    rewrite (TrimFacts.rstrip_cons_nonspace c t' Hc) in Hs.
    exists c, (rstrip t'). split; [now symmetry |]. split; [exact Hc |].
    rewrite <- Hs at 1.
    rewrite (TrimFacts.rstrip_cons_nonspace c _ Hc), TrimFacts.rstrip_idem.
    exact Hs.
Qed.

Lemma rstrip_app_fixed (a t : pystr) :
  t <> [] -> rstrip t = t -> rstrip (a ++ t) = a ++ t.
Proof.
  intros Hne Hr. unfold rstrip in *. rewrite rev_app_distr.
  apply (f_equal (@rev char)) in Hr. rewrite rev_involutive in Hr.
  destruct (rev t) as [| c r] eqn:E.
  - apply (f_equal (@rev char)) in E. rewrite rev_involutive in E.
    cbn in E. congruence.
  - cbn [lstrip] in Hr. cbn [app lstrip].
    destruct (is_space c) eqn:Hc.
    + exfalso. apply (f_equal (@List.length char)) in Hr. cbn in Hr.
      assert (forall s : pystr, (List.length (lstrip s) <= List.length s)%nat)
        as Hlen.
      { induction s as [| d s IH]; [reflexivity |].
        cbn [lstrip]. destruct (is_space d); cbn [List.length]; lia. }
      specialize (Hlen r). lia.
    + change (c :: r ++ rev a) with ((c :: r) ++ rev a).
      rewrite <- E, rev_app_distr, !rev_involutive. reflexivity.
Qed.

(** What the to-do card shows of a task: the text behind the checkbox, for
    each of the three checkboxes; a dash at the start of the text is
    removed with the checkbox, so a text that starts with a dash is shown
    without it. *)
Theorem clean_todo_checkbox (box t : pystr) :
  In box [str "- [ ] "; str "- [x] "; str "- [X] "] ->
  strip t = t -> t <> [] ->
  (startswith (str "-") t = false -> _clean_todo (box ++ t) = t)
  /\ _clean_todo (box ++ str "-" ++ t) = t
  /\ (startswith (str "-") t = false -> _clean_todo t = t).
Proof.
  intros Hbox Hs Hne.
  destruct (strip_fixed t Hs Hne) as (c & m & Ht & Hc & Hr).
  assert (forall a, strip (str "-" ++ a ++ t) = str "-" ++ a ++ t) as Hstrip.
  { intros a. unfold strip.
    change (lstrip (str "-" ++ a ++ t)) with (str "-" ++ a ++ t).
    rewrite app_assoc. now apply rstrip_app_fixed. }
  assert (forall u, startswith (str "-") u = false ->
                    cut_first_prefix
                      [str "- [ ] "; str "- [x] "; str "- [X] "] u = u)
    as Hcut.
  { intros [| d u]; [reflexivity |]. cbn [cut_first_prefix].
    change (str "- [ ] ") with (45%N :: str " [ ] ").
    change (str "- [x] ") with (45%N :: str " [x] ").
    change (str "- [X] ") with (45%N :: str " [X] ").
    change (str "-") with [45%N]. cbn [startswith].
    destruct (45 =? d)%N; [discriminate | reflexivity]. }
  assert (forall u, cut_first_prefix
                      [str "- [ ] "; str "- [x] "; str "- [X] "] (box ++ u)
                    = u) as Hbx.
  { intros u. cbn [cut_first_prefix].
    destruct Hbox as [<- | [<- | [<- | []]]];
      rewrite ?(startswith_app (str "- [ ] ")), ?(startswith_app (str "- [x] ")),
        ?(startswith_app (str "- [X] ")); try reflexivity. }
  assert (exists a, box = str "-" ++ a) as [a Ha].
  { destruct Hbox as [<- | [<- | [<- | []]]]; eexists; reflexivity. }
  unfold _clean_todo. repeat split.
  - intros Hd. rewrite Ha, <- app_assoc, Hstrip, app_assoc, <- Ha, Hbx.
    now rewrite Hd.
  - rewrite Ha, <- !app_assoc.
    rewrite (app_assoc a), Hstrip, <- (app_assoc a), (app_assoc (str "-") a), <- Ha, Hbx.
    change (startswith (str "-") (str "-" ++ t)) with true. cbv iota.
    exact Hs.
  - intros Hd. rewrite Hs, (Hcut t Hd). now rewrite Hd.
Qed.

Lemma clean_todo_checkbox_witness :
  _clean_todo (str "- [x] -5 Grad") = str "5 Grad".
Proof.
  apply (proj1 (proj2 (clean_todo_checkbox (str "- [x] ") (str "5 Grad")
                         ltac:(right; left; reflexivity)
                         ltac:(vm_compute; reflexivity)
                         ltac:(vm_compute; discriminate)))).
Defined.

(* ================================================================== *)
(** * Delivery over Telegram *)
(* ================================================================== *)

Module TelegramFacts.
Import Telegram.

(** The token is missing exactly when the environment variable is unset or
    empty and the configuration file cannot be read or has no token, or an
    empty one. *)
Lemma load_token_raises (e : environment) :
  (exists msg, _load_telegram_bot_token e = Raised msg)
  <-> (env_token e = None \/ env_token e = Some [])
      /\ (config e = ConfigRaised \/ config e = ConfigRead None
          \/ config e = ConfigRead (Some [])).
Proof.
  unfold _load_telegram_bot_token.
  destruct (env_token e) as [[| c t] |], (config e) as [| [[| c' t'] |]];
    split;
    try (intros [msg H]; discriminate H);
    try (intros _; eexists; reflexivity);
    try (intros _; split; auto);
    try (intros [[H | H] _]; discriminate H);
    try (intros [_ [H | [H | H]]]; discriminate H).
Qed.

(** The variable of the environment, when set and not empty, is the token,
    whatever the configuration file holds. *)
Lemma load_token_env (e : environment) (t : pystr) :
  env_token e = Some t -> t <> [] -> _load_telegram_bot_token e = Returned t.
Proof.
  intros H Hne. unfold _load_telegram_bot_token. rewrite H.
  destruct t; [contradiction | reflexivity].
Qed.

(** A form without a caption: the image, unchanged, between a fixed head
    and a fixed tail; it is always built. *)
Lemma photo_body_no_caption :
  exists head tail, forall png_bytes,
    photo_body png_bytes None = Some (head ++ png_bytes ++ tail)
    /\ photo_body png_bytes (Some []) = Some (head ++ png_bytes ++ tail).
Proof.
  destruct (_part (str "chat_id") TELEGRAM_CHAT_ID) as [chat |] eqn:Ec;
    [| vm_compute in Ec; discriminate].
  destruct (encode file_part_header) as [head |] eqn:Eh;
    [| vm_compute in Eh; discriminate].
  destruct (encode crlf) as [nl |] eqn:En; [| vm_compute in En; discriminate].
  destruct (encode (str "--" ++ boundary ++ str "--" ++ crlf)) as [close |]
    eqn:Ecl; [| vm_compute in Ecl; discriminate].
  exists (chat ++ head), (nl ++ close). intros png_bytes.
  unfold photo_body. rewrite Ec, Eh, En, Ecl. cbn [app].
  rewrite <- !app_assoc. split; reflexivity.
Qed.

End TelegramFacts.

Section MainTelegramFacts.

Import Telegram TelegramFacts.

Variable JVal : Type.
Variable fmt_1f : JVal -> option pystr.
Variable py_int : JVal -> option Z.
Variable py_float : JVal -> option pyfloat.
Variable fmt_0f : pyfloat -> pystr.
Variable render_dashboard_png : dashboard JVal -> result bytes.
Variable build_text_dashboard : dashboard JVal -> pystr.
Variable urlopen : request -> reply.
Variable encode_error : pystr -> pystr.

Let collect := gather fmt_1f py_int py_float fmt_0f.

(** Without a token nothing is requested: [send_telegram_photo] raises
    before it builds a request, [send_telegram_message] returns [False]
    without one, and a run whose data is gathered attempts both deliveries,
    sends nothing, and returns 1; whatever the network would answer. *)
Theorem telegram_without_token (e : environment) :
  (env_token e = None \/ env_token e = Some []) ->
  (config e = ConfigRaised \/ config e = ConfigRead None
   \/ config e = ConfigRead (Some [])) ->
  (forall png_bytes caption,
      send_telegram_photo e urlopen encode_error png_bytes caption
      = (Raised token_not_found, []))
  /\ (forall text, send_telegram_message e urlopen text = (false, []))
  /\ (forall w,
        main_requests fmt_1f py_int py_float fmt_0f render_dashboard_png
          build_text_dashboard e urlopen encode_error w = [])
  /\ (forall w d,
        collect w = Returned d ->
        snd (main_telegram fmt_1f py_int py_float fmt_0f render_dashboard_png
               build_text_dashboard e urlopen encode_error w)
        = Returned 1%Z).
Proof.
  intros Henv Hcfg.
  assert (_load_telegram_bot_token e = Raised token_not_found) as Hload.
  { unfold _load_telegram_bot_token.
    destruct Henv as [-> | ->], Hcfg as [-> | [-> | ->]]; reflexivity. }
  assert (forall png_bytes caption,
             send_telegram_photo e urlopen encode_error png_bytes caption
             = (Raised token_not_found, [])) as Hphoto.
  { intros. unfold send_telegram_photo. now rewrite Hload. }
  assert (forall text, send_telegram_message e urlopen text = (false, []))
    as Hmsg.
  { intros. unfold send_telegram_message, _telegram_api_request.
    now rewrite Hload. }
  split; [exact Hphoto |]. split; [exact Hmsg |]. split.
  - intros w. unfold main_requests.
    induction (fst (main_telegram fmt_1f py_int py_float fmt_0f
                      render_dashboard_png build_text_dashboard e urlopen
                      encode_error w)) as [| [image | text] log IH];
      cbn [flat_map delivery_requests]; rewrite ?Hphoto, ?Hmsg; cbn [snd app];
      [reflexivity | exact IH | exact IH].
  - intros w d Hd. unfold main_telegram, main. fold collect. rewrite Hd.
    destruct (render_dashboard_png d) as [image | err];
      rewrite ?Hphoto; cbn [fst]; rewrite text_fallback_spec, Hmsg;
      reflexivity.
Qed.

(** With a token: what a run whose data is gathered requests.  When the
    image cannot be rendered, the text alone; otherwise the photo, as a
    form around the image, and the text after it unless the reply to the
    photo is positive.  Every request goes to the Bot API under the token,
    the photo with a timeout of 30 and the text of 20, one request each.
    The run returns 0 exactly when the reply to its last request is
    positive. *)
Theorem main_telegram_requests (e : environment) (token : pystr)
  (w : world JVal) (d : dashboard JVal) :
  _load_telegram_bot_token e = Returned token ->
  collect w = Returned d ->
  let run :=
    main_telegram fmt_1f py_int py_float fmt_0f render_dashboard_png
      build_text_dashboard e urlopen encode_error w in
  let requests :=
    main_requests fmt_1f py_int py_float fmt_0f render_dashboard_png
      build_text_dashboard e urlopen encode_error w in
  let message :=
    mkrequest (str "https://api.telegram.org/bot" ++ token
               ++ str "/sendMessage")
      (Json [(str "chat_id", TELEGRAM_CHAT_ID);
             (str "text", build_text_dashboard d);
             (str "parse_mode", str "Markdown")])
      (str "application/json") 20 in
  (forall err, render_dashboard_png d = Raised err -> requests = [message])
  /\ (forall image,
        render_dashboard_png d = Returned image ->
        exists form,
          photo_body image None = Some form
          /\ let photo :=
               mkrequest (str "https://api.telegram.org/bot" ++ token
                          ++ str "/sendPhoto")
                 (Form form)
                 (str "multipart/form-data; boundary=" ++ boundary) 30 in
             requests
             = match urlopen photo with
               | Reply true => [photo]
               | _ => [photo; message]
               end)
  /\ (snd run = Returned 0%Z
      <-> exists before req,
            requests = before ++ [req] /\ urlopen req = Reply true).
Proof.
  intros Hload Hd. cbv zeta.
  set (message := mkrequest _ (Json _) _ 20).
  assert (forall text,
             send_telegram_message e urlopen text
             = (match urlopen
                        (mkrequest
                           (str "https://api.telegram.org/bot" ++ token
                            ++ str "/sendMessage")
                           (Json [(str "chat_id", TELEGRAM_CHAT_ID);
                                  (str "text", text);
                                  (str "parse_mode", str "Markdown")])
                           (str "application/json") 20) with
                | Reply ok => ok
                | ReplyRaised _ => false
                end,
                [mkrequest
                   (str "https://api.telegram.org/bot" ++ token
                    ++ str "/sendMessage")
                   (Json [(str "chat_id", TELEGRAM_CHAT_ID);
                          (str "text", text);
                          (str "parse_mode", str "Markdown")])
                   (str "application/json") 20])) as Hmsg.
  { intros text. unfold send_telegram_message, _telegram_api_request.
    rewrite Hload. cbv zeta.
    destruct (urlopen _) as [msg | ok]; reflexivity. }
  destruct photo_body_no_caption as (head & tail & Hbody).
  assert (forall image,
             send_telegram_photo e urlopen encode_error image None
             = (Returned
                  match urlopen
                          (mkrequest
                             (str "https://api.telegram.org/bot" ++ token
                              ++ str "/sendPhoto")
                             (Form (head ++ image ++ tail))
                             (str "multipart/form-data; boundary="
                              ++ boundary) 30) with
                  | Reply ok => ok
                  | ReplyRaised _ => false
                  end,
                [mkrequest
                   (str "https://api.telegram.org/bot" ++ token
                    ++ str "/sendPhoto")
                   (Form (head ++ image ++ tail))
                   (str "multipart/form-data; boundary=" ++ boundary) 30]))
    as Hphoto.
  { intros image. unfold send_telegram_photo.
    rewrite Hload, (proj1 (Hbody image)). cbv zeta.
    destruct (urlopen _) as [msg | ok]; reflexivity. }
  unfold main_requests, main_telegram, main. fold collect. rewrite Hd.
  destruct (render_dashboard_png d) as [image | err] eqn:Hr.
  - rewrite Hphoto. cbn [fst].
    set (photo := mkrequest _ (Form _) _ 30).
    split; [discriminate |].
    destruct (urlopen photo) as [msg | [|]] eqn:Hp.
    + rewrite text_fallback_spec. cbn [fst snd app]. rewrite !Hmsg.
      cbn [fst]. fold message.
      split.
      { intros image' [= <-]. exists (head ++ image ++ tail).
        split; [apply Hbody |]. cbv zeta. fold photo. rewrite Hp.
        cbn [flat_map delivery_requests]. rewrite Hphoto, Hmsg.
        reflexivity. }
      cbn [flat_map delivery_requests]. rewrite Hphoto, Hmsg. cbn [snd app].
      fold photo message.
      destruct (urlopen message) as [msg' | [|]] eqn:Hm; cbn [fst snd]; split;
        try discriminate; try reflexivity.
      * intros (before & req & E & Hreq).
        change [photo; message] with ([photo] ++ [message]) in E.
        apply app_inj_tail in E as [_ <-]. congruence.
      * intros _. exists [photo], message. now split.
      * intros (before & req & E & Hreq).
        change [photo; message] with ([photo] ++ [message]) in E.
        apply app_inj_tail in E as [_ <-]. congruence.
    + cbn [fst snd flat_map delivery_requests]. rewrite Hphoto.
      cbn [snd app]. fold photo.
      split.
      { intros image' [= <-]. exists (head ++ image ++ tail).
        split; [apply Hbody |]. cbv zeta. fold photo. now rewrite Hp. }
      split; [| reflexivity]. intros _. exists [], photo. now split.
    + rewrite text_fallback_spec. cbn [fst snd app]. rewrite !Hmsg.
      cbn [fst]. fold message.
      split.
      { intros image' [= <-]. exists (head ++ image ++ tail).
        split; [apply Hbody |]. cbv zeta. fold photo. rewrite Hp.
        cbn [flat_map delivery_requests]. rewrite Hphoto, Hmsg.
        reflexivity. }
      cbn [flat_map delivery_requests]. rewrite Hphoto, Hmsg. cbn [snd app].
      fold photo message.
      destruct (urlopen message) as [msg' | [|]] eqn:Hm; cbn [fst snd]; split;
        try discriminate; try reflexivity.
      * intros (before & req & E & Hreq).
        change [photo; message] with ([photo] ++ [message]) in E.
        apply app_inj_tail in E as [_ <-]. congruence.
      * intros _. exists [photo], message. now split.
      * intros (before & req & E & Hreq).
        change [photo; message] with ([photo] ++ [message]) in E.
        apply app_inj_tail in E as [_ <-]. congruence.
  - rewrite text_fallback_spec. cbn [fst snd app]. rewrite !Hmsg.
    cbn [fst]. fold message.
    cbn [flat_map delivery_requests]. rewrite Hmsg. cbn [snd app].
    fold message.
    split; [reflexivity |]. split; [discriminate |].
    destruct (urlopen message) as [msg' | [|]] eqn:Hm; cbn [fst snd]; split;
      try discriminate; try reflexivity.
    + intros (before & req & E & Hreq).
      change [message] with ([] ++ [message]) in E.
      apply app_inj_tail in E as [_ <-]. congruence.
    + intros _. exists [], message. now split.
    + intros (before & req & E & Hreq).
      change [message] with ([] ++ [message]) in E.
      apply app_inj_tail in E as [_ <-]. congruence.
Qed.

End MainTelegramFacts.

Lemma telegram_without_token_witness :
  snd (main_telegram JsonNum.fmt_1f JsonNum.py_int JsonNum.py_float
         JsonNum.fmt_0f
         (fun _ => Returned [])
         (fun d => title d ++ str " " ++ today_str d)
         (Telegram.mkenvironment (Some []) (Telegram.ConfigRead None))
         (fun _ => Telegram.Reply true)
         (fun s => s)
         (mkworld 7 (Birthdays.mkdate 2024 6 10) (str "10.06.2024")
            (fun _ => FetchRaised) (Raised (str "khal")) Todos.Absent
            Birthdays.Missing))
  = Returned 1%Z.
Proof.
  pose proof
    (telegram_without_token JsonNum.jnum JsonNum.fmt_1f JsonNum.py_int
       JsonNum.py_float JsonNum.fmt_0f
       (fun _ => Returned [])
       (fun d => title d ++ str " " ++ today_str d)
       (fun _ => Telegram.Reply true)
       (fun s => s)
       (Telegram.mkenvironment (Some []) (Telegram.ConfigRead None))
       (or_intror eq_refl) (or_intror (or_introl eq_refl)))
    as (_ & _ & _ & Hrun).
  exact (Hrun (mkworld 7 (Birthdays.mkdate 2024 6 10) (str "10.06.2024")
                 (fun _ => FetchRaised) (Raised (str "khal")) Todos.Absent
                 Birthdays.Missing) _ eq_refl).
Defined.

Lemma main_telegram_requests_witness :
  main_requests JsonNum.fmt_1f JsonNum.py_int JsonNum.py_float JsonNum.fmt_0f
    (fun _ => Raised (str "No font found on system"))
    (fun d => title d ++ str " " ++ today_str d)
    (Telegram.mkenvironment (Some (str "42:token")) Telegram.ConfigRaised)
    (fun _ => Telegram.Reply true)
    (fun s => s)
    (mkworld 7 (Birthdays.mkdate 2024 6 10) (str "10.06.2024")
       (fun _ => FetchRaised) (Raised (str "khal")) Todos.Absent
       Birthdays.Missing)
  = [Telegram.mkrequest
       (str "https://api.telegram.org/bot" ++ str "42:token"
        ++ str "/sendMessage")
       (Telegram.Json
          [(str "chat_id", Telegram.TELEGRAM_CHAT_ID);
           (str "text",
            str "Guten Morgen!" ++ str " " ++ str "10.06.2024");
           (str "parse_mode", str "Markdown")])
       (str "application/json") 20].
Proof.
  pose proof
    (main_telegram_requests JsonNum.jnum JsonNum.fmt_1f JsonNum.py_int
       JsonNum.py_float JsonNum.fmt_0f
       (fun _ => Raised (str "No font found on system"))
       (fun d => title d ++ str " " ++ today_str d)
       (fun _ => Telegram.Reply true)
       (fun s => s)
       (Telegram.mkenvironment (Some (str "42:token")) Telegram.ConfigRaised)
       (str "42:token")
       (mkworld 7 (Birthdays.mkdate 2024 6 10) (str "10.06.2024")
          (fun _ => FetchRaised) (Raised (str "khal")) Todos.Absent
          Birthdays.Missing)
       _ eq_refl eq_refl)
    as (Hraise & _).
  exact (Hraise (str "No font found on system") eq_refl).
Defined.

(* ================================================================== *)
(** * The image: what is drawn where *)
(* ================================================================== *)

Section RenderFacts.

Import Render.
Local Open Scope Z_scope.

Variable font : Type.
Variable textbbox_right : font -> pystr -> Z.
Variable lower : pystr -> pystr.
Variable JVal : Type.
Variable py_int : JVal -> option Z.

Lemma in_map_draw (o : draw_op font rgb) (l : list (draw_op font rgb)) :
  In (Draw o) (map Draw l) -> In o l.
Proof.
  intros H. apply in_map_iff in H as (o' & [= ->] & H). exact H.
Qed.

Lemma count_texts_app (a b : list (op font)) :
  count_texts (a ++ b) = count_texts a + count_texts b.
Proof. unfold count_texts. rewrite filter_app, length_app. lia. Qed.

Lemma count_texts_draw (l : list (draw_op font rgb)) :
  count_texts (map Draw l) = count_ops is_text l.
Proof.
  unfold count_texts, count_ops. induction l as [| o l IH]; [reflexivity |].
  cbn [map filter]. destruct o; cbn [is_text_op is_text List.length]; lia.
Qed.

Lemma drawn_between_app (a b : list (op font)) (top bottom : Z) :
  drawn_between a top bottom -> drawn_between b top bottom ->
  drawn_between (a ++ b) top bottom.
Proof.
  intros [Ha1 Ha2] [Hb1 Hb2]. split.
  - intros x y s c f H. apply in_app_or in H as [H | H]; eauto.
  - intros x0 y0 x1 y1 c wd H. apply in_app_or in H as [H | H]; eauto.
Qed.

Lemma shadow_no_text (style : pystr) (x y w h r : Z) (fill : rgb)
  (top bottom : Z) :
  drawn_between
    (map Draw (@_rounded_with_shadow font rgb style x y w h r fill))
    top bottom.
Proof.
  unfold _rounded_with_shadow.
  split; intros; match goal with H : In _ _ |- _ => apply in_map_draw in H end;
    destruct (PyStr.eqb style (str "cards")); cbn in *;
    repeat match goal with
      | H : _ \/ _ |- _ => destruct H
      | H : False |- _ => contradiction
      | H : _ = _ |- _ => discriminate H
      end.
Qed.

Section BlockFacts.

Variables f_h f_txt : font.
Variable style : pystr.
Variable colours : palette.
Variable icons_on : bool.
Variable weather_icon_mode : pystr.

(** ** The weather rows that are never reached *)

(** The rows are 62 apart (a line and a divider), or 44 before the last:
    behind [n + 1] rows of which the last would start beyond the boundary,
    nothing is drawn. *)
Lemma draw_rows_overflow (x y0 w h : Z)
  (rs rest : list (pystr * pystr * pystr)) (yy : Z) (n : nat) :
  List.length rs = S n ->
  y0 + h - 40 < yy + 44 + 62 * Z.of_nat n ->
  draw_rows textbbox_right f_txt colours icons_on weather_icon_mode x y0 w h
    (rs ++ rest) yy
  = draw_rows textbbox_right f_txt colours icons_on weather_icon_mode x y0 w
      h rs yy.
Proof.
  revert yy n.
  induction rs as [| [[lk label] value] rs IH]; intros yy n Hlen Hn;
    [discriminate |].
  cbn [app draw_rows]. cbv zeta.
  do 3 f_equal.
  destruct (Z.gtb_spec (yy + 44) (y0 + h - 40)) as [Hgt | Hle];
    [reflexivity |].
  injection Hlen as Hlen.
  destruct n as [| n]; [lia |].
  destruct (Z.ltb_spec (yy + 44) (y0 + h - 60)) as [Hlt | Hge].
  - f_equal. apply (IH _ n); [exact Hlen | lia].
  - apply (IH _ n); [exact Hlen | lia].
Qed.

Lemma present_app {A : Type} (a b : list (option A)) :
  present (a ++ b) = present a ++ present b.
Proof.
  induction a as [| [x |] a IH]; cbn [app present]; [reflexivity | | exact IH].
  now rewrite IH.
Qed.

Lemma weather_block_overflow (x y0 w h : Z) (ok : bool)
  (code : option JVal) (shown more : list (option weather_line)) (n : nat) :
  List.length (present shown) = S n ->
  h - 176 < 62 * Z.of_nat n ->
  weather_block textbbox_right py_int f_h f_txt style colours icons_on
    weather_icon_mode x y0 w h (mksnapshot ok code (shown ++ more))
  = weather_block textbbox_right py_int f_h f_txt style colours icons_on
      weather_icon_mode x y0 w h (mksnapshot ok code shown).
Proof.
  intros Hlen Hn. unfold weather_block, rows_of. cbn [lines weather_code].
  do 3 f_equal. rewrite present_app, map_app.
  apply (draw_rows_overflow _ _ _ _ _ _ _ n); [now rewrite length_map | lia].
Qed.

(** ** Where things are drawn *)

Lemma draw_value_bounds (limit value_x yy : Z) (wrapped_lines : list pystr)
  (j : Z) :
  (forall x y s c f,
      In (Draw (DrawText x y s c f))
        (draw_value f_txt colours limit value_x yy j wrapped_lines) ->
      yy + j * 44 <= y /\ (y = yy + j * 44 \/ y <= limit))
  /\ (forall x0 y0 x1 y1 c wd,
        ~ In (Draw (DrawLine x0 y0 x1 y1 c wd))
            (draw_value f_txt colours limit value_x yy j wrapped_lines)).
Proof.
  revert j. induction wrapped_lines as [| wl rest IH]; intros j;
    (split; [intros x y s c f H | intros x0 y0 x1 y1 c wd H]);
    cbn [draw_value In] in H; try contradiction.
  - destruct H as [[= <- <- <- <- <-] | H]; [lia |].
    destruct (Z.gtb_spec (yy + (j + 1) * 44) limit) as [Hgt | Hle];
      [contradiction |].
    apply (proj1 (IH (j + 1))) in H. lia.
  - destruct H as [H | H]; [discriminate |].
    destruct (yy + (j + 1) * 44 >? limit); [contradiction |].
    now apply (proj2 (IH (j + 1))) in H.
Qed.

Lemma draw_rows_bounds (x y0 w h : Z) (rs : list (pystr * pystr * pystr))
  (yy : Z) :
  yy <= y0 + h - 40 ->
  (forall x' y s c f,
      In (Draw (DrawText x' y s c f))
        (draw_rows textbbox_right f_txt colours icons_on weather_icon_mode
           x y0 w h rs yy) ->
      yy <= y <= y0 + h - 40)
  /\ (forall xa ya xb yb c wd,
        In (Draw (DrawLine xa ya xb yb c wd))
          (draw_rows textbbox_right f_txt colours icons_on weather_icon_mode
             x y0 w h rs yy) ->
        yb = ya /\ yy + 50 <= ya < y0 + h - 54).
Proof.
  revert yy. induction rs as [| [[lk label] value] rs IH]; intros yy Hyy;
    (split; [intros x' y s c f H | intros xa ya xb yb c wd H]);
    cbn [draw_rows] in H; cbv zeta in H; try contradiction.
  - apply in_app_or in H as [H | H].
    { destruct (icons_on && PyStr.eqb weather_icon_mode (str "lines"));
        cbn in H; [destruct H as [H | H]; [discriminate H |] |];
        contradiction. }
    apply in_app_or in H as [H | H].
    { destruct H as [[= <- <- <- <- <-] | []]. lia. }
    apply in_app_or in H as [H | H].
    { apply (proj1 (draw_value_bounds _ _ _ _ _)) in H. lia. }
    destruct (Z.gtb_spec (yy + 44) (y0 + h - 40)) as [Hgt | Hle];
      [contradiction |].
    destruct (Z.ltb_spec (yy + 44) (y0 + h - 60)) as [Hlt | Hge].
    + destruct H as [H | H]; [discriminate |].
      apply (proj1 (IH (yy + 44 + 18) ltac:(lia))) in H. lia.
    + apply (proj1 (IH (yy + 44) ltac:(lia))) in H. lia.
  - apply in_app_or in H as [H | H].
    { destruct (icons_on && PyStr.eqb weather_icon_mode (str "lines"));
        cbn in H; [destruct H as [H | H]; [discriminate H |] |];
        contradiction. }
    apply in_app_or in H as [H | H].
    { destruct H as [H | []]. discriminate. }
    apply in_app_or in H as [H | H].
    { now apply (proj2 (draw_value_bounds _ _ _ _ _)) in H. }
    destruct (Z.gtb_spec (yy + 44) (y0 + h - 40)) as [Hgt | Hle];
      [contradiction |].
    destruct (Z.ltb_spec (yy + 44) (y0 + h - 60)) as [Hlt | Hge].
    + destruct H as [[= <- <- <- <- <- <-] | H]; [lia |].
      apply (proj2 (IH (yy + 44 + 18) ltac:(lia))) in H. lia.
    + apply (proj2 (IH (yy + 44) ltac:(lia))) in H. lia.
Qed.

(** The weather section of a card that has room for a row: the header, the
    labels, the values and the dividers start inside the card. *)
Lemma weather_block_section (x y0 w h : Z) (weather_obj : snapshot JVal) :
  132 <= h ->
  drawn_between
    (weather_block textbbox_right py_int f_h f_txt style colours icons_on
       weather_icon_mode x y0 w h weather_obj)
    y0 (y0 + h).
Proof.
  intros Hh. unfold weather_block.
  apply drawn_between_app; [apply shadow_no_text |].
  apply drawn_between_app.
  { split; intros; cbn in *;
      repeat match goal with
        | H : _ \/ _ |- _ => destruct H
        | H : False |- _ => contradiction
        | H : Draw _ = Draw _ |- _ => injection H as; subst
        end; try discriminate; lia. }
  apply drawn_between_app.
  { split; intros; destruct icons_on; cbn in *;
      repeat match goal with
        | H : _ \/ _ |- _ => destruct H
        | H : False |- _ => contradiction
        | H : _ = _ |- _ => discriminate H
        end. }
  destruct (draw_rows_bounds x y0 w h (rows_of weather_obj) (y0 + 92)
              ltac:(lia)) as [Ht Hl].
  split.
  - intros x' y s c f H. apply Ht in H. lia.
  - intros xa ya xb yb c wd H. apply Hl in H. lia.
Qed.

(** A card that has room for a line: the header, the content and the
    dividers start inside the card, and the content has at most
    [(h - 126) / 44 + 1] lines. *)
Lemma card_ops_section (x y w h : Z) (header : pystr) (lines : list pystr)
  (bgcol : rgb) :
  123 <= h ->
  drawn_between
    (card_ops textbbox_right lower f_h f_txt style colours x y w h header
       lines bgcol)
    y (y + h)
  /\ count_texts
       (card_ops textbbox_right lower f_h f_txt style colours x y w h header
          lines bgcol)
     <= 1 + Z.max 1 ((h - 126) / 44 + 1).
Proof.
  intros Hh. unfold card_ops. rewrite card_block_flow. cbn [fst].
  destruct (draw_items_trace font textbbox_right f_txt rgb (muted colours)
              (divider colours) style x y w h
              (is_todos_header lower header) (is_calendar_header lower header)
              lines (y + 86)
              (card_frame f_h (white colours) style x y w h header bgcol))
    as (content & Hops & Htr).
  cbv zeta in Hops. rewrite Hops.
  destruct (trace_bounds _ _ _ _ _ _ _ _ _ _ Htr) as (_ & Htext & Hline).
  apply trace_capacity in Htr.
  replace (y + h - 40 - (y + 86)) with (h - 126) in Htr by lia.
  unfold card_frame. rewrite !map_app. split.
  - apply drawn_between_app; [apply drawn_between_app |].
    + apply shadow_no_text.
    + split; intros; cbn in *;
        repeat match goal with
          | H : _ \/ _ |- _ => destruct H
          | H : False |- _ => contradiction
          | H : Draw _ = Draw _ |- _ => injection H as; subst
          end; try discriminate; lia.
    + split.
      * intros x' y' s c f H. apply in_map_draw, Htext in H. lia.
      * intros xa ya xb yb c wd H. apply in_map_draw, Hline in H. lia.
  - rewrite !count_texts_app, !count_texts_draw.
    assert (count_ops is_text
              (@_rounded_with_shadow font rgb style x y w h
                 (if PyStr.eqb style (str "cards") then 34 else 20) bgcol)
            = 0) as ->.
    { unfold _rounded_with_shadow.
      destruct (PyStr.eqb style (str "cards")); reflexivity. }
    change (count_ops is_text
              [DrawText (x + 34) (y + 26) header (white colours) f_h])
      with 1.
    lia.
Qed.

End BlockFacts.

Variable pillow_missing : option pystr.
Variable path_exists : pystr -> bool.
Variable truetype : pystr -> Z -> result font.

Let render :=
  render_dashboard_png textbbox_right lower py_int pillow_missing path_exists
    truetype.

(** The image that is returned, by its parts. *)
Lemma render_returned (env : environ) (title subtitle : pystr)
  (weather : snapshot JVal) (calendar todos birthdays : list pystr)
  (ops : list (op font)) :
  render env title subtitle weather calendar todos birthdays = Returned ops ->
  let colours := palette_of (theme_of lower env) in
  let style := style_of lower env in
  exists f_title f_sub f_h f_txt,
    ops
    = NewImage 1080 2340 (bg colours)
      :: Draw (DrawText 48 210 title (white colours) f_title)
      :: Draw (DrawText 48 290 subtitle (muted colours) f_sub)
      :: weather_block textbbox_right py_int f_h f_txt style colours
           (icons_on_of lower env) (weather_icon_mode_of lower env)
           48 348 984 280 weather
      ++ card_ops textbbox_right lower f_h f_txt style colours
           48 650 984 360 (str "Termine") (PySeq.take 11 calendar)
           (card colours)
      ++ card_ops textbbox_right lower f_h f_txt style colours
           48 1032 984 830 (str "To-dos") (PySeq.take 18 todos)
           (card2 colours)
      ++ card_ops textbbox_right lower f_h f_txt style colours
           48 1884 984 300 (str "Geburtstage (7 Tage)")
           (PySeq.take 5
              (if truthy_list birthdays then birthdays
               else [str "Keine in den nächsten 7 Tagen"]))
           (card2 colours).
Proof.
  unfold render, render_dashboard_png. cbv zeta.
  destruct pillow_missing; [discriminate |].
  destruct (_find_font path_exists) as [font_path |]; [| discriminate].
  destruct (truetype font_path 64) as [f_title |]; [| discriminate].
  destruct (truetype font_path 34) as [f_sub |]; [| discriminate].
  destruct (truetype font_path 40) as [f_h |]; [| discriminate].
  destruct (truetype font_path 32) as [f_txt |]; [| discriminate].
  intros [= <-]. exists f_title, f_sub, f_h, f_txt. reflexivity.
Qed.


Lemma texts_between_app (a b : list (op font)) (top bottom : Z) :
  texts_between (a ++ b) top bottom
  = texts_between a top bottom + texts_between b top bottom.
Proof. unfold texts_between. rewrite filter_app, length_app. lia. Qed.

Lemma texts_between_le (s : list (op font)) (top bottom : Z) :
  texts_between s top bottom <= count_texts s.
Proof.
  unfold texts_between, count_texts.
  induction s as [| o s IH]; [reflexivity |]. cbn [filter].
  destruct o as [? ? ? | [] | ]; cbn [text_between is_text_op List.length];
    try lia.
  destruct ((top <? y) && (y <? bottom)); cbn [List.length]; lia.
Qed.

Lemma texts_between_outside (s : list (op font)) (a b top bottom : Z) :
  drawn_between s a b -> b <= top \/ bottom <= a ->
  texts_between s top bottom = 0.
Proof.
  intros [Ht _] Hout. unfold texts_between.
  induction s as [| o s IH]; [reflexivity |]. cbn [filter].
  assert (text_between top bottom o = false) as ->.
  { destruct o as [? ? ? | [] | ]; try reflexivity. cbn [text_between].
    specialize (Ht x y s0 fill f (or_introl eq_refl)).
    destruct (Z.ltb_spec top y), (Z.ltb_spec y bottom); try reflexivity. lia. }
  apply IH. intros x y s0 c f H. apply (Ht x y s0 c f). now right.
Qed.

(** What the image has room for: of the text lines of an image at most 7
    start in the band of the calendar (the header and 6 content lines, of
    up to 11 events handed to the card), at most 18 in the band of the
    to-dos and at most 5 in the band of the birthdays (the header and 4
    lines, of up to 5 handed to the card); whatever the data, the settings
    and the font. *)
Theorem render_capacity (env : environ) (title subtitle : pystr)
  (weather : snapshot JVal) (calendar todos birthdays : list pystr)
  (ops : list (op font)) :
  render env title subtitle weather calendar todos birthdays = Returned ops ->
  texts_between ops 650 1010 <= 7
  /\ texts_between ops 1032 1862 <= 18
  /\ texts_between ops 1884 2184 <= 5.
Proof.
  intros H. apply render_returned in H. cbv zeta in H.
  destruct H as (f_title & f_sub & f_h & f_txt & ->).
  set (pal := palette_of (theme_of lower env)).
  set (sty := style_of lower env).
  pose proof (weather_block_section f_h f_txt sty pal (icons_on_of lower env)
                (weather_icon_mode_of lower env) 48 348 984 280 weather
                ltac:(lia)) as Hb1.
  destruct (card_ops_section f_h f_txt sty pal 48 650 984 360
              (str "Termine") (PySeq.take 11 calendar) (card pal)
              ltac:(lia)) as [Hb2 Hc2].
  destruct (card_ops_section f_h f_txt sty pal 48 1032 984 830
              (str "To-dos") (PySeq.take 18 todos) (card2 pal)
              ltac:(lia)) as [Hb3 Hc3].
  destruct (card_ops_section f_h f_txt sty pal 48 1884 984 300
              (str "Geburtstage (7 Tage)")
              (PySeq.take 5
                 (if truthy_list birthdays then birthdays
                  else [str "Keine in den nächsten 7 Tagen"]))
              (card2 pal) ltac:(lia)) as [Hb4 Hc4].
  set (s1 := weather_block _ _ _ _ _ _ _ _ _ _ _ _ _) in *.
  set (s2 := card_ops _ _ _ _ _ _ 48 650 _ _ _ _ _) in *.
  set (s3 := card_ops _ _ _ _ _ _ 48 1032 _ _ _ _ _) in *.
  set (s4 := card_ops _ _ _ _ _ _ 48 1884 _ _ _ _ _) in *.
  change (NewImage 1080 2340 (bg pal)
          :: Draw (DrawText 48 210 title (white pal) f_title)
          :: Draw (DrawText 48 290 subtitle (muted pal) f_sub)
          :: s1 ++ s2 ++ s3 ++ s4)
    with ([NewImage 1080 2340 (bg pal);
           Draw (DrawText 48 210 title (white pal) f_title);
           Draw (DrawText 48 290 subtitle (muted pal) f_sub)]
          ++ s1 ++ s2 ++ s3 ++ s4).
  rewrite !texts_between_app.
  pose proof (texts_between_le s2 650 1010).
  pose proof (texts_between_le s3 1032 1862).
  pose proof (texts_between_le s4 1884 2184).
  change (1 + Z.max 1 ((360 - 126) / 44 + 1)) with 7 in Hc2.
  change (1 + Z.max 1 ((830 - 126) / 44 + 1)) with 18 in Hc3.
  change (1 + Z.max 1 ((300 - 126) / 44 + 1)) with 5 in Hc4.
  rewrite (texts_between_outside s1 348 628 650 1010 Hb1 ltac:(lia)).
  rewrite (texts_between_outside s1 348 628 1032 1862 Hb1 ltac:(lia)).
  rewrite (texts_between_outside s1 348 628 1884 2184 Hb1 ltac:(lia)).
  rewrite (texts_between_outside s2 650 1010 1032 1862 Hb2 ltac:(lia)).
  rewrite (texts_between_outside s2 650 1010 1884 2184 Hb2 ltac:(lia)).
  rewrite (texts_between_outside s3 1032 1862 650 1010 Hb3 ltac:(lia)).
  rewrite (texts_between_outside s3 1032 1862 1884 2184 Hb3 ltac:(lia)).
  rewrite (texts_between_outside s4 1884 2184 650 1010 Hb4 ltac:(lia)).
  rewrite (texts_between_outside s4 1884 2184 1032 1862 Hb4 ltac:(lia)).
  assert (forall top bottom, 290 < top ->
             texts_between
               [NewImage 1080 2340 (bg pal);
                Draw (DrawText 48 210 title (white pal) f_title);
                Draw (DrawText 48 290 subtitle (muted pal) f_sub)]
               top bottom = 0) as Hhead.
  { intros top bottom Htop. unfold texts_between.
    cbn [filter text_between].
    destruct (Z.ltb_spec top 210); [lia |].
    destruct (Z.ltb_spec top 290); [lia |]. reflexivity. }
  rewrite !Hhead by lia. lia.
Qed.

(** The weather card has room for three rows: what follows the third line
    of the weather is never drawn.  The adapter lists the temperature, the
    range, the humidity and the wind, so the wind is drawn only when the
    humidity is missing. *)
Theorem render_weather_rows (env : environ) (title subtitle : pystr)
  (ok : bool) (code : option JVal) (l1 l2 l3 : weather_line)
  (more : list (option weather_line))
  (calendar todos birthdays : list pystr) :
  render env title subtitle
    (mksnapshot ok code (Some l1 :: Some l2 :: Some l3 :: more))
    calendar todos birthdays
  = render env title subtitle
      (mksnapshot ok code [Some l1; Some l2; Some l3])
      calendar todos birthdays.
Proof.
  unfold render, render_dashboard_png. cbv zeta.
  destruct pillow_missing; [reflexivity |].
  destruct (_find_font path_exists) as [font_path |]; [| reflexivity].
  destruct (truetype font_path 64) as [f_title |]; [| reflexivity].
  destruct (truetype font_path 34) as [f_sub |]; [| reflexivity].
  destruct (truetype font_path 40) as [f_h |]; [| reflexivity].
  destruct (truetype font_path 32) as [f_txt |]; [| reflexivity].
  change (Some l1 :: Some l2 :: Some l3 :: more)
    with ([Some l1; Some l2; Some l3] ++ more).
  rewrite weather_block_overflow with (n := 2%nat); reflexivity.
Qed.

End RenderFacts.


Lemma render_capacity_witness :
  exists ops,
    Render.render_dashboard_png CardExample.fixed_width
      CardExample.lower_ascii JsonNum.py_int None (fun _ => true)
      (fun _ size =>
         Returned (if (size =? 40)%Z then CardExample.Header_face
                   else CardExample.Text_face))
      (Render.mkenviron (Some (str "list")) None None None)
      (str "Mahlzeit!") (str "Rathenow · 10.06.2024")
      (@unavailable JsonNum.jnum) [str "Keine Termine"]
      [str "- [ ] Brot"] [str "Heute: Anna (34)"]
    = Returned ops
    /\ (Render.texts_between ops 650 1010 <= 7)%Z
    /\ (Render.texts_between ops 1032 1862 <= 18)%Z
    /\ (Render.texts_between ops 1884 2184 <= 5)%Z.
Proof.
  eexists. split; [reflexivity |].
  exact (render_capacity _ CardExample.fixed_width CardExample.lower_ascii
           _ JsonNum.py_int None (fun _ => true)
           (fun _ size =>
              Returned (if (size =? 40)%Z then CardExample.Header_face
                        else CardExample.Text_face))
           (Render.mkenviron (Some (str "list")) None None None)
           (str "Mahlzeit!") (str "Rathenow · 10.06.2024")
           (@unavailable JsonNum.jnum) [str "Keine Termine"]
           [str "- [ ] Brot"] [str "Heute: Anna (34)"] _ eq_refl).
Defined.

(* ================================================================== *)
(** * The text message, and what [main] hands on *)
(* ================================================================== *)

Module TextFacts.

(** ** The lines of a joined text *)

Lemma split_on_line (l : pystr) :
  ~ In NL l -> split_on NL l = [l].
Proof.
  induction l as [| c l IH]; intros Hn; [reflexivity |].
  cbn [split_on]. destruct (N.eqb_spec c NL) as [-> | _].
  - exfalso. apply Hn. now left.
  - rewrite IH by (intros H; apply Hn; now right). reflexivity.
Qed.

Lemma split_on_line_more (l rest : pystr) :
  ~ In NL l -> split_on NL (l ++ NL :: rest) = l :: split_on NL rest.
Proof.
  induction l as [| c l IH]; intros Hn.
  - cbn [app split_on]. now rewrite N.eqb_refl.
  - cbn [app split_on]. destruct (N.eqb_spec c NL) as [-> | _].
    + exfalso. apply Hn. now left.
    + rewrite IH by (intros H; apply Hn; now right). reflexivity.
Qed.

(** Lines without a line break, joined by line breaks and split again,
    are the lines. *)
Lemma split_on_join (ls : list pystr) :
  ls <> [] -> Forall (fun l => ~ In NL l) ls ->
  split_on NL (join [NL] ls) = ls.
Proof.
  induction ls as [| l ls IH]; intros Hne Hls; [congruence |].
  apply Forall_cons_iff in Hls as [Hl Hls].
  destruct ls as [| l' ls].
  - cbn [join]. now apply split_on_line.
  - change (join [NL] (l :: l' :: ls)) with (l ++ NL :: join [NL] (l' :: ls)).
    rewrite split_on_line_more by exact Hl.
    now rewrite IH.
Qed.

End TextFacts.

Section TextMore.

Import TextFacts.

Variable format_line : weather_line -> pystr.

Let text := build_text_dashboard format_line.

Lemma no_break_app (a b : pystr) :
  ~ In NL a -> ~ In NL b -> ~ In NL (a ++ b).
Proof. intros Ha Hb H. apply in_app_or in H as [H | H]; auto. Qed.

Lemma no_break_map (p : pystr) (ls : list pystr) :
  ~ In NL p -> Forall (fun l => ~ In NL l) ls ->
  Forall (fun l => ~ In NL l) (map (fun l => p ++ l) ls).
Proof.
  intros Hp Hls. apply Forall_map.
  eapply Forall_impl; [| exact Hls]. intros l Hl. now apply no_break_app.
Qed.

(** When no item holds a line break, the lines of the message are: the
    greeting without its exclamation mark and with the name, the place and
    the date, the weather under its header, the birthdays under theirs
    only when there is one, the events and the to-dos; every item on a line
    of its own behind its dash or indent, the sections one empty line
    apart.  The birthday header is a line of the message exactly when
    there is a birthday. *)
Theorem text_dashboard_lines (today_str greeting : pystr)
  (weather_lines : list weather_line)
  (birthdays events todos : list pystr) :
  ~ In NL today_str -> ~ In NL greeting ->
  Forall (fun ln => ~ In NL (format_line ln)) weather_lines ->
  Forall (fun l => ~ In NL l) birthdays ->
  Forall (fun l => ~ In NL l) events ->
  Forall (fun l => ~ In NL l) todos ->
  let message :=
    text today_str greeting weather_lines birthdays events todos in
  split_on NL message
  = [remove_bang greeting ++ str ", Daniel!"; [];
     str "Rathenow – " ++ today_str; []; str "🌡️ Wetter:"]
    ++ map (fun ln => str "- " ++ format_line ln) weather_lines
    ++ [[]]
    ++ match birthdays with
       | [] => []
       | _ =>
           [str "🎂 Geburtstage (nächste 7 Tage):"]
           ++ map (fun b => str "  " ++ b) birthdays ++ [[]]
       end
    ++ [str "📅 Termine heute:"]
    ++ map (fun e => str "- " ++ e) events
    ++ [[]; str "📝 To-dos:"]
    ++ map (fun t => str "- " ++ t) todos
  /\ (In (str "🎂 Geburtstage (nächste 7 Tage):") (split_on NL message)
      <-> birthdays <> []).
Proof.
  intros Hd Hg Hw Hb He Ht. cbv zeta.
  assert (~ In NL (remove_bang greeting)) as Hg'.
  { unfold remove_bang. intros H. apply filter_In in H as [H _]. auto. }
  assert (split_on NL
            (text today_str greeting weather_lines birthdays events todos)
          = text_lines format_line today_str greeting weather_lines birthdays
              events todos) as Hsplit.
  { unfold text, build_text_dashboard. apply split_on_join.
    - unfold text_lines. cbn [app]. destruct (truthy_list birthdays);
        discriminate.
    - unfold text_lines. cbn [app].
      assert (Forall (fun l => ~ In NL l)
                (map (fun ln => str "- " ++ format_line ln) weather_lines))
        as Hw'.
      { apply Forall_map. eapply Forall_impl; [| exact Hw].
        intros ln Hln. apply no_break_app; [| exact Hln].
        vm_compute. intuition discriminate. }
      assert (Forall (fun l => ~ In NL l)
                (map (fun b => str "  " ++ b) birthdays)) as Hb'.
      { apply no_break_map; [vm_compute; intuition discriminate | exact Hb]. }
      assert (Forall (fun l => ~ In NL l)
                (map (fun e => str "- " ++ e) events)) as He'.
      { apply no_break_map; [vm_compute; intuition discriminate | exact He]. }
      assert (Forall (fun l => ~ In NL l)
                (map (fun t => str "- " ++ t) todos)) as Ht'.
      { apply no_break_map; [vm_compute; intuition discriminate | exact Ht]. }
      assert (forall l : pystr, ~ In NL l -> forall ls,
                 Forall (fun l => ~ In NL l) ls ->
                 Forall (fun l => ~ In NL l) (l :: ls)) as Hc
        by (intros; now constructor).
      assert (~ In NL []) as Hnil by (intros []).
      destruct (truthy_list birthdays);
        repeat first
          [ apply Forall_app; split
          | apply Hc
          | exact Hw' | exact Hb' | exact He' | exact Ht' | exact Hnil
          | apply Forall_nil
          | apply no_break_app; [exact Hg' |]
          | apply no_break_app; [| exact Hd]
          | (vm_compute; intuition discriminate) ]. }
  rewrite Hsplit.
  assert (text_lines format_line today_str greeting weather_lines birthdays
            events todos
          = [remove_bang greeting ++ str ", Daniel!"; [];
             str "Rathenow – " ++ today_str; []; str "🌡️ Wetter:"]
            ++ map (fun ln => str "- " ++ format_line ln) weather_lines
            ++ [[]]
            ++ match birthdays with
               | [] => []
               | _ =>
                   [str "🎂 Geburtstage (nächste 7 Tage):"]
                   ++ map (fun b => str "  " ++ b) birthdays ++ [[]]
               end
            ++ [str "📅 Termine heute:"]
            ++ map (fun e => str "- " ++ e) events
            ++ [[]; str "📝 To-dos:"]
            ++ map (fun t => str "- " ++ t) todos) as ->.
  { unfold text_lines.
    destruct birthdays as [| b bs]; cbn [truthy_list app];
      rewrite <- ?app_assoc; cbn [app]; reflexivity. }
  split; [reflexivity |].
  rewrite !in_app_iff. split.
  - intros Hin Hnil. subst birthdays. cbn [In map] in Hin.
    repeat match type of Hin with
      | _ \/ _ => destruct Hin as [Hin | Hin]
      | False => contradiction
      | In _ (map _ _) => apply in_map_iff in Hin as (item & Hin & _)
      end;
      first
        [ contradiction
        | apply (f_equal (@hd char 0%N)) in Hin; vm_compute in Hin;
          discriminate Hin
        | apply (f_equal (fun l : pystr => hd 0%N (rev l))) in Hin;
          cbv beta in Hin; rewrite ?rev_app_distr in Hin; vm_compute in Hin;
          discriminate Hin ].
  - intros Hne. destruct birthdays as [| b bs]; [congruence |].
    right. right. right. left. now left.
Qed.

End TextMore.

Lemma text_dashboard_lines_witness :
  In (str "🎂 Geburtstage (nächste 7 Tage):")
    (split_on NL
       (build_text_dashboard (fun ln => snd ln) (str "10.06.2024")
          (str "Guten Morgen!") [(str "temp", str "5.2°C aktuell")]
          [str "Heute: Anna (34)"] [str "Keine Termine"]
          [str "- [ ] Brot"])).
Proof.
  apply (proj2 (text_dashboard_lines (fun ln => snd ln) (str "10.06.2024")
                  (str "Guten Morgen!") [(str "temp", str "5.2°C aktuell")]
                  [str "Heute: Anna (34)"] [str "Keine Termine"]
                  [str "- [ ] Brot"]
                  ltac:(vm_compute; intuition discriminate)
                  ltac:(vm_compute; intuition discriminate)
                  ltac:(repeat constructor; vm_compute; intuition discriminate)
                  ltac:(repeat constructor; vm_compute; intuition discriminate)
                  ltac:(repeat constructor; vm_compute; intuition discriminate)
                  ltac:(repeat constructor; vm_compute;
                        intuition discriminate))).
  discriminate.
Defined.

(* ================================================================== *)
(** * What [main] gathers *)
(* ================================================================== *)

Section GatherFacts.

Local Open Scope Z_scope.

Variable JVal : Type.
Variable fmt_1f : JVal -> option pystr.
Variable py_int : JVal -> option Z.
Variable py_float : JVal -> option pyfloat.
Variable fmt_0f : pyfloat -> pystr.

(** The data of a run, by size: one to four weather lines, at least one
    event line, one to seven to-do lines (six tasks and the line that
    counts the rest), so that the renderer's cut of the to-dos at 18 never
    cuts; and the title is one of the five greetings. *)
Theorem gather_sizes (w : world JVal) (d : dashboard JVal) :
  gather fmt_1f py_int py_float fmt_0f w = Returned d ->
  1 <= len_list (weather_lines d) <= 4
  /\ 1 <= len_list (events d)
  /\ 1 <= len_list (todos d) <= 7
  /\ PySeq.take 18 (todos d) = todos d
  /\ In (title d)
       [str "Guten Morgen!"; str "Mahlzeit!"; str "Guten Tag!";
        str "Guten Abend!"; str "Gute Nacht!"].
Proof.
  unfold gather.
  destruct (Birthdays.get_upcoming_birthdays 7 (now_date w)
              (birthdays_file w)) as [bs | e]; [| discriminate].
  intros [= <-]. cbn [weather_lines events todos title].
  split.
  { unfold get_weather, get_weather_run, len_list.
    destruct (retry_loop_result JVal fmt_1f py_int py_float fmt_0f (fetches w)
                3 0 []) as [Hs | (k & r & _ & _ & Hs)].
    - rewrite Hs. cbn [lines unavailable present List.length]. lia.
    - apply snapshot_of_shape in Hs
        as (_ & _ & st & smin & smax & hl & wl & Hl & _).
      rewrite Hl. destruct hl, wl; cbn [present List.length]; lia. }
  split.
  { unfold Calendar.get_calendar, len_list.
    destruct (khal w) as [stdout | e]; [| cbn [List.length]; lia].
    cbv zeta.
    destruct (filter Calendar.is_event (Calendar.output_lines stdout));
      cbn [List.length]; lia. }
  assert (1 <= len_list (Todos.get_todos_lines 6 (todo_file w)) <= 7)
    as Htodos.
  { destruct (todo_file w) as [| | raw]; [cbn; lia | cbn; lia |].
    rewrite TodosMore.todos_lines_length; lia. }
  split; [lia |]. split.
  { unfold take. cbn [Z.ltb Z.compare]. apply firstn_all2.
    unfold len_list in Htodos. lia. }
  unfold get_greeting.
  repeat match goal with
    | |- context [if ?b then _ else _] => destruct b
    end; cbn [In]; auto 6.
Qed.

End GatherFacts.

Lemma gather_sizes_witness :
  (1 <= len_list
          (todos
             (mkdashboard (str "Guten Morgen!") (str "Rathenow · 10.06.2024")
                (str "10.06.2024") (@unavailable JsonNum.jnum)
                [(str "info", str "Wetterdaten nicht verfügbar")]
                [str "Fehler: khal"] [str "Keine To-dos für heute"] []))
   <= 7)%Z.
Proof.
  exact (proj1 (proj2 (proj2
           (gather_sizes JsonNum.jnum JsonNum.fmt_1f JsonNum.py_int
              JsonNum.py_float JsonNum.fmt_0f
              (mkworld 7 (Birthdays.mkdate 2024 6 10) (str "10.06.2024")
                 (fun _ => FetchRaised) (Raised (str "khal")) Todos.Absent
                 Birthdays.Missing)
              _ eq_refl)))).
Defined.

(* ================================================================== *)
(** * The values of the weather card *)
(* ================================================================== *)

Module ValueFacts.
Import Render WordFacts TrimFacts.

Lemma word_app (a b : pystr) :
  word a -> Forall (fun c => is_space c = false) b -> word (a ++ b).
Proof.
  intros [Hne Ha] Hb. split.
  - destruct a; [congruence | discriminate].
  - apply Forall_app. now split.
Qed.

(** The value shown for a line the adapter wrote: of the temperature the
    number with its unit, without the word behind it; of the humidity the
    number with the percent sign; of the range the whole line. *)
Theorem extract_value_weather (st smin smax sh : pystr) :
  word st -> word smin -> word smax -> word sh ->
  _extract_value (str "temp") (st ++ str "°C aktuell") = st ++ str "°C"
  /\ _extract_value (str "humidity") (sh ++ str "% Luftfeuchte")
     = sh ++ str "%"
  /\ _extract_value (str "range") (smin ++ str "°C / " ++ smax ++ str "°C")
     = smin ++ str "°C / " ++ smax ++ str "°C".
Proof.
  intros Hst Hmin Hmax Hsh.
  assert (forall a b lk,
             word a -> word b ->
             existsb (PyStr.eqb lk) [str "temp"; str "humidity"] = true ->
             PyStr.eqb lk (str "range") = false ->
             _extract_value lk (a ++ SP :: b) = a) as Hfirst.
  { intros a b lk Ha Hb Hlk Hr.
    assert (Forall word [a; b]) as Hws
      by (constructor; [exact Ha | constructor; [exact Hb | constructor]]).
    change (a ++ SP :: b) with (join [SP] [a; b]).
    unfold _extract_value.
    rewrite strip_join_words by (discriminate || exact Hws).
    rewrite split_join by exact Hws. rewrite Hr, Hlk. cbn [truthy_list andb].
    destruct (join [SP] [a; b]) eqn:E; [| reflexivity].
    exfalso. revert E. apply join_nonempty; [discriminate | exact Hws]. }
  split; [| split].
  - change (str "°C aktuell") with (str "°C" ++ SP :: str "aktuell").
    rewrite app_assoc. apply Hfirst.
    + apply word_app; [exact Hst |]. vm_compute. repeat constructor.
    + vm_compute. split; [discriminate | repeat constructor].
    + vm_compute. reflexivity.
    + vm_compute. reflexivity.
  - change (str "% Luftfeuchte") with (str "%" ++ SP :: str "Luftfeuchte").
    rewrite app_assoc. apply Hfirst.
    + apply word_app; [exact Hsh |]. vm_compute. repeat constructor.
    + vm_compute. split; [discriminate | repeat constructor].
    + vm_compute. reflexivity.
    + vm_compute. reflexivity.
  - assert (Forall word [smin ++ str "°C"; str "/"; smax ++ str "°C"]) as Hws.
    { constructor; [| constructor; [| constructor; [| constructor]]].
      - apply word_app; [exact Hmin |]. vm_compute. repeat constructor.
      - vm_compute. split; [discriminate | repeat constructor].
      - apply word_app; [exact Hmax |]. vm_compute. repeat constructor. }
    replace (smin ++ str "°C / " ++ smax ++ str "°C")
      with (join [SP] [smin ++ str "°C"; str "/"; smax ++ str "°C"]).
    2:{ cbn [join]. rewrite <- !app_assoc. f_equal. }
    unfold _extract_value.
    rewrite strip_join_words by (discriminate || exact Hws).
    change (PyStr.eqb (str "range") (str "range")) with true.
    destruct (join [SP] [smin ++ str "°C"; str "/"; smax ++ str "°C"]) eqn:E;
      [| reflexivity].
    exfalso. revert E. apply join_nonempty; [discriminate | exact Hws].
Qed.

Lemma extract_value_weather_witness :
  _extract_value (str "temp") (str "-0.2" ++ str "°C aktuell")
  = str "-0.2" ++ str "°C".
Proof.
  apply (proj1 (extract_value_weather (str "-0.2") (str "1.5") (str "8.2")
                  (str "92")
                  ltac:(vm_compute; split; [discriminate | repeat constructor])
                  ltac:(vm_compute; split; [discriminate | repeat constructor])
                  ltac:(vm_compute; split; [discriminate | repeat constructor])
                  ltac:(vm_compute; split;
                        [discriminate | repeat constructor]))).
Defined.

End ValueFacts.

(* ================================================================== *)
(** * The program without an image *)
(* ================================================================== *)

Section ProgramFacts.

Import Telegram.

Variable JVal : Type.
Variable fmt_1f : JVal -> option pystr.
Variable py_int : JVal -> option Z.
Variable py_float : JVal -> option pyfloat.
Variable fmt_0f : pyfloat -> pystr.
Variable font : Type.
Variable textbbox_right : font -> pystr -> Z.
Variable lower : pystr -> pystr.
Variable pillow_missing : option pystr.
Variable path_exists : pystr -> bool.
Variable truetype : pystr -> Z -> result font.
Variable env : Render.environ.
Variable save : list (Render.op font) -> result bytes.
Variable format_line : weather_line -> pystr.
Variable e : environment.
Variable urlopen : request -> reply.
Variable encode_error : pystr -> pystr.

Lemma find_font_none :
  Forall (fun p => path_exists p = false) Render.candidates ->
  Render._find_font path_exists = None.
Proof.
  unfold Render._find_font. induction 1 as [| p ps Hp _ IH]; [reflexivity |].
  cbn [find]. now rewrite Hp.
Qed.

(** Without Pillow, or when none of the four font files exists, the
    renderer raises whatever the data; a run whose data is gathered then
    makes one request, the text message composed from that data, and
    returns 0 when the reply to it is positive and 1 otherwise. *)
Theorem program_without_image (token : pystr) (w : world JVal)
  (d : dashboard JVal) :
  pillow_missing <> None
  \/ Forall (fun p => path_exists p = false) Render.candidates ->
  _load_telegram_bot_token e = Returned token ->
  gather fmt_1f py_int py_float fmt_0f w = Returned d ->
  let message :=
    mkrequest (str "https://api.telegram.org/bot" ++ token
               ++ str "/sendMessage")
      (Json [(str "chat_id", TELEGRAM_CHAT_ID);
             (str "text", main_text format_line d);
             (str "parse_mode", str "Markdown")])
      (str "application/json") 20 in
  (exists msg,
      render_png py_int textbbox_right lower pillow_missing path_exists
        truetype env save d = Raised msg)
  /\ program_requests fmt_1f py_int py_float fmt_0f textbbox_right lower
       pillow_missing path_exists truetype env save format_line e urlopen
       encode_error w
     = [message]
  /\ snd (program fmt_1f py_int py_float fmt_0f textbbox_right lower
            pillow_missing path_exists truetype env save format_line e
            urlopen encode_error w)
     = Returned (match urlopen message with
                 | Reply true => 0%Z
                 | _ => 1%Z
                 end).
Proof.
  intros Hno Hload Hd. cbv zeta.
  set (message := mkrequest _ (Json _) _ 20).
  assert (exists msg,
             render_png py_int textbbox_right lower pillow_missing path_exists
               truetype env save d = Raised msg) as [msg Hr].
  { unfold render_png, Render.render_dashboard_png.
    destruct pillow_missing as [m |]; [now exists m |].
    destruct Hno as [Hno | Hno]; [congruence |].
    rewrite (find_font_none Hno). eexists. reflexivity. }
  split; [now exists msg |].
  assert (send_telegram_message e urlopen (main_text format_line d)
          = (match urlopen message with
             | Reply ok => ok
             | ReplyRaised _ => false
             end, [message])) as Hmsg.
  { unfold send_telegram_message, _telegram_api_request.
    rewrite Hload. cbv zeta.
    change (str "/" ++ str "sendMessage") with (str "/sendMessage").
    fold message.
    destruct (urlopen message) as [m | ok]; reflexivity. }
  unfold program_requests, program, main_requests, main_telegram, main.
  rewrite Hd, Hr, text_fallback_spec. cbn [fst snd app flat_map].
  unfold delivery_requests. rewrite Hmsg. cbn [fst snd app].
  split; [reflexivity |].
  destruct (urlopen message) as [m | [|]]; reflexivity.
Qed.

End ProgramFacts.

Lemma program_without_image_witness :
  program_requests JsonNum.fmt_1f JsonNum.py_int JsonNum.py_float
    JsonNum.fmt_0f CardExample.fixed_width CardExample.lower_ascii None
    (fun _ => false)
    (fun _ _ => Returned CardExample.Text_face)
    (Render.mkenviron None None None None)
    (fun _ => Returned [])
    (fun ln => snd ln)
    (Telegram.mkenvironment (Some (str "42:token")) Telegram.ConfigRaised)
    (fun _ => Telegram.Reply true)
    (fun s => s)
    (mkworld 7 (Birthdays.mkdate 2024 6 10) (str "10.06.2024")
       (fun _ => FetchRaised) (Raised (str "khal")) Todos.Absent
       Birthdays.Missing)
  = [Telegram.mkrequest
       (str "https://api.telegram.org/bot" ++ str "42:token"
        ++ str "/sendMessage")
       (Telegram.Json
          [(str "chat_id", Telegram.TELEGRAM_CHAT_ID);
           (str "text",
            main_text (fun ln => snd ln)
              (mkdashboard (str "Guten Morgen!")
                 (str "Rathenow · " ++ str "10.06.2024") (str "10.06.2024")
                 (@unavailable JsonNum.jnum)
                 [(str "info", str "Wetterdaten nicht verfügbar")]
                 [str "Fehler: " ++ str "khal"]
                 [str "Keine To-dos für heute"] []));
           (str "parse_mode", str "Markdown")])
       (str "application/json") 20].
Proof.
  refine (proj1 (proj2
           (program_without_image JsonNum.jnum JsonNum.fmt_1f JsonNum.py_int
              JsonNum.py_float JsonNum.fmt_0f _ CardExample.fixed_width
              CardExample.lower_ascii None (fun _ => false)
              (fun _ _ => Returned CardExample.Text_face)
              (Render.mkenviron None None None None)
              (fun _ => Returned [])
              (fun ln => snd ln)
              (Telegram.mkenvironment (Some (str "42:token"))
                 Telegram.ConfigRaised)
              (fun _ => Telegram.Reply true)
              (fun s => s)
              (str "42:token")
              (mkworld 7 (Birthdays.mkdate 2024 6 10) (str "10.06.2024")
                 (fun _ => FetchRaised) (Raised (str "khal")) Todos.Absent
                 Birthdays.Missing)
              _ _ eq_refl eq_refl))).
  right. unfold Render.candidates. repeat constructor.
Defined.

(* ================================================================== *)
(** * The to-do card: bullets and hanging indent *)
(* ================================================================== *)

Section IndentFacts.

Local Open Scope Z_scope.

Variable font : Type.
Variable textbbox_right : font -> pystr -> Z.
Variables f_h f_txt : font.
Variable lower : pystr -> pystr.
Variable colour : Type.
Variables white muted divider : colour.

(** The lines of one item: the first behind the prefix at [first_x], the
    others at [rest_x]. *)
Lemma draw_wrapped_columns (limit first_x rest_x : Z) (prefix : pystr)
  (wrapped_lines : list pystr) (is_first : bool) (yy : Z)
  (ops : list (draw_op font colour)) :
  exists new,
    flow_ops (draw_wrapped f_txt muted limit first_x rest_x prefix is_first
                wrapped_lines yy ops)
    = ops ++ new
    /\ Forall (fun o =>
                 exists y s,
                   o = DrawText rest_x y s muted f_txt /\ In s wrapped_lines
                   \/ exists t,
                        o = DrawText first_x y (prefix ++ t) muted f_txt
                        /\ In t wrapped_lines)
         new.
Proof.
  revert is_first yy ops.
  induction wrapped_lines as [| wl rest IH]; intros is_first yy ops.
  - exists []. cbn. now rewrite app_nil_r.
  - cbn [draw_wrapped].
    assert (exists y s,
               (if is_first
                then DrawText first_x yy (prefix ++ wl) muted f_txt
                else DrawText rest_x yy wl muted f_txt)
               = DrawText rest_x y s muted f_txt /\ In s (wl :: rest)
               \/ exists t,
                    (if is_first
                     then DrawText first_x yy (prefix ++ wl) muted f_txt
                     else DrawText rest_x yy wl muted f_txt)
                    = DrawText first_x y (prefix ++ t) muted f_txt
                    /\ In t (wl :: rest)) as Hop.
    { destruct is_first.
      - exists yy, wl. right. exists wl. split; [reflexivity | now left].
      - exists yy, wl. left. split; [reflexivity | now left]. }
    destruct (yy + 44 >? limit).
    + cbn [flow_ops]. eexists. split; [reflexivity |].
      constructor; [exact Hop | constructor].
    + destruct (IH false (yy + 44)
                  (ops ++ [if is_first
                           then DrawText first_x yy (prefix ++ wl) muted f_txt
                           else DrawText rest_x yy wl muted f_txt]))
        as (new & Hnew & Hall).
      rewrite Hnew, <- app_assoc. eexists. split; [reflexivity |].
      cbn [app]. constructor; [exact Hop |].
      eapply Forall_impl; [| exact Hall].
      intros o (y & s & [[-> Hs] | (t & -> & Ht)]); exists y, s.
      * left. split; [reflexivity | now right].
      * right. exists t. split; [reflexivity | now right].
Qed.

(** In the to-do card every content line is either the first line of an
    item, drawn at the left edge of the content behind the bullet, or a
    continuation line, drawn indented by the width of the bullet; no line
    of the card is empty or has whitespace at its end. *)
Theorem todo_card_hanging_indent (style : pystr) (x y w h : Z)
  (header : pystr) (lines : list pystr) (bgcol : colour) :
  is_todos_header lower header = true ->
  exists content,
    fst (card_block textbbox_right f_h f_txt lower white muted divider style
           x y w h header lines bgcol)
    = card_frame f_h white style x y w h header bgcol ++ content
    /\ forall x0 y0 s c f,
         In (DrawText x0 y0 s c f) content ->
         (x0 = x + 34 /\ exists t, s = bullet ++ t /\ t <> [] /\ strip t = t)
         \/ (x0 = x + 34 + textbbox_right f_txt bullet
             /\ s <> [] /\ strip s = s).
Proof.
  intros Htd. rewrite card_block_flow. cbv zeta. rewrite Htd. cbn [fst].
  set (cal := is_calendar_header lower header).
  generalize (card_frame f_h white style x y w h header bgcol) as frame.
  generalize (y + 86) as yy.
  induction lines as [| ln lines IH]; intros yy frame.
  - exists []. cbn [draw_items flow_ops]. rewrite app_nil_r.
    split; [reflexivity | intros ? ? ? ? ? []].
  - cbn [draw_items].
    assert (exists new,
               flow_ops (draw_item textbbox_right f_txt muted x y w h true cal
                           ln yy frame)
               = frame ++ new
               /\ forall x0 y0 s c f,
                    In (DrawText x0 y0 s c f) new ->
                    (x0 = x + 34
                     /\ exists t, s = bullet ++ t /\ t <> [] /\ strip t = t)
                    \/ (x0 = x + 34 + textbbox_right f_txt bullet
                        /\ s <> [] /\ strip s = s)) as (new & Hnew & Hcols).
    { unfold draw_item. rewrite startswith_app, skipn_length_app.
      destruct (draw_wrapped_columns (y + h - 40) (x + 34)
                  (x + 34 + textbbox_right f_txt bullet) bullet
                  (_wrap textbbox_right (lstrip (_clean_todo ln)) f_txt
                     (w - 68 - textbbox_right f_txt bullet))
                  true yy frame) as (new & Hnew & Hall).
      exists new. split; [exact Hnew |].
      intros x0 y0 s c f Hin.
      rewrite Forall_forall in Hall.
      pose proof (wrap_lines_trimmed font textbbox_right f_txt
                    (w - 68 - textbbox_right f_txt bullet)
                    (lstrip (_clean_todo ln))) as Hfit.
      rewrite Forall_forall in Hfit.
      destruct (Hall _ Hin) as (y' & s' & [[E Hs] | (t & E & Ht)]);
        injection E as -> -> -> -> ->.
      - right. split; [reflexivity |]. apply Hfit in Hs. exact Hs.
      - left. split; [reflexivity |]. exists t. split; [reflexivity |].
        apply Hfit in Ht. exact Ht. }
    destruct (draw_item textbbox_right f_txt muted x y w h true cal ln yy
                frame) as [yy1 ops1 | yy1 ops1]; cbn [flow_ops] in Hnew.
    + destruct (draw_divider divider style x y w h true yy1 ops1)
        as [yy2 ops2] eqn:Ediv.
      assert (exists line, ops2 = ops1 ++ line
                /\ forall x0 y0 s c f, ~ In (DrawText x0 y0 s c f) line)
        as (line & -> & Hline).
      { unfold draw_divider in Ediv.
        destruct (yy1 <? y + h - 60);
          [destruct (PyStr.eqb style (str "list") || true) |];
          injection Ediv as <- <-.
        - eexists. split; [reflexivity |].
          intros ? ? ? ? ? [H | []]. discriminate.
        - exists []. rewrite app_nil_r. split; [reflexivity | intros ? ? ? ? ? []].
        - exists []. rewrite app_nil_r. split; [reflexivity | intros ? ? ? ? ? []]. }
      destruct (IH yy2 (ops1 ++ line)) as (content & Hc & Hcontent).
      rewrite Hc, Hnew, <- !app_assoc. eexists. split; [reflexivity |].
      intros x0 y0 s c f Hin.
      apply in_app_or in Hin as [Hin | Hin];
        [exact (Hcols _ _ _ _ _ Hin) |].
      apply in_app_or in Hin as [Hin | Hin];
        [exfalso; exact (Hline _ _ _ _ _ Hin) |].
      exact (Hcontent _ _ _ _ _ Hin).
    + cbn [flow_ops]. exists new. split; [exact Hnew | exact Hcols].
Qed.

End IndentFacts.

Lemma todo_card_hanging_indent_witness :
  exists content,
    fst (CardExample.card_block (str "cards") 48 0 400 830 (str "To-dos")
           [str "- [ ] Steuer machen und Belege sortieren"; str "- [x] Brot"]
           CardExample.CardBg)
    = card_frame CardExample.Header_face CardExample.White (str "cards")
        48 0 400 830 (str "To-dos") CardExample.CardBg
      ++ content
    /\ forall x0 y0 s c f,
         In (DrawText x0 y0 s c f) content ->
         (x0 = (48 + 34)%Z
          /\ exists t, s = bullet ++ t /\ t <> [] /\ strip t = t)
         \/ (x0 = (48 + 34
                   + CardExample.fixed_width CardExample.Text_face bullet)%Z
             /\ s <> [] /\ strip s = s).
Proof.
  apply (todo_card_hanging_indent _ CardExample.fixed_width
           CardExample.Header_face CardExample.Text_face
           CardExample.lower_ascii _ CardExample.White CardExample.Muted
           CardExample.Divider (str "cards") 48 0 400 830 (str "To-dos")
           [str "- [ ] Steuer machen und Belege sortieren"; str "- [x] Brot"]
           CardExample.CardBg).
  vm_compute. reflexivity.
Defined.
